(** * DIBBS solicitations scraper: parsers, crawler loop and merge engine

    A shallow embedding of the parsing, crawling and reconciliation code of
    [src/combined.py] and [src/solicitations.py], with the properties the
    specification states about them.

    Conventions of the embedding.
    - A Python [str] is a [string]; the model covers ASCII text, so
      [str.upper], [str.isspace], [str.isdigit], [int] and the classes of
      [re] are the ASCII ones.  The one character above 127 that the code
      names, the guillemet at which the row parser cuts a cell, is the
      character of its code point, 187.
    - An exception that leaves a function is a value of its result:
      [None], or the left side of a sum.
    - A Python dict is a record with the dict's keys as fields.  A key that
      is always stored is a plain field; a key that is stored on some paths
      only is an [option] field, [None] standing for the absent key and for
      Python's [None] alike (every read of such a key is a [.get]).
    - The dicts [solicitations] and [bq_lookup] are iterated, so they are
      association lists in insertion order.
    - Logging and the [debug_stats] counters do not reach the returned
      values and are left out. *)

From Stdlib Require Import List String Ascii Bool Arith ZArith Lia.
From Stdlib Require Import DecimalString.
Import ListNotations.
Local Open Scope string_scope.
Local Open Scope list_scope.

(** ** Python string primitives *)

Module Py.

Definition dquote : ascii := "034"%char.
Definition comma : ascii := ","%char.
Definition hyphen : ascii := "-"%char.
Definition newline : ascii := "010"%char.
Definition blank : ascii := " "%char.

(** [str.isspace] on one ASCII character: TAB LF VT FF CR, FS GS RS US and
    the space. *)
Definition isspace (c : ascii) : bool :=
  let n := nat_of_ascii c in
  ((9 <=? n)%nat && (n <=? 13)%nat) || ((28 <=? n)%nat && (n <=? 32)%nat).

Definition isdigit_char (c : ascii) : bool :=
  let n := nat_of_ascii c in (48 <=? n)%nat && (n <=? 57)%nat.

Definition islower_char (c : ascii) : bool :=
  let n := nat_of_ascii c in (97 <=? n)%nat && (n <=? 122)%nat.

Definition upper_char (c : ascii) : ascii :=
  if islower_char c then ascii_of_nat (nat_of_ascii c - 32) else c.

(** [s.upper()] *)
Fixpoint upper (s : string) : string :=
  match s with
  | EmptyString => EmptyString
  | String c s' => String (upper_char c) (upper s')
  end.

(** [s.lstrip(chars)], [s.rstrip(chars)] and [s.strip(chars)], the set of
    characters given as a predicate. *)
Fixpoint lstrip_by (p : ascii -> bool) (s : string) : string :=
  match s with
  | EmptyString => EmptyString
  | String c s' => if p c then lstrip_by p s' else s
  end.

Fixpoint rstrip_by (p : ascii -> bool) (s : string) : string :=
  match s with
  | EmptyString => EmptyString
  | String c s' =>
      match rstrip_by p s' with
      | EmptyString => if p c then EmptyString else String c EmptyString
      | r => String c r
      end
  end.

Definition strip_by (p : ascii -> bool) (s : string) : string :=
  rstrip_by p (lstrip_by p s).

(** [s.strip()] *)
Definition strip (s : string) : string := strip_by isspace s.

(** [s.strip(q)] where [q] is the double-quote character. *)
Definition strip_quotes (s : string) : string :=
  strip_by (Ascii.eqb dquote) s.

(** [s.replace(c, '')] for a one-character [c]. *)
Fixpoint remove_char (x : ascii) (s : string) : string :=
  match s with
  | EmptyString => EmptyString
  | String c s' =>
      if Ascii.eqb c x then remove_char x s' else String c (remove_char x s')
  end.

(** [s.split(sep)] for a one-character [sep]: never the empty list. *)
Fixpoint split (sep : ascii) (s : string) : list string :=
  match s with
  | EmptyString => [EmptyString]
  | String c s' =>
      if Ascii.eqb c sep then EmptyString :: split sep s'
      else match split sep s' with
           | h :: t => String c h :: t
           | [] => [String c EmptyString]
           end
  end.

(** [sep.join(parts)] for a one-character [sep]. *)
Fixpoint join (sep : ascii) (parts : list string) : string :=
  match parts with
  | [] => EmptyString
  | [p] => p
  | p :: rest => (p ++ String sep (join sep rest))%string
  end.

(** [s.split()]: the maximal runs of non-blank characters; [cur] is the run
    read so far. *)
Fixpoint words_from (cur : string) (s : string) : list string :=
  match s with
  | EmptyString => match cur with EmptyString => [] | _ => [cur] end
  | String c s' =>
      if isspace c
      then match cur with
           | EmptyString => words_from EmptyString s'
           | _ => cur :: words_from EmptyString s'
           end
      else words_from (cur ++ String c EmptyString)%string s'
  end.

Definition words (s : string) : list string := words_from EmptyString s.

(** [s.isdigit()]: non-empty and digits only. *)
Fixpoint all_chars (p : ascii -> bool) (s : string) : bool :=
  match s with
  | EmptyString => true
  | String c s' => p c && all_chars p s'
  end.

Definition isdigit (s : string) : bool :=
  match s with
  | EmptyString => false
  | _ => all_chars isdigit_char s
  end.

(** Truth value of a string and of an optional string. *)
Definition truthy (s : string) : bool :=
  match s with EmptyString => false | _ => true end.

Definition truthy_opt (o : option string) : bool :=
  match o with Some s => truthy s | None => false end.

(** [s[a:b]] for [0 <= a <= b]: positions past the end give nothing. *)
Fixpoint drop (n : nat) (s : string) : string :=
  match n, s with
  | O, _ => s
  | S n', String _ s' => drop n' s'
  | S _, EmptyString => EmptyString
  end.

Fixpoint take (n : nat) (s : string) : string :=
  match n, s with
  | S n', String c s' => String c (take n' s')
  | _, _ => EmptyString
  end.

Definition slice (a b : nat) (s : string) : string := take (b - a) (drop a s).

(** [s.zfill(width)]: zeros go after a leading sign. *)
Fixpoint zeros (n : nat) : string :=
  match n with O => EmptyString | S n' => String "0"%char (zeros n') end.

Definition zfill (width : nat) (s : string) : string :=
  let pad := zeros (width - String.length s) in
  match s with
  | String c s' =>
      if Ascii.eqb c "+"%char || Ascii.eqb c "-"%char
      then String c (pad ++ s')%string
      else (pad ++ s)%string
  | EmptyString => pad
  end.

(** [prefix in s] as a test at the head, and [needle in s]. *)
Fixpoint starts_with (p s : string) : bool :=
  match p, s with
  | EmptyString, _ => true
  | String a p', String b s' => Ascii.eqb a b && starts_with p' s'
  | String _ _, EmptyString => false
  end.

Fixpoint contains (needle s : string) : bool :=
  starts_with needle s
  || match s with
     | EmptyString => false
     | String _ s' => contains needle s'
     end.

(** [s.split(sep)] for a non-empty multi-character [sep]: at each position
    the separator is tried first; [skip] counts the characters of a matched
    separator still to pass over. *)
Fixpoint split_str_from (sep : string) (skip : nat) (s : string)
  : list string :=
  match s with
  | EmptyString => [EmptyString]
  | String c s' =>
      match skip with
      | S k => split_str_from sep k s'
      | O =>
          if starts_with sep s
          then EmptyString :: split_str_from sep (String.length sep - 1) s'
          else match split_str_from sep 0 s' with
               | h :: t => String c h :: t
               | [] => [String c EmptyString]
               end
      end
  end.

Definition split_str (sep s : string) : list string := split_str_from sep 0 s.

(** [int(s)] for ASCII text: blanks around, an optional sign, then decimal
    digits in which single underscores may separate digits; a text of more
    digits than [int_max_str_digits] is refused.  [None] is the
    [ValueError].  The blanks [int] skips are TAB LF VT FF CR and the space:
    it does not skip FS GS RS US, which [str.strip] removes. *)
Definition int_space (c : ascii) : bool :=
  let n := nat_of_ascii c in
  ((9 <=? n)%nat && (n <=? 13)%nat) || (n =? 32)%nat.

(** [sys.get_int_max_str_digits()], as the interpreter sets it. *)
Definition int_max_str_digits : nat := 4300.

(** The number of digits of a text: what the limit is compared with
    (the zeros at the head count, a sign and the underscores do not). *)
Fixpoint count_digits (s : string) : nat :=
  match s with
  | EmptyString => O
  | String c s' =>
      if isdigit_char c then S (count_digits s') else count_digits s'
  end.

Definition digit_val (c : ascii) : Z := Z.of_nat (nat_of_ascii c - 48).

Fixpoint int_digits (acc : Z) (after_digit : bool) (s : string) : option Z :=
  match s with
  | EmptyString => if after_digit then Some acc else None
  | String c s' =>
      if isdigit_char c then int_digits (10 * acc + digit_val c) true s'
      else if Ascii.eqb c "_"%char && after_digit
           then match s' with
                | String d _ => if isdigit_char d then int_digits acc false s'
                                else None
                | EmptyString => None
                end
           else None
  end.

(** The number a text writes, whatever its length. *)
Definition int_literal (s : string) : option Z :=
  match strip_by int_space s with
  | String c s' =>
      if Ascii.eqb c "-"%char then option_map Z.opp (int_digits 0 false s')
      else if Ascii.eqb c "+"%char then int_digits 0 false s'
      else int_digits 0 false (String c s')
  | EmptyString => None
  end.

Definition int (s : string) : option Z :=
  if (int_max_str_digits <? count_digits s)%nat then None
  else int_literal s.

End Py.

(** ** Rows and entities

    One record type per dict shape of the source.  The field names are the
    dict keys. *)

(** A technical document of a web row: [{'title': ..., 'url': ...}]. *)
Module Doc.
Record t := mk { title : string; url : string }.
End Doc.

(** A row of [parse_as_file]: every key is read with [record[k]]. *)
Module AS.
Record row := mk {
  nsn : string;
  supplier_cage_code : string;
  supplier_part_number : string;
  supplier_name : string
}.
End AS.

(** A row of [parse_bq_file].  [nsn_clean] is stored only for a non-empty
    NSN, and [nomenclature], which the merge reads, never. *)
Module BQ.
Record row := mk {
  solicitation_number : string;
  solicitation_type : string;
  small_business_setaside : string;
  additional_clause_fillins : string;
  return_by_date : string;
  line_number : string;
  purchase_request : string;
  nsn_part_number : string;
  unit_of_issue : string;
  quantity : string;
  unit_price : string;
  delivery_days : string;
  nsn_clean : option string;
  nomenclature : option string
}.
End BQ.

(** A row of [parse_in_file].  [nsn_clean] is stored only for a non-empty
    NSN. *)
Module IN.
Record row := mk {
  solicitation_number : string;
  nsn_part_number : string;
  purchase_request : string;
  return_by_date : string;
  file_name : string;
  quantity : string;
  unit_issue : string;
  nomenclature : string;
  buyer_code : string;
  amsc : string;
  item_type : string;
  small_business_setaside : string;
  setaside_percentage : string;
  nsn_clean : option string
}.
End IN.

(** A row of [RfqRecsParser], which starts every row with all its keys. *)
Module Web.
Record row := mk {
  item_number : string;
  nsn_part_number : string;
  nomenclature : string;
  technical_documents : list Doc.t;
  solicitation : string;
  solicitation_url : string;
  setaside_type : string;
  rfq_quote_status : string;
  purchase_request : string;
  pr_number : string;
  quantity : string;
  issued : string;
  return_by : string
}.
End Web.

(** [d.get(k, default)] on an optional field. *)
Definition get_or {A : Type} (o : option A) (default : A) : A :=
  match o with Some v => v | None => default end.

(** ** The quoted-field and fixed-width parsers of [combined.py]

    [parse_bq_file] and [parse_as_file] of [file_processor.py] run the same
    loops over the lines of a file. *)

Module Parsers.

(** The state of the character loop of [parse_bq_file]: [parts], [current]
    and [in_quotes]. *)
Record tok_state := mk_tok {
  parts : list string;
  current : string;
  in_quotes : bool
}.

Definition tok_init : tok_state := mk_tok [] EmptyString false.

(** One turn of [for char in line]. *)
Definition tok_step (st : tok_state) (char : ascii) : tok_state :=
  if Ascii.eqb char Py.dquote && negb (in_quotes st)
  then mk_tok (parts st) (current st) true
  else if Ascii.eqb char Py.dquote && in_quotes st
  then mk_tok (parts st) (current st) false
  else if Ascii.eqb char Py.comma && negb (in_quotes st)
  then mk_tok (parts st ++ [current st]) EmptyString (in_quotes st)
  else mk_tok (parts st) (current st ++ String char EmptyString)%string
              (in_quotes st).

Fixpoint tok_run (st : tok_state) (line : string) : tok_state :=
  match line with
  | EmptyString => st
  | String char rest => tok_run (tok_step st char) rest
  end.

(** The loop and the closing [if current: parts.append(current)]. *)
Definition tokenize (line : string) : list string :=
  let st := tok_run tok_init line in
  if Py.truthy (current st) then parts st ++ [current st] else parts st.

(** [parts[i].strip(q) if len(parts) > i else ''] *)
Definition field_at (i : nat) (ps : list string) : string :=
  if (i <? List.length ps)%nat then Py.strip_quotes (nth i ps EmptyString)
  else EmptyString.

(** The dict [quote] built from an accepted record. *)
Definition bq_quote (ps : list string) : BQ.row :=
  let nsn := field_at 46 ps in
  BQ.mk
    (Py.strip_quotes (nth 0 ps EmptyString))
    (Py.strip_quotes (nth 1 ps EmptyString))
    (Py.strip_quotes (nth 2 ps EmptyString))
    (Py.strip_quotes (nth 3 ps EmptyString))
    (Py.strip_quotes (nth 4 ps EmptyString))
    (field_at 43 ps)
    (field_at 45 ps)
    nsn
    (field_at 47 ps)
    (field_at 48 ps)
    (field_at 49 ps)
    (field_at 50 ps)
    (if Py.truthy nsn then Some (Py.remove_char Py.hyphen nsn) else None)
    None.

Fixpoint bq_lines (lines : list string) : list BQ.row :=
  match lines with
  | [] => []
  | raw :: rest =>
      let line := Py.strip raw in
      if negb (Py.truthy line) then bq_lines rest
      else
        let ps := tokenize line in
        if (48 <=? List.length ps)%nat then bq_quote ps :: bq_lines rest
        else bq_lines rest
  end.

Definition parse_bq_file (content : string) : list BQ.row :=
  bq_lines (Py.split Py.newline content).

(** [parse_as_file]: [[p.strip(q) for p in line.split(',')]]. *)
Definition as_parts (line : string) : list string :=
  map Py.strip_quotes (Py.split Py.comma line).

Definition as_source (ps : list string) : AS.row :=
  AS.mk (nth 0 ps EmptyString) (nth 1 ps EmptyString) (nth 2 ps EmptyString)
        (if (3 <? List.length ps)%nat then nth 3 ps EmptyString
         else EmptyString).

Fixpoint as_lines (lines : list string) : list AS.row :=
  match lines with
  | [] => []
  | raw :: rest =>
      let line := Py.strip raw in
      if negb (Py.truthy line) then as_lines rest
      else
        let ps := as_parts line in
        if (3 <=? List.length ps)%nat then as_source ps :: as_lines rest
        else as_lines rest
  end.

Definition parse_as_file (content : string) : list AS.row :=
  as_lines (Py.split Py.newline content).

(** [parse_in_file]: the fixed-width record of one line.  A slice never
    raises, so the [try] around it has no failing path. *)
Definition in_guarded (bound a b : nat) (line : string) : string :=
  if (bound <? String.length line)%nat then Py.strip (Py.slice a b line)
  else EmptyString.

Definition in_record (line : string) : IN.row :=
  let nsn := Py.strip (Py.slice 13 59 line) in
  IN.mk
    (Py.strip (Py.slice 0 13 line))
    nsn
    (Py.strip (Py.slice 59 72 line))
    (Py.strip (Py.slice 72 80 line))
    (Py.strip (Py.slice 80 99 line))
    (Py.strip (Py.slice 99 106 line))
    (Py.strip (Py.slice 106 108 line))
    (Py.strip (Py.slice 108 129 line))
    (in_guarded 129 129 134 line)
    (in_guarded 134 134 135 line)
    (in_guarded 135 135 136 line)
    (in_guarded 136 136 137 line)
    (in_guarded 137 137 140 line)
    (if Py.truthy nsn then Some (Py.remove_char Py.hyphen nsn) else None).

Fixpoint in_lines (lines : list string) : list IN.row :=
  match lines with
  | [] => []
  | line :: rest =>
      if (String.length (Py.strip line) =? 0)%nat then in_lines rest
      else in_record line :: in_lines rest
  end.

Definition parse_in_file (content : string) : list IN.row :=
  in_lines (Py.split Py.newline content).

End Parsers.

(** ** The fixed-width parser of [file_processor.py]

    [DIBBSFileProcessor.parse_in_file] reads the lines of a file, each with
    its line end, takes the same slices and has no guard on [buyer_code].
    The file is [None] when it cannot be opened: the error is logged and no
    record is returned. *)

Module FileProcessor.

Definition in_record (line : string) : IN.row :=
  let nsn := Py.strip (Py.slice 13 59 line) in
  IN.mk
    (Py.strip (Py.slice 0 13 line))
    nsn
    (Py.strip (Py.slice 59 72 line))
    (Py.strip (Py.slice 72 80 line))
    (Py.strip (Py.slice 80 99 line))
    (Py.strip (Py.slice 99 106 line))
    (Py.strip (Py.slice 106 108 line))
    (Py.strip (Py.slice 108 129 line))
    (Py.strip (Py.slice 129 134 line))
    (Parsers.in_guarded 134 134 135 line)
    (Parsers.in_guarded 135 135 136 line)
    (Parsers.in_guarded 136 136 137 line)
    (Parsers.in_guarded 137 137 140 line)
    (if Py.truthy nsn then Some (Py.remove_char Py.hyphen nsn) else None).

Fixpoint in_lines (lines : list string) : list IN.row :=
  match lines with
  | [] => []
  | line :: rest =>
      if (String.length (Py.strip line) =? 0)%nat then in_lines rest
      else in_record line :: in_lines rest
  end.

Definition parse_in_file (file : option (list string)) : list IN.row :=
  match file with
  | Some lines => in_lines lines
  | None => []
  end.

End FileProcessor.

(** ** Insertion-ordered dicts with string keys *)

Module Dict.

Definition t (V : Type) := list (string * V).

Fixpoint get {V : Type} (k : string) (d : t V) : option V :=
  match d with
  | [] => None
  | (k', v) :: rest => if String.eqb k k' then Some v else get k rest
  end.

Definition mem {V : Type} (k : string) (d : t V) : bool :=
  match get k d with Some _ => true | None => false end.

(** [d[k] = v]: in place when the key is there, at the end otherwise. *)
Fixpoint set {V : Type} (k : string) (v : V) (d : t V) : t V :=
  match d with
  | [] => [(k, v)]
  | (k', v') :: rest =>
      if String.eqb k k' then (k, v) :: rest else (k', v') :: set k v rest
  end.

(** [del d[k]] for a key that is there; nothing changes otherwise. *)
Fixpoint del {V : Type} (k : string) (d : t V) : t V :=
  match d with
  | [] => []
  | (k', v') :: rest =>
      if String.eqb k k' then rest else (k', v') :: del k rest
  end.

Definition keys {V : Type} (d : t V) : list string := map fst d.
Definition values {V : Type} (d : t V) : list V := map snd d.

End Dict.

(** ** [solicitations.py]: form parser, purchase-request cell, session *)

Module Solicitations.

(** A page is the sequence of callbacks [html.parser.HTMLParser.feed] makes
    for it; tag and attribute names arrive in lower case.  [html_event] has
    the callbacks of a page in which every attribute is written with a
    value; [Raw], at the end of this module, has those of any page. *)
Inductive html_event :=
| StartTag (tag : string) (attrs : list (string * string))
| EndTag (tag : string)
| Data (data : string).

Definition page := list html_event.

(** What the code can raise on such a page: a failed request (of the
    [requests] library) or a [KeyError] of the form parser. *)
Inductive exn (NetErr : Type) :=
| RequestFailed (e : NetErr)
| KeyError (key : string).
Arguments RequestFailed {NetErr} e.
Arguments KeyError {NetErr} key.

(** [dict(attrs)]: the last pair of a name wins. *)
Definition attrs_dict (attrs : list (string * string)) : Dict.t string :=
  fold_left (fun d kv => Dict.set (fst kv) (snd kv) d) attrs [].

(** The attributes of [FormParser]. *)
Record form_parser := mk_form_parser {
  form_data : Dict.t string;
  form_action : string;
  form_method : string;
  parsing_form : bool
}.

Definition form_parser_init : form_parser :=
  mk_form_parser [] EmptyString "get" false.

(** [FormParser.handle_starttag]; [inl k] is the [KeyError] of [attrs[k]]. *)
Definition handle_starttag (p : form_parser) (tag : string)
    (attrs : list (string * string)) : string + form_parser :=
  if String.eqb tag "form" then
    let a := attrs_dict attrs in
    match Dict.get "action" a with
    | None => inl "action"
    | Some action =>
        match Dict.get "method" a with
        | None => inl "method"
        | Some method => inr (mk_form_parser [] action (Py.upper method) true)
        end
    end
  else if parsing_form p && String.eqb tag "input" then
    let a := attrs_dict attrs in
    match Dict.get "name" a, Dict.get "value" a with
    | Some name, Some value =>
        inr (mk_form_parser (Dict.set name value (form_data p))
                            (form_action p) (form_method p) (parsing_form p))
    | _, _ => inr p
    end
  else inr p.

(** [FormParser.handle_endtag] *)
Definition handle_endtag (p : form_parser) (tag : string) : form_parser :=
  if String.eqb tag "form"
  then mk_form_parser (form_data p) (form_action p) (form_method p) false
  else p.

Fixpoint feed (p : form_parser) (pg : page) : string + form_parser :=
  match pg with
  | [] => inr p
  | StartTag tag attrs :: rest =>
      match handle_starttag p tag attrs with
      | inl k => inl k
      | inr p' => feed p' rest
      end
  | EndTag tag :: rest => feed (handle_endtag p tag) rest
  | Data _ :: rest => feed p rest
  end.

(** [s.replace(old, '')] for a non-empty [old]. *)
Fixpoint remove_str_from (old : string) (skip : nat) (s : string) : string :=
  match s with
  | EmptyString => EmptyString
  | String c s' =>
      match skip with
      | S k => remove_str_from old k s'
      | O =>
          if Py.starts_with old s
          then remove_str_from old (String.length old - 1) s'
          else String c (remove_str_from old 0 s')
      end
  end.

(** [FormParser.parse(page)]: (form_data, form_action, form_method). *)
Definition FormParser_parse (pg : page)
  : string + (Dict.t string * string * string) :=
  match feed form_parser_init pg with
  | inl k => inl k
  | inr p =>
      inr (form_data p, remove_str_from "./" 0 (form_action p), form_method p)
  end.

(** The purchase-request cell (column 7) of [RfqRecsParser.handle_endtag]:
    the values stored under [pr_number] and [quantity], both [''] at the
    start of the row. *)
Fixpoint nonblank_lines (lines : list string) : list string :=
  match lines with
  | [] => []
  | line :: rest =>
      if Py.truthy (Py.strip line) then Py.strip line :: nonblank_lines rest
      else nonblank_lines rest
  end.

Fixpoint any_char (p : ascii -> bool) (s : string) : bool :=
  match s with
  | EmptyString => false
  | String c s' => p c || any_char p s'
  end.

(** [for line in lines[1:]]: the quantity of the first line that decides. *)
Fixpoint quantity_below (lines : list string) : string :=
  match lines with
  | [] => EmptyString
  | line :: rest =>
      if Py.contains "QTY:" (Py.upper line)
      then Py.strip (nth 1 (Py.split_str "QTY:" (Py.upper line)) EmptyString)
      else if any_char Py.isdigit_char line then line
      else quantity_below rest
  end.

Definition pr_cell (cell_text : string) : string * string :=
  match nonblank_lines (Py.split Py.newline cell_text) with
  | [] => (EmptyString, EmptyString)
  | pr_line :: below =>
      if Py.contains "QTY:" (Py.upper pr_line)
      then
        let parts := Py.split_str "QTY:" (Py.upper pr_line) in
        (Py.strip (nth 0 parts EmptyString), Py.strip (nth 1 parts EmptyString))
      else (pr_line, quantity_below below)
  end.

(** *** The network, the session and the page loop *)

Definition DIBBS_HOST : string := "https://www.dibbs.bsm.dla.mil/".

Inductive http_method := GET | POST.

(** [session.request(method, url, data=...)] *)
Record request := mk_request {
  method : http_method;
  url : string;
  data : Dict.t string
}.

(** [str(n)] for a page number. *)
Definition str_of_nat (n : nat) : string :=
  NilZero.string_of_uint (Nat.to_uint n).

Section Network.

(** [St] is the state a request acts on: the cookies of the session and
    whatever the server keeps.  [send] is [session.request(...)] followed by
    [.content.decode('utf-8')]: it fails with an error of the [requests]
    library or answers with a page.  [RfqRecsParser_parse] is
    [RfqRecsParser().parse(page)]: the declared count and the rows. *)
Variables St NetErr : Type.
Variable send : St -> request -> NetErr + (St * page).
Variable RfqRecsParser_parse : page -> nat * list Web.row.

(** A request that was issued, with what came back. *)
Definition exchange : Type := request * (NetErr + page).

(** [dibbs_session(host)], started from the state [s0] in which
    [requests.Session()] is created: the exchanges made, then the session
    or the exception raised. *)
Definition dibbs_session (host : string) (s0 : St)
  : list exchange * (exn NetErr + St) :=
  let r1 := mk_request GET (host ++ "dodwarning.aspx?goto=/")%string [] in
  match send s0 r1 with
  | inl e => ([(r1, inl e)], inl (RequestFailed e))
  | inr (s1, pg) =>
      match FormParser_parse pg with
      | inl k => ([(r1, inr pg)], inl (KeyError k))
      | inr (fd, action, _) =>
          let r2 := mk_request POST (host ++ action)%string fd in
          match send s1 r2 with
          | inl e => ([(r1, inr pg); (r2, inl e)], inl (RequestFailed e))
          | inr (s2, pg2) => ([(r1, inr pg); (r2, inr pg2)], inr s2)
          end
      end
  end.

(** [test_mode and max_records and len(rows) >= max_records] *)
Definition limit_reached (test_mode : bool) (max_records : option nat)
    (rows : list Web.row) : bool :=
  test_mode
  && match max_records with
     | Some (S m) => (S m <=? List.length rows)%nat
     | _ => false
     end.

(** [rows[:max_records]] on the paths where the limit was reached. *)
Definition cut (max_records : option nat) (rows : list Web.row)
  : list Web.row :=
  match max_records with Some m => firstn m rows | None => rows end.

(** The form state posted for page [number]. *)
Definition next_page_form (fd : Dict.t string) (number : nat)
  : Dict.t string :=
  let fd := Dict.set "__EVENTTARGET" "ctl00$cph1$grdRfqSearch" fd in
  let fd := Dict.set "__EVENTARGUMENT" ("Page$" ++ str_of_nat number)%string fd in
  let fd := Dict.set "ctl00$ddlNavigation" EmptyString fd in
  let fd := Dict.set "ctl00$ddlGotoDB" EmptyString fd in
  let fd := Dict.set "ctl00$txtValue" EmptyString fd in
  let fd := if Dict.mem "ctl00$butNavigation" fd
            then Dict.del "ctl00$butNavigation" fd else fd in
  if Dict.mem "ctl00$butDbSearch" fd
  then Dict.del "ctl00$butDbSearch" fd else fd.

Section Pages.

Variables (form_action : string) (count : nat).
Variables (test_mode : bool) (max_records : option nat).

(** [while len(rows) < count and len(rows_more) > 0: ...], one turn per
    unit of [fuel]; [None] when the fuel runs out with the loop still
    going.  The result is the exchanges made from here on and the rows
    returned or the exception raised. *)
Fixpoint page_loop (fuel : nat) (s : St) (fd : Dict.t string) (number : nat)
    (rows rows_more : list Web.row)
  : option (list exchange * (exn NetErr + list Web.row)) :=
  if (List.length rows <? count)%nat && (0 <? List.length rows_more)%nat then
    match fuel with
    | O => None
    | S fuel' =>
        if limit_reached test_mode max_records rows
        then Some ([], inr (cut max_records rows))
        else
          let number := S number in
          let req := mk_request POST form_action (next_page_form fd number) in
          match send s req with
          | inl e => Some ([(req, inl e)], inl (RequestFailed e))
          | inr (s', pg) =>
              match FormParser_parse pg with
              | inl k => Some ([(req, inr pg)], inl (KeyError k))
              | inr (fd', _, _) =>
                  let rows_more := snd (RfqRecsParser_parse pg) in
                  match page_loop fuel' s' fd' number (rows ++ rows_more)
                                  rows_more with
                  | None => None
                  | Some (log, out) => Some ((req, inr pg) :: log, out)
                  end
              end
          end
    end
  else Some ([], inr rows).

End Pages.

(** The part of [dibbs_solicitations] after the session is there: the
    first page by GET, then the loop.  The loop adds a row or stops at each
    turn, so [S count] turns are enough (see [page_loop_fuel]). *)
Definition scrape_pages (s : St) (day : string) (test_mode : bool)
    (max_records : option nat)
  : option (list exchange * (exn NetErr + list Web.row)) :=
  let form_action :=
    (DIBBS_HOST ++ "RFQ/RfqRecs.aspx?category=post&TypeSrch=dt&Value=" ++ day)
      %string in
  let req := mk_request GET form_action [] in
  match send s req with
  | inl e => Some ([(req, inl e)], inl (RequestFailed e))
  | inr (s', pg) =>
      match FormParser_parse pg with
      | inl k => Some ([(req, inr pg)], inl (KeyError k))
      | inr (fd, _, _) =>
          let (count, rows_more) := RfqRecsParser_parse pg in
          let rows := rows_more in
          if limit_reached test_mode max_records rows
          then Some ([(req, inr pg)], inr (cut max_records rows))
          else
            match page_loop form_action count test_mode max_records
                            (S count) s' fd 1 rows rows_more with
            | None => None
            | Some (log, out) => Some ((req, inr pg) :: log, out)
            end
      end
  end.

(** [dibbs_solicitations(config, day, test_mode, max_records)]: the
    exchanges of the session handshake, those of the pages, the outcome. *)
Definition dibbs_solicitations (s0 : St) (day : string) (test_mode : bool)
    (max_records : option nat)
  : option (list exchange * list exchange * (exn NetErr + list Web.row)) :=
  match dibbs_session DIBBS_HOST s0 with
  | (hs, inl e) => Some (hs, [], inl e)
  | (hs, inr s1) =>
      match scrape_pages s1 day test_mode max_records with
      | None => None
      | Some (log, out) => Some (hs, log, out)
      end
  end.

End Network.

(** *** Attributes without a value

    [html.parser] gives [None] as the value of an attribute that is written
    without one, as [disabled] in [<input disabled>].  [html_event] above
    stands for the callbacks of a page in which every attribute carries a
    value and that [html.parser] reads to its end; [Raw] has the callbacks
    of any page, and the form parser and the session as they behave on
    them: a [None] that the form parser reads where it needs a text raises
    [AttributeError], and a [None] it only stores goes into the form data,
    as a key or as a value.  On some texts (a marked section of a kind it
    does not know, as in [<![x[]) [html.parser] itself gives up with an
    [AssertionError]: [ParserError] marks the place, after the callbacks made
    until then. *)

Module Raw.

Inductive html_event :=
| StartTag (tag : string) (attrs : list (string * option string))
| EndTag (tag : string)
| Data (data : string)
| ParserError.

Definition page := list html_event.

(** The callbacks of a page in which every attribute carries a value. *)
Definition of_event (ev : Solicitations.html_event) : html_event :=
  match ev with
  | Solicitations.StartTag tag attrs =>
      StartTag tag (map (fun kv => (fst kv, Some (snd kv))) attrs)
  | Solicitations.EndTag tag => EndTag tag
  | Solicitations.Data data => Data data
  end.

Definition of_page (pg : Solicitations.page) : page := map of_event pg.

(** What [FormParser.parse] can raise: [KeyError] for a [form] tag that
    lacks [action] or [method], [AttributeError] for [None.upper()] or
    [None.replace(...)], and the [AssertionError] of [html.parser]. *)
Inductive parse_error :=
| KeyError (key : string)
| AttributeError
| AssertionError.

(** [dict(attrs)]: the last pair of a name wins. *)
Definition attrs_dict (attrs : list (string * option string))
  : Dict.t (option string) :=
  fold_left (fun d kv => Dict.set (fst kv) (snd kv) d) attrs [].

(** [form_data]: a dict in which a key and a value can be [None]. *)
Definition form_dict : Type := list (option string * option string).

Definition key_eqb (a b : option string) : bool :=
  match a, b with
  | Some x, Some y => String.eqb x y
  | None, None => true
  | _, _ => false
  end.

(** [d[k] = v]: in place when the key is there, at the end otherwise. *)
Fixpoint dict_set (k v : option string) (d : form_dict) : form_dict :=
  match d with
  | [] => [(k, v)]
  | (k', v') :: rest =>
      if key_eqb k k' then (k, v) :: rest else (k', v') :: dict_set k v rest
  end.

(** The form data of a page whose attributes all carry a value. *)
Definition of_dict (d : Dict.t string) : form_dict :=
  map (fun kv => (Some (fst kv), Some (snd kv))) d.

(** The attributes of [FormParser]; [form_action] is [None] after a [form]
    tag whose [action] has no value. *)
Record form_parser := mk_form_parser {
  form_data : form_dict;
  form_action : option string;
  form_method : string;
  parsing_form : bool
}.

Definition form_parser_init : form_parser :=
  mk_form_parser [] (Some EmptyString) "get" false.

(** [FormParser.handle_starttag] *)
Definition handle_starttag (p : form_parser) (tag : string)
    (attrs : list (string * option string)) : parse_error + form_parser :=
  if String.eqb tag "form" then
    let a := attrs_dict attrs in
    match Dict.get "action" a with
    | None => inl (KeyError "action")
    | Some action =>
        match Dict.get "method" a with
        | None => inl (KeyError "method")
        | Some None => inl AttributeError
        | Some (Some method) =>
            inr (mk_form_parser [] action (Py.upper method) true)
        end
    end
  else if parsing_form p && String.eqb tag "input" then
    let a := attrs_dict attrs in
    match Dict.get "name" a, Dict.get "value" a with
    | Some name, Some value =>
        inr (mk_form_parser (dict_set name value (form_data p))
                            (form_action p) (form_method p) (parsing_form p))
    | _, _ => inr p
    end
  else inr p.

(** [FormParser.handle_endtag] *)
Definition handle_endtag (p : form_parser) (tag : string) : form_parser :=
  if String.eqb tag "form"
  then mk_form_parser (form_data p) (form_action p) (form_method p) false
  else p.

Fixpoint feed (p : form_parser) (pg : page) : parse_error + form_parser :=
  match pg with
  | [] => inr p
  | StartTag tag attrs :: rest =>
      match handle_starttag p tag attrs with
      | inl e => inl e
      | inr p' => feed p' rest
      end
  | EndTag tag :: rest => feed (handle_endtag p tag) rest
  | Data _ :: rest => feed p rest
  | ParserError :: _ => inl AssertionError
  end.

(** [FormParser.parse(page)]: (form_data, form_action, form_method); the
    [replace] on the action raises when the action is [None]. *)
Definition FormParser_parse (pg : page)
  : parse_error + (form_dict * string * string) :=
  match feed form_parser_init pg with
  | inl e => inl e
  | inr p =>
      match form_action p with
      | None => inl AttributeError
      | Some action =>
          inr (form_data p, remove_str_from "./" 0 action, form_method p)
      end
  end.

(** [session.request(method, url, data=...)] *)
Record request := mk_request {
  method : http_method;
  url : string;
  data : form_dict
}.

(** What [dibbs_session] can raise. *)
Inductive exn (NetErr : Type) :=
| RequestFailed (e : NetErr)
| ParseFailed (e : parse_error).
Arguments RequestFailed {NetErr} e.
Arguments ParseFailed {NetErr} e.

Section Network.

(** [send] as in [Network] above, with any page for answer: [inl e] is
    whatever the request, or the decoding of the landing page, raises. *)
Variables St NetErr : Type.
Variable send : St -> request -> NetErr + (St * page).

Definition exchange : Type := request * (NetErr + page).

(** [dibbs_session(host)]: the exchanges made, then the session or the
    exception raised. *)
Definition dibbs_session (host : string) (s0 : St)
  : list exchange * (exn NetErr + St) :=
  let r1 := mk_request GET (host ++ "dodwarning.aspx?goto=/")%string [] in
  match send s0 r1 with
  | inl e => ([(r1, inl e)], inl (RequestFailed e))
  | inr (s1, pg) =>
      match FormParser_parse pg with
      | inl k => ([(r1, inr pg)], inl (ParseFailed k))
      | inr (fd, action, _) =>
          let r2 := mk_request POST (host ++ action)%string fd in
          match send s1 r2 with
          | inl e => ([(r1, inr pg); (r2, inl e)], inl (RequestFailed e))
          | inr (s2, pg2) => ([(r1, inr pg); (r2, inr pg2)], inr s2)
          end
      end
  end.

End Network.

End Raw.

End Solicitations.

(** ** [combined.py]: cleaning helpers and the merge *)

Module Combined.

Definition dibbs_solicitations_scrape := @Solicitations.dibbs_solicitations.

(** [clean_nsn]: the text before the first space, stripped. *)
Definition clean_nsn (nsn_value : string) : string :=
  if negb (Py.truthy nsn_value) then EmptyString
  else Py.strip (nth 0 (Py.split Py.blank nsn_value) EmptyString).

(** [clean_nomenclature]: [' '.join(nomenclature.split())]. *)
Definition clean_nomenclature (nomenclature : string) : string :=
  if negb (Py.truthy nomenclature) then EmptyString
  else Py.join Py.blank (Py.words nomenclature).

(** *** The quantity pattern

    [qty_pattern] reads, case-insensitively: blanks, the letters QTY and a
    colon, blanks, then (group 1) digits followed by any number of groups
    of a comma and digits, then blanks.  Every repetition of the pattern
    is followed by something its characters cannot start, or by the end of
    the pattern, so the greedy reading is the one [re] finds and no
    backtracking is modelled. *)

(** Group 1 read from inside the number: digits, and a comma when a digit
    follows it.  Returns the text read and the rest. *)
Fixpoint qty_number (s : string) : string * string :=
  match s with
  | EmptyString => (EmptyString, EmptyString)
  | String c r =>
      if Py.isdigit_char c
      then let (a, b) := qty_number r in (String c a, b)
      else if Ascii.eqb c Py.comma
      then match r with
           | String d _ =>
               if Py.isdigit_char d
               then let (a, b) := qty_number r in (String c a, b)
               else (EmptyString, s)
           | EmptyString => (EmptyString, s)
           end
      else (EmptyString, s)
  end.

(** A match of the pattern at the head of [s]: group 1 and what follows the
    match. *)
Definition qty_match (s : string) : option (string * string) :=
  let s1 := Py.lstrip_by Py.isspace s in
  if Py.starts_with "QTY:" (Py.upper (Py.take 4 s1)) then
    let s2 := Py.lstrip_by Py.isspace (Py.drop 4 s1) in
    match s2 with
    | String d _ =>
        if Py.isdigit_char d
        then let (g, rest) := qty_number s2 in
             Some (g, Py.lstrip_by Py.isspace rest)
        else None
    | EmptyString => None
    end
  else None.

(** [re.search(qty_pattern, s, re.IGNORECASE)]: group 1 of the leftmost
    match. *)
Fixpoint qty_search (s : string) : option string :=
  match qty_match s with
  | Some (g, _) => Some g
  | None =>
      match s with
      | EmptyString => None
      | String _ r => qty_search r
      end
  end.

(** [re.sub(qty_pattern, '', s, flags=re.IGNORECASE)]: every match, left to
    right, is dropped; [skip] counts the characters of a match still to
    pass over. *)
Fixpoint qty_sub (skip : nat) (s : string) : string :=
  match s with
  | EmptyString => EmptyString
  | String c r =>
      match skip with
      | S k => qty_sub k r
      | O =>
          match qty_match s with
          | Some (_, rest) =>
              qty_sub (String.length s - String.length rest - 1) r
          | None => String c (qty_sub 0 r)
          end
      end
  end.

(** [extract_quantity_from_purchase_request]: the pair returned, or [None]
    for the [ValueError] that [int(qty_str)] raises, which nothing in the
    function catches. *)
Definition extract_quantity_from_purchase_request (purchase_request : string)
  : option (string * option Z) :=
  if negb (Py.truthy purchase_request) then Some (EmptyString, None)
  else
    match qty_search purchase_request with
    | Some g =>
        match Py.int (Py.remove_char Py.comma g) with
        | Some quantity =>
            Some (Py.strip (qty_sub 0 purchase_request), Some quantity)
        | None => None
        end
    | None => Some (Py.strip purchase_request, None)
    end.

(** The pair a call of [extract_quantity_from_purchase_request] hands to its
    caller.  A call that raises hands over nothing: the pair given for it
    here is never used by the code, and [merge_data_sources_run] has the merge
    end with the exception there. *)
Definition extracted_quantity (purchase_request : string)
  : string * option Z :=
  match extract_quantity_from_purchase_request purchase_request with
  | Some returned => returned
  | None => (Py.strip purchase_request, None)
  end.

(** [_parse_int]: [None] for [''] and when [int] raises. *)
Definition _parse_int (value : string) : option Z :=
  if negb (Py.truthy value) then None
  else Py.int (Py.remove_char Py.comma (Py.strip value)).

(** [decode_setaside]: (code, description, percentage). *)
Definition setaside_mapping : Dict.t (string * Z) :=
  [ ("Y", ("Small Business Set-Aside", 100%Z));
    ("H", ("HUBZone Set-Aside", 100%Z));
    ("R", ("Service Disabled Veteran-Owned Small Business (SDVOSB) Set-Aside",
           100%Z));
    ("L", ("Woman Owned Small Business (WOSB) Set-Aside", 100%Z));
    ("A", ("8a Set-Aside", 100%Z));
    ("E", ("Economically Disadvantaged Woman Owned Small Business (EDWOSB) Set-Aside",
           100%Z));
    ("N", ("Unrestricted/Not Set-Aside", 0%Z)) ].

Definition decode_setaside (code : string) : string * string * Z :=
  match Dict.get code setaside_mapping with
  | Some (description, percentage) => (code, description, percentage)
  | None => (code, "Unknown", 0%Z)
  end.

(** An approved source as a CLIN holds it. *)
Module Approved.
Record t := mk { supplier_cage_code : string; supplier_part_number : string }.
End Approved.

Section Library.

(** What the merge takes from Python's library and from the clock:
    - [strptime s fmt] is [datetime.strptime(s, fmt).strftime('%Y-%m-%d')],
      [None] when [strptime] raises;
    - [float s] is [float(s)], [None] when it raises;
    - [utcnow] is [datetime.utcnow().isoformat() + 'Z'] (one reading stands
      for all the readings of a run). *)
Variable strptime : string -> string -> option string.
Context {PyFloat : Type}.
Variable float : string -> option PyFloat.
Variable utcnow : string.

Fixpoint first_format (date_str : string) (formats : list string)
  : option string :=
  match formats with
  | [] => None
  | fmt :: rest =>
      match strptime date_str fmt with
      | Some d => Some d
      | None => first_format date_str rest
      end
  end.

(** [parse_date(date_str, format)] *)
Definition parse_date (date_str format : string) : option string :=
  if negb (Py.truthy date_str) || negb (Py.truthy (Py.strip date_str))
  then None
  else
    let format :=
      if Py.contains "-" date_str
         && (String.length (nth 0 (Py.split Py.hyphen date_str) EmptyString)
             =? 2)%nat
      then "%m-%d-%Y" else format in
    first_format (Py.strip date_str)
      [format; "%m-%d-%Y"; "%Y-%m-%d"; "%m/%d/%y"; "%m%d%Y"; "%m%d%y"].

(** [_parse_float] *)
Definition _parse_float (value : string) : option PyFloat :=
  if negb (Py.truthy value) then None
  else float (Py.remove_char Py.comma (Py.strip value)).

(** A CLIN dict.  [clin], [unit_of_issue], [unit_price], [delivery_days],
    [technical_documents] and [approved_sources] are not stored on every
    path that makes a CLIN. *)
Record Clin := mk_clin {
  clin : option string;
  nsn : string;
  part_number : string;
  nomenclature : string;
  pr_number : string;
  quantity : option Z;
  unit_of_issue : option string;
  unit_price : option PyFloat;
  delivery_days : option Z;
  technical_documents : option (list Doc.t);
  approved_sources : option (list Approved.t)
}.

(** A solicitation dict; [links] is the [solicitation_url] of the [links]
    dict, and [setaside_percentage] the number stored, the default of
    [decode_setaside] or the value of the digits of the index row. *)
Record Solicitation := mk_solicitation {
  solicitation_number : string;
  clins : list Clin;
  scrape_timestamp : string;
  data_source : string;
  last_updated : string;
  solicitation_type : option string;
  small_business_setaside : option string;
  additional_clause_fillins : option bool;
  return_by_date : option string;
  setaside_type : option string;
  rfq_quote_status : option string;
  issued_date : option string;
  links : option string;
  setaside_percentage : option Z;
  amsc : option string;
  raw_batch_quote_data : option (list BQ.row)
}.

(** The dict a pass stores for a solicitation it meets first. *)
Definition new_solicitation (number source : string) : Solicitation :=
  mk_solicitation number [] utcnow source utcnow
                  None None None None None None None None None None None.

Definition with_clins (cs : list Clin) (sol : Solicitation) : Solicitation :=
  mk_solicitation (solicitation_number sol) cs (scrape_timestamp sol)
    (data_source sol) (last_updated sol) (solicitation_type sol)
    (small_business_setaside sol) (additional_clause_fillins sol)
    (return_by_date sol) (setaside_type sol) (rfq_quote_status sol)
    (issued_date sol) (links sol) (setaside_percentage sol) (amsc sol)
    (raw_batch_quote_data sol).

(** [if k not in d: d[k] = v] *)
Definition setdefault (k : string) (v : Solicitation)
    (d : Dict.t Solicitation) : Dict.t Solicitation :=
  if Dict.mem k d then d else Dict.set k v d.

(** The object [sol = solicitations[k]] is changed in place: [f] is the
    change, written back under [k]. *)
Definition modify (k : string) (f : Solicitation -> Solicitation)
    (d : Dict.t Solicitation) : Dict.t Solicitation :=
  match Dict.get k d with
  | Some sol => Dict.set k (f sol) d
  | None => d
  end.

(** [for clin in sol['clins']: if clin['nsn'] == n: existing_clin = clin;
    break] *)
Definition find_clin (n : string) (cs : list Clin) : option Clin :=
  find (fun c => String.eqb (nsn c) n) cs.

(** The change [f] made in place to the CLIN that [find_clin] returns. *)
Fixpoint update_clin (n : string) (f : Clin -> Clin) (cs : list Clin)
  : list Clin :=
  match cs with
  | [] => []
  | c :: rest =>
      if String.eqb (nsn c) n then f c :: rest
      else c :: update_clin n f rest
  end.

(** *** Lookup tables *)

Definition bq_key : Type := string * string.

Definition bq_key_eqb (a b : bq_key) : bool :=
  String.eqb (fst a) (fst b) && String.eqb (snd a) (snd b).

Fixpoint bq_group (key : bq_key) (record : BQ.row)
    (d : list (bq_key * list BQ.row)) : list (bq_key * list BQ.row) :=
  match d with
  | [] => [(key, [record])]
  | (k, records) :: rest =>
      if bq_key_eqb key k then (k, records ++ [record]) :: rest
      else (k, records) :: bq_group key record rest
  end.

Definition bq_lookup (bq_data : list BQ.row) : list (bq_key * list BQ.row) :=
  fold_left
    (fun d record =>
       bq_group (BQ.solicitation_number record, BQ.line_number record)
                record d)
    bq_data [].

Definition as_group (d : Dict.t (list AS.row)) (record : AS.row)
  : Dict.t (list AS.row) :=
  let n := Py.remove_char Py.hyphen (AS.nsn record) in
  match Dict.get n d with
  | Some records => Dict.set n (records ++ [record]) d
  | None => Dict.set n [record] d
  end.

Definition as_lookup (as_data : list AS.row) : Dict.t (list AS.row) :=
  fold_left as_group as_data [].

(** *** Pass 1: batch quotes *)

Definition bq_clin (record : BQ.row) : Clin :=
  let nsn_raw := BQ.nsn_part_number record in
  let nsn_clean :=
    if Py.truthy nsn_raw then Py.remove_char Py.hyphen nsn_raw
    else EmptyString in
  mk_clin
    (Some (Py.zfill 4 (BQ.line_number record)))
    nsn_clean
    nsn_raw
    (clean_nomenclature (get_or (BQ.nomenclature record) EmptyString))
    (BQ.purchase_request record)
    (_parse_int (BQ.quantity record))
    (Some (BQ.unit_of_issue record))
    (_parse_float (BQ.unit_price record))
    (_parse_int (BQ.delivery_days record))
    None
    (Some []).

(** [sol.update({...})] from the first record of the group. *)
Definition bq_header (first : BQ.row) (sol : Solicitation) : Solicitation :=
  mk_solicitation (solicitation_number sol) (clins sol) (scrape_timestamp sol)
    (data_source sol) (last_updated sol)
    (Some (BQ.solicitation_type first))
    (Some (BQ.small_business_setaside first))
    (Some (String.eqb (BQ.additional_clause_fillins first) "Y"))
    (parse_date (BQ.return_by_date first) "%m/%d/%Y")
    (setaside_type sol) (rfq_quote_status sol) (issued_date sol) (links sol)
    (setaside_percentage sol) (amsc sol) (raw_batch_quote_data sol).

(** The body of [for record in records]. *)
Definition bq_line (sol : Solicitation) (record : BQ.row) : Solicitation :=
  mk_solicitation (solicitation_number sol) (clins sol ++ [bq_clin record])
    (scrape_timestamp sol) (data_source sol) (last_updated sol)
    (solicitation_type sol) (small_business_setaside sol)
    (additional_clause_fillins sol) (return_by_date sol) (setaside_type sol)
    (rfq_quote_status sol) (issued_date sol) (links sol)
    (setaside_percentage sol) (amsc sol)
    (Some (get_or (raw_batch_quote_data sol) [] ++ [record])).

Definition bq_entry (sol : Solicitation) (records : list BQ.row)
  : Solicitation :=
  let sol := match records with
             | first :: _ => bq_header first sol
             | [] => sol
             end in
  fold_left bq_line records sol.

(** The body of [for key, records in bq_lookup.items()]. *)
Definition bq_pass_step (solicitations : Dict.t Solicitation)
    (entry : bq_key * list BQ.row) : Dict.t Solicitation :=
  let sol_num_clean := Py.upper (Py.strip (fst (fst entry))) in
  let solicitations :=
    setdefault sol_num_clean (new_solicitation sol_num_clean "batch_quote")
               solicitations in
  modify sol_num_clean (fun sol => bq_entry sol (snd entry)) solicitations.

(** *** Pass 2: web rows *)

(** [sol['data_source']] after a web row met the solicitation. *)
Definition web_source (source : string) : string :=
  if String.eqb source "batch_quote" then "batch_quote_and_web_scrape"
  else source.

(** The solicitation-level writes of a web row: the source tag, the
    [sol.update({...})] and the guarded [return_by_date]. *)
Definition web_header (record : Web.row) (sol : Solicitation) : Solicitation :=
  mk_solicitation (solicitation_number sol) (clins sol) (scrape_timestamp sol)
    (web_source (data_source sol)) (last_updated sol)
    (solicitation_type sol) (small_business_setaside sol)
    (additional_clause_fillins sol)
    (if negb (Py.truthy_opt (return_by_date sol))
     then parse_date (Web.return_by record) "%m/%d/%Y"
     else return_by_date sol)
    (Some (Web.setaside_type record))
    (Some (Web.rfq_quote_status record))
    (parse_date (Web.issued record) "%m/%d/%Y")
    (Some (Web.solicitation_url record))
    (setaside_percentage sol) (amsc sol) (raw_batch_quote_data sol).

(** [not existing_clin.get('quantity')]: [None] and [0] are false. *)
Definition falsy_int (q : option Z) : bool :=
  match q with Some z => Z.eqb z 0 | None => true end.

(** The writes to a CLIN that a web row matched. *)
Definition web_enhance (docs : list Doc.t)
    (clean_nomenclature clean_pr : string) (final_quantity : option Z)
    (c : Clin) : Clin :=
  mk_clin (clin c) (nsn c) (part_number c)
    (if negb (Py.truthy (nomenclature c)) then clean_nomenclature
     else nomenclature c)
    (if negb (Py.truthy (pr_number c)) then clean_pr else pr_number c)
    (if falsy_int (quantity c) then final_quantity else quantity c)
    (unit_of_issue c) (unit_price c) (delivery_days c)
    (Some docs) (approved_sources c).

Definition web_clins (record : Web.row) (cs : list Clin) : list Clin :=
  let raw_nsn := Web.nsn_part_number record in
  let clean_nsn := clean_nsn raw_nsn in
  let (clean_pr, extracted_qty) :=
    extracted_quantity (Web.purchase_request record) in
  let clean_nomenclature := clean_nomenclature (Web.nomenclature record) in
  let final_quantity :=
    match extracted_qty with
    | Some q => Some q
    | None => _parse_int (Web.quantity record)
    end in
  match find_clin clean_nsn cs with
  | Some _ =>
      update_clin clean_nsn
        (web_enhance (Web.technical_documents record) clean_nomenclature
                     clean_pr final_quantity) cs
  | None =>
      cs ++ [mk_clin None clean_nsn raw_nsn clean_nomenclature clean_pr
                     final_quantity None None None
                     (Some (Web.technical_documents record)) None]
  end.

(** The body of [for record in web_data]. *)
Definition web_pass_step (solicitations : Dict.t Solicitation)
    (record : Web.row) : Dict.t Solicitation :=
  let sol_num := Py.strip (Web.solicitation record) in
  if negb (Py.truthy sol_num) then solicitations
  else
    let sol_num_clean := Py.upper (Py.strip sol_num) in
    let solicitations :=
      setdefault sol_num_clean (new_solicitation sol_num_clean "web_scrape")
                 solicitations in
    modify sol_num_clean
      (fun sol =>
         let sol := web_header record sol in
         with_clins (web_clins record (clins sol)) sol)
      solicitations.

(** *** Pass 3: index rows *)

(** The solicitation-level writes of an index row.  [float(setaside_pct_str)]
    is taken on a text of digits only and is kept as the whole number that the
    text writes ([float] has no limit on the number of digits). *)
Definition in_header (record : IN.row) (sol : Solicitation) : Solicitation :=
  let '(code, description, percentage) :=
    decode_setaside (IN.small_business_setaside record) in
  let setaside_pct_str := Py.strip (IN.setaside_percentage record) in
  let setaside_pct :=
    if Py.truthy setaside_pct_str && Py.isdigit setaside_pct_str
    then get_or (Py.int_literal setaside_pct_str) percentage
    else percentage in
  mk_solicitation (solicitation_number sol) (clins sol) (scrape_timestamp sol)
    (data_source sol) (last_updated sol) (solicitation_type sol)
    (Some code)
    (additional_clause_fillins sol)
    (parse_date (IN.return_by_date record) "%m%d%y")
    (Some description)
    (rfq_quote_status sol) (issued_date sol) (links sol)
    (Some setaside_pct)
    (Some (IN.amsc record))
    (raw_batch_quote_data sol).

(** The writes to a CLIN that an index row matched. *)
Definition in_enhance (record : IN.row) (c : Clin) : Clin :=
  mk_clin (clin c) (nsn c) (part_number c)
    (if negb (Py.truthy (nomenclature c))
     then clean_nomenclature (IN.nomenclature record) else nomenclature c)
    (if negb (Py.truthy (pr_number c))
     then IN.purchase_request record else pr_number c)
    (if falsy_int (quantity c)
     then _parse_int (IN.quantity record) else quantity c)
    (if negb (Py.truthy_opt (unit_of_issue c))
     then Some (IN.unit_issue record) else unit_of_issue c)
    (unit_price c) (delivery_days c)
    (technical_documents c) (approved_sources c).

Definition in_clins (record : IN.row) (cs : list Clin) : list Clin :=
  let clean_nsn := clean_nsn (IN.nsn_part_number record) in
  let nsn_clean := get_or (IN.nsn_clean record) clean_nsn in
  match find_clin nsn_clean cs with
  | Some _ => update_clin nsn_clean (in_enhance record) cs
  | None =>
      cs ++ [mk_clin None nsn_clean (IN.nsn_part_number record)
                     (clean_nomenclature (IN.nomenclature record))
                     (IN.purchase_request record)
                     (_parse_int (IN.quantity record))
                     (Some (IN.unit_issue record)) None None None None]
  end.

(** The body of [for record in in_data]. *)
Definition in_pass_step (solicitations : Dict.t Solicitation)
    (record : IN.row) : Dict.t Solicitation :=
  let sol_num := IN.solicitation_number record in
  let solicitations :=
    setdefault sol_num (new_solicitation sol_num "batch_files")
               solicitations in
  modify sol_num
    (fun sol =>
       let sol := in_header record sol in
       with_clins (in_clins record (clins sol)) sol)
    solicitations.

(** *** Pass 4: approved sources *)

Definition approved_of (source : AS.row) : Approved.t :=
  Approved.mk (AS.supplier_cage_code source) (AS.supplier_part_number source).

Definition attach_clin (lookup : Dict.t (list AS.row)) (c : Clin) : Clin :=
  let n := nsn c in
  match (if Py.truthy n then Dict.get n lookup else None) with
  | Some sources =>
      let approved_sources := map approved_of sources in
      let part :=
        match approved_sources with
        | first :: _ =>
            let current_part := Py.remove_char Py.hyphen (part_number c) in
            if Py.isdigit current_part || negb (Py.truthy (part_number c))
            then Approved.supplier_part_number first
            else part_number c
        | [] => part_number c
        end in
      mk_clin (clin c) (nsn c) part (nomenclature c) (pr_number c)
              (quantity c) (unit_of_issue c) (unit_price c) (delivery_days c)
              (technical_documents c) (Some approved_sources)
  | None => c
  end.

Definition attach_sources (lookup : Dict.t (list AS.row)) (sol : Solicitation)
  : Solicitation :=
  with_clins (map (attach_clin lookup) (clins sol)) sol.

(** *** The merge *)

(** The working map after passes 1 to 3. *)
Definition merged_map (web_data : list Web.row) (in_data : list IN.row)
    (bq_data : list BQ.row) : Dict.t Solicitation :=
  let solicitations := fold_left bq_pass_step (bq_lookup bq_data) [] in
  let solicitations := fold_left web_pass_step web_data solicitations in
  fold_left in_pass_step in_data solicitations.

(** [merge_data_sources(web_data, in_data, bq_data, as_data)]: the list the
    merge returns. *)
Definition merge_data_sources (web_data : list Web.row)
    (in_data : list IN.row) (bq_data : list BQ.row) (as_data : list AS.row)
  : list Solicitation :=
  map (attach_sources (as_lookup as_data))
      (Dict.values (merged_map web_data in_data bq_data)).

(** The merge with the one exception that can leave it: the [ValueError] of
    [extract_quantity_from_purchase_request], called in pass 2 for every web
    row that has a number and caught nowhere in [merge_data_sources].  [None]
    is that exception. *)
Definition web_pass_step_run (solicitations : Dict.t Solicitation)
    (record : Web.row) : option (Dict.t Solicitation) :=
  let sol_num := Py.strip (Web.solicitation record) in
  if negb (Py.truthy sol_num) then Some solicitations
  else
    match extract_quantity_from_purchase_request
            (Web.purchase_request record) with
    | None => None
    | Some _ => Some (web_pass_step solicitations record)
    end.

Fixpoint web_pass_run (web_data : list Web.row)
    (solicitations : Dict.t Solicitation) : option (Dict.t Solicitation) :=
  match web_data with
  | [] => Some solicitations
  | record :: rest =>
      match web_pass_step_run solicitations record with
      | None => None
      | Some solicitations => web_pass_run rest solicitations
      end
  end.

Definition merge_data_sources_run (web_data : list Web.row)
    (in_data : list IN.row) (bq_data : list BQ.row) (as_data : list AS.row)
  : option (list Solicitation) :=
  match web_pass_run web_data (fold_left bq_pass_step (bq_lookup bq_data) [])
  with
  | None => None
  | Some solicitations =>
      Some (map (attach_sources (as_lookup as_data))
                (Dict.values (fold_left in_pass_step in_data solicitations)))
  end.

End Library.

(** *** A model of the library for running the merge

    [strptime_model] reads the six formats of [parse_date] the way
    CPython's [_strptime] does on ASCII digits: month and day of one or two
    digits, the alternatives tried in the order of its pattern, the whole
    text to be used up, the date to exist; the year is written as
    [strftime('%Y')] writes it on Linux, without zeros before it.
    [float_model] reads plain decimal literals into (mantissa, number of
    decimals) and stands for [float] on those only: it does not read an
    exponent, an underscore, [inf] or [nan], which [float] reads. *)

Inductive directive := Month | Day | Year4 | Year2 | Lit (c : ascii).

Fixpoint directives (fmt : string) : list directive :=
  match fmt with
  | String "%" (String "m" r) => Month :: directives r
  | String "%" (String "d" r) => Day :: directives r
  | String "%" (String "Y" r) => Year4 :: directives r
  | String "%" (String "y" r) => Year2 :: directives r
  | String c r => Lit c :: directives r
  | EmptyString => []
  end.

Definition num_of (s : string) : nat :=
  Z.to_nat (get_or (Py.int_digits 0 false s) 0%Z).

(** The texts a directive can take at the head of [s], in the order the
    pattern tries them, each with the rest. *)
Definition two_then_one (s : string) (ok2 ok1 : nat -> bool)
  : list (nat * string) :=
  let two := Py.take 2 s in
  let one := Py.take 1 s in
  (if (String.length two =? 2)%nat && Py.all_chars Py.isdigit_char two
      && ok2 (num_of two)
   then [(num_of two, Py.drop 2 s)] else [])
  ++ (if (String.length one =? 1)%nat && Py.all_chars Py.isdigit_char one
         && ok1 (num_of one)
      then [(num_of one, Py.drop 1 s)] else []).

Definition digits_exactly (n : nat) (s : string) : list (nat * string) :=
  let t := Py.take n s in
  if (String.length t =? n)%nat && Py.all_chars Py.isdigit_char t
  then [(num_of t, Py.drop n s)] else [].

(** (year, month, day) read so far. *)
Definition ymd : Type := nat * nat * nat.

Fixpoint match_directives (ds : list directive) (acc : ymd) (s : string)
  : list (ymd * string) :=
  match ds with
  | [] => [(acc, s)]
  | d :: ds' =>
      let '(y, m, dd) := acc in
      match d with
      | Month =>
          flat_map (fun r => match_directives ds' (y, fst r, dd) (snd r))
            (two_then_one s (fun n => (1 <=? n)%nat && (n <=? 12)%nat)
                            (fun n => (1 <=? n)%nat))
      | Day =>
          flat_map (fun r => match_directives ds' (y, m, fst r) (snd r))
            (two_then_one s (fun n => (1 <=? n)%nat && (n <=? 31)%nat)
                            (fun n => (1 <=? n)%nat)
             ++ match s with
                | String " " r => two_then_one r (fun _ => false)
                                               (fun n => (1 <=? n)%nat)
                | _ => []
                end)
      | Year4 =>
          flat_map (fun r => match_directives ds' (fst r, m, dd) (snd r))
            (digits_exactly 4 s)
      | Year2 =>
          flat_map
            (fun r =>
               match_directives ds'
                 ((if (fst r <? 69)%nat then 2000 + fst r else 1900 + fst r)%nat,
                  m, dd) (snd r))
            (digits_exactly 2 s)
      | Lit c =>
          match s with
          | String c' r =>
              if Ascii.eqb c c' then match_directives ds' acc r else []
          | EmptyString => []
          end
      end
  end.

Definition leap (y : nat) : bool :=
  ((y mod 4 =? 0) && negb (y mod 100 =? 0) || (y mod 400 =? 0))%nat.

Definition days_in_month (y m : nat) : nat :=
  match m with
  | 2 => if leap y then 29 else 28
  | 4 | 6 | 9 | 11 => 30
  | _ => 31
  end.

Definition pad (width n : nat) : string :=
  Py.zfill width (Solicitations.str_of_nat n).

Definition strptime_model (s fmt : string) : option string :=
  match match_directives (directives fmt) (1900, 1, 1)%nat s with
  | ((y, m, d), EmptyString) :: _ =>
      if (1 <=? y)%nat && (d <=? days_in_month y m)%nat
      then Some (Solicitations.str_of_nat y ++ "-" ++ pad 2 m ++ "-"
                 ++ pad 2 d)%string
      else None
  | _ => None
  end.

(** mantissa and number of decimals: [12.50] is [(1250, 2)]. *)
Definition float_model (s : string) : option (Z * nat) :=
  match Py.split "."%char (Py.strip s) with
  | [whole] => option_map (fun z => (z, 0%nat)) (Py.int_literal whole)
  | [whole; frac] =>
      if Py.isdigit frac && Py.isdigit (Py.remove_char "-"%char whole)
      then option_map (fun z => (z, String.length frac))
                      (Py.int_literal (whole ++ frac)%string)
      else None
  | _ => None
  end.

(** The merge run with the model and a fixed clock reading. *)
Definition merge_model :=
  merge_data_sources strptime_model float_model "2025-01-01T00:00:00Z".

Definition merge_model_run :=
  merge_data_sources_run strptime_model float_model "2025-01-01T00:00:00Z".

End Combined.

(** ** Text files as [file_processor.py] reads them

    [open(filepath, 'r', ...)] reads with universal newlines: a carriage
    return, alone or before a line feed, arrives as a line feed.
    [for line in f] then gives the lines with their line feed, the last one
    without when the text does not end with one. *)

Module TextFile.

Definition cr : ascii := "013"%char.

Fixpoint universal (s : string) : string :=
  match s with
  | EmptyString => EmptyString
  | String c r =>
      if Ascii.eqb c cr
      then String Py.newline
             match r with
             | String d r' =>
                 if Ascii.eqb d Py.newline then universal r' else universal r
             | EmptyString => EmptyString
             end
      else String c (universal r)
  end.

Fixpoint keepends (s : string) : list string :=
  match s with
  | EmptyString => []
  | String c r =>
      if Ascii.eqb c Py.newline then String c EmptyString :: keepends r
      else match keepends r with
           | h :: t => String c h :: t
           | [] => [String c EmptyString]
           end
  end.

(** The lines of a file whose decoded text is [content]. *)
Definition lines (content : string) : list string :=
  keepends (universal content).

End TextFile.

(** ** The quoted-field parsers of [file_processor.py]

    [DIBBSFileProcessor.parse_as_file] and [parse_bq_file] run the loops of
    [combined.py] over the lines of a file; as in [FileProcessor], the file
    is [None] when it cannot be opened. *)

Module FileProcessorCsv.

Definition parse_as_file (file : option (list string)) : list AS.row :=
  match file with
  | Some lines => Parsers.as_lines lines
  | None => []
  end.

Definition parse_bq_file (file : option (list string)) : list BQ.row :=
  match file with
  | Some lines => Parsers.bq_lines lines
  | None => []
  end.

End FileProcessorCsv.

(** ** [solicitations.py]: the row parser

    [RfqRecsParser] as a machine over the callbacks of a page.  The parser
    appends the dict [self.row] itself to [self.rows] at the end of a table
    row and goes on writing to [self.row]: until the next table row starts,
    a write reaches the row that was appended.  [done] holds the rows
    appended before the current one, and [appended] tells whether the
    current one is the last of [self.rows].  The attributes
    [current_data], [current_link_href] and [inside_img] are written and
    never read, and are left out.  The one character outside ASCII that the
    code names, the closing guillemet, is the character 187. *)

Module RfqRecs.

Import Solicitations.

Definition guillemet : ascii := "187"%char.

Definition fresh_row : Web.row :=
  Web.mk "" "" "" [] "" "" "" "" "" "" "" "" "".

Record parser := mk_parser {
  records : nat;
  done : list Web.row;
  row : Web.row;
  appended : bool;
  inside_tr : bool;
  inside_td : bool;
  td_count : nat;
  inside_count : bool;
  inside_a : bool;
  current_link_text : list string;
  td_content : list string;
  collecting_tech_docs : bool;
  current_tech_doc : option Doc.t
}.

Definition init : parser :=
  mk_parser 0 [] fresh_row false false false 0 false false [] [] false None.

(** [self.row[key] = value], one definition for each key written. *)
Definition set_item_number (v : string) (r : Web.row) : Web.row :=
  Web.mk v (Web.nsn_part_number r) (Web.nomenclature r)
    (Web.technical_documents r) (Web.solicitation r) (Web.solicitation_url r)
    (Web.setaside_type r) (Web.rfq_quote_status r) (Web.purchase_request r)
    (Web.pr_number r) (Web.quantity r) (Web.issued r) (Web.return_by r).

Definition set_nsn_part_number (v : string) (r : Web.row) : Web.row :=
  Web.mk (Web.item_number r) v (Web.nomenclature r)
    (Web.technical_documents r) (Web.solicitation r) (Web.solicitation_url r)
    (Web.setaside_type r) (Web.rfq_quote_status r) (Web.purchase_request r)
    (Web.pr_number r) (Web.quantity r) (Web.issued r) (Web.return_by r).

Definition set_nomenclature (v : string) (r : Web.row) : Web.row :=
  Web.mk (Web.item_number r) (Web.nsn_part_number r) v
    (Web.technical_documents r) (Web.solicitation r) (Web.solicitation_url r)
    (Web.setaside_type r) (Web.rfq_quote_status r) (Web.purchase_request r)
    (Web.pr_number r) (Web.quantity r) (Web.issued r) (Web.return_by r).

Definition add_technical_document (doc : Doc.t) (r : Web.row) : Web.row :=
  Web.mk (Web.item_number r) (Web.nsn_part_number r) (Web.nomenclature r)
    (Web.technical_documents r ++ [doc]) (Web.solicitation r)
    (Web.solicitation_url r) (Web.setaside_type r) (Web.rfq_quote_status r)
    (Web.purchase_request r) (Web.pr_number r) (Web.quantity r)
    (Web.issued r) (Web.return_by r).

Definition set_solicitation (v : string) (r : Web.row) : Web.row :=
  Web.mk (Web.item_number r) (Web.nsn_part_number r) (Web.nomenclature r)
    (Web.technical_documents r) v (Web.solicitation_url r)
    (Web.setaside_type r) (Web.rfq_quote_status r) (Web.purchase_request r)
    (Web.pr_number r) (Web.quantity r) (Web.issued r) (Web.return_by r).

Definition set_solicitation_url (v : string) (r : Web.row) : Web.row :=
  Web.mk (Web.item_number r) (Web.nsn_part_number r) (Web.nomenclature r)
    (Web.technical_documents r) (Web.solicitation r) v
    (Web.setaside_type r) (Web.rfq_quote_status r) (Web.purchase_request r)
    (Web.pr_number r) (Web.quantity r) (Web.issued r) (Web.return_by r).

Definition set_setaside_type (v : string) (r : Web.row) : Web.row :=
  Web.mk (Web.item_number r) (Web.nsn_part_number r) (Web.nomenclature r)
    (Web.technical_documents r) (Web.solicitation r) (Web.solicitation_url r)
    v (Web.rfq_quote_status r) (Web.purchase_request r)
    (Web.pr_number r) (Web.quantity r) (Web.issued r) (Web.return_by r).

Definition set_rfq_quote_status (v : string) (r : Web.row) : Web.row :=
  Web.mk (Web.item_number r) (Web.nsn_part_number r) (Web.nomenclature r)
    (Web.technical_documents r) (Web.solicitation r) (Web.solicitation_url r)
    (Web.setaside_type r) v (Web.purchase_request r)
    (Web.pr_number r) (Web.quantity r) (Web.issued r) (Web.return_by r).

Definition set_purchase_request (v : string) (r : Web.row) : Web.row :=
  Web.mk (Web.item_number r) (Web.nsn_part_number r) (Web.nomenclature r)
    (Web.technical_documents r) (Web.solicitation r) (Web.solicitation_url r)
    (Web.setaside_type r) (Web.rfq_quote_status r) v
    (Web.pr_number r) (Web.quantity r) (Web.issued r) (Web.return_by r).

Definition set_pr_number (v : string) (r : Web.row) : Web.row :=
  Web.mk (Web.item_number r) (Web.nsn_part_number r) (Web.nomenclature r)
    (Web.technical_documents r) (Web.solicitation r) (Web.solicitation_url r)
    (Web.setaside_type r) (Web.rfq_quote_status r) (Web.purchase_request r)
    v (Web.quantity r) (Web.issued r) (Web.return_by r).

Definition set_quantity (v : string) (r : Web.row) : Web.row :=
  Web.mk (Web.item_number r) (Web.nsn_part_number r) (Web.nomenclature r)
    (Web.technical_documents r) (Web.solicitation r) (Web.solicitation_url r)
    (Web.setaside_type r) (Web.rfq_quote_status r) (Web.purchase_request r)
    (Web.pr_number r) v (Web.issued r) (Web.return_by r).

Definition set_issued (v : string) (r : Web.row) : Web.row :=
  Web.mk (Web.item_number r) (Web.nsn_part_number r) (Web.nomenclature r)
    (Web.technical_documents r) (Web.solicitation r) (Web.solicitation_url r)
    (Web.setaside_type r) (Web.rfq_quote_status r) (Web.purchase_request r)
    (Web.pr_number r) (Web.quantity r) v (Web.return_by r).

Definition set_return_by (v : string) (r : Web.row) : Web.row :=
  Web.mk (Web.item_number r) (Web.nsn_part_number r) (Web.nomenclature r)
    (Web.technical_documents r) (Web.solicitation r) (Web.solicitation_url r)
    (Web.setaside_type r) (Web.rfq_quote_status r) (Web.purchase_request r)
    (Web.pr_number r) (Web.quantity r) (Web.issued r) v.

(** [any(self.row.values())] *)
Definition any_values (r : Web.row) : bool :=
  Py.truthy (Web.item_number r) || Py.truthy (Web.nsn_part_number r)
  || Py.truthy (Web.nomenclature r)
  || match Web.technical_documents r with [] => false | _ => true end
  || Py.truthy (Web.solicitation r) || Py.truthy (Web.solicitation_url r)
  || Py.truthy (Web.setaside_type r) || Py.truthy (Web.rfq_quote_status r)
  || Py.truthy (Web.purchase_request r) || Py.truthy (Web.pr_number r)
  || Py.truthy (Web.quantity r) || Py.truthy (Web.issued r)
  || Py.truthy (Web.return_by r).

(** The parser with another current row: a write to [self.row]. *)
Definition with_row (r : Web.row) (p : parser) : parser :=
  mk_parser (records p) (done p) r (appended p) (inside_tr p) (inside_td p)
    (td_count p) (inside_count p) (inside_a p) (current_link_text p)
    (td_content p) (collecting_tech_docs p) (current_tech_doc p).

(** [d.get(k, '')] *)
Definition attr (k : string) (a : Dict.t string) : string :=
  get_or (Dict.get k a) EmptyString.

(** [RfqRecsParser.handle_starttag] *)
Definition handle_starttag (p : parser) (tag : string)
    (attrs : list (string * string)) : parser :=
  let a := attrs_dict attrs in
  if String.eqb tag "tr" then
    match Dict.get "class" a with
    | Some c =>
        if String.eqb c "BgWhite" || String.eqb c "BgSilver"
        then mk_parser (records p)
               (if appended p then done p ++ [row p] else done p)
               fresh_row false true (inside_td p) 0 (inside_count p)
               (inside_a p) (current_link_text p) (td_content p)
               (collecting_tech_docs p) (current_tech_doc p)
        else p
    | None => p
    end
  else if String.eqb tag "td" && inside_tr p then
    mk_parser (records p) (done p) (row p) (appended p) (inside_tr p) true
      (S (td_count p)) (inside_count p) (inside_a p) (current_link_text p)
      [] (collecting_tech_docs p) (current_tech_doc p)
  else if String.eqb tag "span"
          && match Dict.get "id" a with
             | Some i => String.eqb i "ctl00_cph1_lblRecCount"
             | None => false
             end then
    mk_parser (records p) (done p) (row p) (appended p) (inside_tr p)
      (inside_td p) (td_count p) true (inside_a p) (current_link_text p)
      (td_content p) (collecting_tech_docs p) (current_tech_doc p)
  else if String.eqb tag "a" && inside_td p then
    let href := attr "href" a in
    if (td_count p =? 4)%nat && Dict.mem "title" a then
      mk_parser (records p) (done p) (row p) (appended p) (inside_tr p)
        (inside_td p) (td_count p) (inside_count p) true [] (td_content p)
        true (Some (Doc.mk (attr "title" a) href))
    else
      mk_parser (records p) (done p)
        (if (td_count p =? 5)%nat
            && negb (Py.truthy (Web.solicitation_url (row p)))
         then set_solicitation_url href (row p) else row p)
        (appended p) (inside_tr p) (inside_td p) (td_count p)
        (inside_count p) true [] (td_content p) (collecting_tech_docs p)
        (current_tech_doc p)
  else if String.eqb tag "img" && inside_td p then
    if (td_count p =? 5)%nat && Dict.mem "alt" a
       && Py.truthy (Py.strip (attr "alt" a))
    then with_row (set_setaside_type (Py.strip (attr "alt" a)) (row p)) p
    else p
  else p.

(** The quantity that the lines under the request number give, if any:
    the loop over [lines[1:]] with its two [break]s. *)
Fixpoint quantity_found (lines : list string) : option string :=
  match lines with
  | [] => None
  | line :: rest =>
      if Py.contains "QTY:" (Py.upper line)
      then Some (Py.strip (nth 1 (Py.split_str "QTY:" (Py.upper line))
                               EmptyString))
      else if any_char Py.isdigit_char line then Some line
      else quantity_found rest
  end.

(** Column 7: the purchase request, its number and its quantity. *)
Definition purchase_request_cell (cell_text : string) (r : Web.row)
  : Web.row :=
  let r := set_purchase_request cell_text r in
  match nonblank_lines (Py.split Py.newline cell_text) with
  | [] => r
  | pr_line :: below =>
      if Py.contains "QTY:" (Py.upper pr_line) then
        let parts := Py.split_str "QTY:" (Py.upper pr_line) in
        set_quantity (Py.strip (nth 1 parts EmptyString))
                     (set_pr_number (Py.strip (nth 0 parts EmptyString)) r)
      else
        let r := set_pr_number pr_line r in
        match quantity_found below with
        | Some q => set_quantity q r
        | None => r
        end
  end.

(** Column 5: the solicitation number, up to a guillemet and without
    hyphens. *)
Definition solicitation_cell (cell_text : string) (r : Web.row) : Web.row :=
  if Py.truthy cell_text then
    let text := Py.strip (nth 0 (Py.split guillemet cell_text) EmptyString) in
    let text := Py.strip (nth 0 (Py.split guillemet text) EmptyString) in
    set_solicitation (Py.remove_char Py.hyphen text) r
  else r.

Section Dates.

(** [strptime s fmt] is [datetime.strptime(s, fmt).strftime('%Y-%m-%d')],
    [None] when [strptime] raises [ValueError]. *)
Variable strptime : string -> string -> option string.

(** Columns 8 and 9: a date is rewritten when it reads as one. *)
Definition date_cell (cell_text : string) : string :=
  if Py.truthy cell_text && Py.contains "-" cell_text then
    match strptime cell_text "%m-%d-%Y" with
    | Some d => d
    | None => cell_text
    end
  else cell_text.

(** The writes of [handle_endtag] for a cell, by column. *)
Definition cell (count : nat) (cell_text : string) (r : Web.row) : Web.row :=
  match count with
  | 1 => set_item_number cell_text r
  | 2 => set_nsn_part_number (Py.remove_char Py.hyphen cell_text) r
  | 3 => set_nomenclature cell_text r
  | 5 => solicitation_cell cell_text r
  | 6 => set_rfq_quote_status cell_text r
  | 7 => purchase_request_cell cell_text r
  | 8 => set_issued (date_cell cell_text) r
  | 9 => set_return_by (date_cell cell_text) r
  | _ => r
  end.

(** [''.join(parts)] *)
Definition concat_str (parts : list string) : string :=
  fold_right String.append EmptyString parts.

(** [RfqRecsParser.handle_endtag] *)
Definition handle_endtag (p : parser) (tag : string) : parser :=
  if String.eqb tag "tr" && inside_tr p then
    mk_parser (records p) (done p) (row p)
      (if any_values (row p) then true else appended p)
      false (inside_td p) (td_count p) (inside_count p) (inside_a p)
      (current_link_text p) (td_content p) (collecting_tech_docs p)
      (current_tech_doc p)
  else if String.eqb tag "td" && inside_td p then
    let cell_text := Py.strip (Py.join Py.blank (td_content p)) in
    mk_parser (records p) (done p) (cell (td_count p) cell_text (row p))
      (appended p) (inside_tr p) false (td_count p) (inside_count p)
      (inside_a p) (current_link_text p) (td_content p)
      (collecting_tech_docs p) (current_tech_doc p)
  else if String.eqb tag "a" && inside_a p then
    let finalize :=
      match current_tech_doc p with
      | Some doc => collecting_tech_docs p
      | None => false
      end in
    let r :=
      match current_tech_doc p with
      | Some doc =>
          if collecting_tech_docs p && Py.truthy (Doc.url doc)
          then add_technical_document doc (row p) else row p
      | None => row p
      end in
    let link_text := Py.strip (concat_str (current_link_text p)) in
    mk_parser (records p) (done p) r (appended p) (inside_tr p)
      (inside_td p) (td_count p) (inside_count p) false
      (current_link_text p)
      (match current_link_text p with
       | [] => td_content p
       | _ => if Py.truthy link_text then td_content p ++ [link_text]
              else td_content p
       end)
      (if finalize then false else collecting_tech_docs p)
      (if finalize then None else current_tech_doc p)
  else if String.eqb tag "span" && inside_count p then
    mk_parser (records p) (done p) (row p) (appended p) (inside_tr p)
      (inside_td p) (td_count p) false (inside_a p) (current_link_text p)
      (td_content p) (collecting_tech_docs p) (current_tech_doc p)
  else p.

(** [re.search(r'\d+', data)]: the first run of digits. *)
Fixpoint digit_run (s : string) : string :=
  match s with
  | String c r =>
      if Py.isdigit_char c then String c (digit_run r) else EmptyString
  | EmptyString => EmptyString
  end.

Fixpoint first_digits (s : string) : option string :=
  match s with
  | EmptyString => None
  | String c r =>
      if Py.isdigit_char c then Some (digit_run s) else first_digits r
  end.

(** [RfqRecsParser.handle_data] *)
Definition handle_data (p : parser) (data : string) : parser :=
  let data := Py.strip data in
  if negb (Py.truthy data) then p
  else if inside_count p then
    match first_digits data with
    | Some digits =>
        match Py.int digits with
        | Some n =>
            mk_parser (Z.to_nat n) (done p) (row p) (appended p)
              (inside_tr p) (inside_td p) (td_count p) (inside_count p)
              (inside_a p) (current_link_text p) (td_content p)
              (collecting_tech_docs p) (current_tech_doc p)
        | None => p
        end
    | None => p
    end
  else if inside_a p then
    mk_parser (records p) (done p) (row p) (appended p) (inside_tr p)
      (inside_td p) (td_count p) (inside_count p) (inside_a p)
      (current_link_text p ++ [data]) (td_content p)
      (collecting_tech_docs p) (current_tech_doc p)
  else if inside_td p then
    mk_parser (records p) (done p) (row p) (appended p) (inside_tr p)
      (inside_td p) (td_count p) (inside_count p) (inside_a p)
      (current_link_text p) (td_content p ++ [data])
      (collecting_tech_docs p) (current_tech_doc p)
  else p.

Definition step (p : parser) (ev : html_event) : parser :=
  match ev with
  | StartTag tag attrs => handle_starttag p tag attrs
  | EndTag tag => handle_endtag p tag
  | Data data => handle_data p data
  end.

Definition feed (p : parser) (pg : page) : parser := fold_left step pg p.

(** [self.rows] *)
Definition get_data (p : parser) : list Web.row :=
  done p ++ (if appended p then [row p] else []).

(** [RfqRecsParser.parse(page)]: (records, rows). *)
Definition parse (pg : page) : nat * list Web.row :=
  let p := feed init pg in (records p, get_data p).

End Dates.

End RfqRecs.

(** ** [dibbs_rfq_downloader.py]: the session with retries

    [dibbs_session(host, verify, max_retries)] runs the handshake of
    [solicitations.py] inside a loop: any exception of an attempt is
    caught, and raised again only at the last attempt; before another
    attempt the function sleeps.  A request that fails leaves a state as
    well, from which the next attempt starts. *)

Module RfqDownloader.

Import Solicitations.

(** What the function does that can be seen from outside. *)
Inductive event (NetErr : Type) :=
| Sent (req : request) (answer : NetErr + page)
| Slept (seconds : nat).
Arguments Sent {NetErr} req answer.
Arguments Slept {NetErr} seconds.

Section Network.

Variables St NetErr : Type.
Variable send : St -> request -> St * (NetErr + page).

(** The body of the [try]: the events, the state left, and the exception
    raised if any. *)
Definition attempt (host : string) (s : St)
  : list (event NetErr) * St * (exn NetErr + unit) :=
  let r1 := mk_request GET (host ++ "dodwarning.aspx?goto=/")%string [] in
  match send s r1 with
  | (s1, inl e) => ([Sent r1 (inl e)], s1, inl (RequestFailed e))
  | (s1, inr pg) =>
      match FormParser_parse pg with
      | inl k => ([Sent r1 (inr pg)], s1, inl (KeyError k))
      | inr (fd, action, _) =>
          let r2 := mk_request POST (host ++ action)%string fd in
          match send s1 r2 with
          | (s2, inl e) =>
              ([Sent r1 (inr pg); Sent r2 (inl e)], s2,
               inl (RequestFailed e))
          | (s2, inr pg2) =>
              ([Sent r1 (inr pg); Sent r2 (inr pg2)], s2, inr tt)
          end
      end
  end.

(** [for attempt in range(max_retries)], from the turn [attempt_no] on,
    [remaining] turns being left.  The result is the session, [None] when
    the loop ends without a turn, or the exception raised. *)
Fixpoint attempts (host : string) (max_retries remaining attempt_no : nat)
    (s : St) : list (event NetErr) * (exn NetErr + option St) :=
  match remaining with
  | O => ([], inr None)
  | S k =>
      let '(log, s', r) := attempt host s in
      match r with
      | inr _ => (log, inr (Some s'))
      | inl e =>
          if (attempt_no =? max_retries - 1)%nat then (log, inl e)
          else
            let (log', out) :=
              attempts host max_retries k (S attempt_no) s' in
            (log ++ Slept (2 ^ attempt_no) :: log', out)
      end
  end.

Definition dibbs_session (host : string) (max_retries : nat) (s0 : St)
  : list (event NetErr) * (exn NetErr + option St) :=
  attempts host max_retries max_retries 0 s0.

End Network.

End RfqDownloader.

(** * Properties *)

(** ** Facts about strings *)

Lemma str_app_assoc (a b c : string) :
  ((a ++ b) ++ c = a ++ (b ++ c))%string.
Proof. induction a as [|x a IH]; simpl; [reflexivity | now rewrite IH]. Qed.

Lemma str_app_nil_r (a : string) : (a ++ "")%string = a.
Proof. induction a as [|x a IH]; simpl; [reflexivity | now rewrite IH]. Qed.

Lemma str_length_app (a b : string) :
  String.length (a ++ b) = String.length a + String.length b.
Proof. induction a as [|x a IH]; simpl; [reflexivity | now rewrite IH]. Qed.

(** ** The batch-quote tokenizer *)

Section Tokenizer.

Import Parsers.

(** The commas of a line that stand outside quote runs, [q] telling whether
    the text starts inside one: the separator count of the line. *)
Fixpoint unquoted_commas (q : bool) (s : string) : nat :=
  match s with
  | EmptyString => 0
  | String c r =>
      if Ascii.eqb c Py.dquote then unquoted_commas (negb q) r
      else if Ascii.eqb c Py.comma && negb q then S (unquoted_commas q r)
      else unquoted_commas q r
  end.

Lemma tok_run_app (st : tok_state) (a b : string) :
  tok_run st (a ++ b)%string = tok_run (tok_run st a) b.
Proof.
  revert st; induction a as [|c a IH]; intro st; simpl; [reflexivity|].
  apply IH.
Qed.

Lemma tok_step_cases (st : tok_state) (c : ascii) :
  tok_step st c =
    if Ascii.eqb c Py.dquote
    then mk_tok (parts st) (current st) (negb (in_quotes st))
    else if Ascii.eqb c Py.comma && negb (in_quotes st)
    then mk_tok (parts st ++ [current st]) EmptyString (in_quotes st)
    else mk_tok (parts st)
                (current st ++ String c EmptyString)%string (in_quotes st).
Proof.
  unfold tok_step.
  destruct (Ascii.eqb c Py.dquote), (in_quotes st); reflexivity.
Qed.

Lemma tok_run_parts_length (s : string) (st : tok_state) :
  List.length (parts (tok_run st s))
  = List.length (parts st) + unquoted_commas (in_quotes st) s.
Proof.
  revert st; induction s as [|c s IH]; intro st; simpl; [lia|].
  rewrite IH, tok_step_cases.
  destruct (Ascii.eqb c Py.dquote); simpl; [reflexivity|].
  destruct (Ascii.eqb c Py.comma && negb (in_quotes st)); simpl.
  - rewrite length_app; simpl; lia.
  - reflexivity.
Qed.

Lemma unquoted_commas_app (a b : string) (q : bool) :
  unquoted_commas q (a ++ b)%string
  = unquoted_commas q a
    + unquoted_commas (in_quotes (tok_run (mk_tok [] EmptyString q) a)) b.
Proof.
  pose proof (tok_run_parts_length (a ++ b) (mk_tok [] EmptyString q)) as H.
  rewrite tok_run_app, tok_run_parts_length, tok_run_parts_length in H.
  simpl in H. lia.
Qed.

Definition comma_str : string := String Py.comma EmptyString.
Definition empty_quoted : string :=
  String Py.dquote (String Py.dquote EmptyString).

(** A line made of [n] one-letter fields, each followed by a comma. *)
Fixpoint comma_ended (n : nat) : string :=
  match n with
  | O => EmptyString
  | S k => String "x" (String Py.comma (comma_ended k))
  end.

(** C10: a line that ends with an unquoted comma, or with an empty quoted
    field after one, tokenizes to the columns read before that comma, the
    last of them kept even when empty; the empty field after the comma
    gives no column.  The record has as many columns as the line has
    separators, one fewer than the separators imply.  Every unquoted comma emits a column, so empty interior fields
    stay; and a line of 47 fields with a trailing comma falls below the
    48-column threshold of [parse_bq_file] that the same line with a 48th
    field meets. *)
Theorem bq_tokenizer_drops_trailing_empty_field (l : string) :
  in_quotes (tok_run tok_init l) = false ->
  let st := tok_run tok_init l in
  tokenize (l ++ comma_str) = parts st ++ [current st]
  /\ tokenize (l ++ comma_str ++ empty_quoted) = parts st ++ [current st]
  /\ List.length (tokenize (l ++ comma_str))
     = unquoted_commas false (l ++ comma_str)
  /\ List.length (tokenize (l ++ comma_str ++ empty_quoted))
     = unquoted_commas false (l ++ comma_str ++ empty_quoted)
  /\ (forall line, List.length (parts (tok_run tok_init line))
                   = unquoted_commas false line)
  /\ tokenize "a,,b," = ["a"; ""; "b"]
  /\ unquoted_commas false (comma_ended 47) = 47
  /\ bq_lines [comma_ended 47] = []
  /\ List.length (bq_lines [(comma_ended 47 ++ "x")%string]) = 1.
Proof.
  intros Hq st.
  assert (E1 : tok_run tok_init (l ++ comma_str)
               = mk_tok (parts st ++ [current st]) EmptyString false).
  { rewrite tok_run_app. fold st. unfold comma_str. simpl.
    rewrite tok_step_cases. subst st. rewrite Hq. reflexivity. }
  assert (E2 : tok_run tok_init (l ++ comma_str ++ empty_quoted)
               = mk_tok (parts st ++ [current st]) EmptyString false).
  { rewrite <- str_app_assoc, tok_run_app, E1. reflexivity. }
  assert (T1 : tokenize (l ++ comma_str) = parts st ++ [current st]).
  { unfold tokenize. rewrite E1. reflexivity. }
  assert (T2 : tokenize (l ++ comma_str ++ empty_quoted)
               = parts st ++ [current st]).
  { unfold tokenize. rewrite E2. reflexivity. }
  assert (L : forall line, List.length (parts (tok_run tok_init line))
                           = unquoted_commas false line).
  { intro line. rewrite tok_run_parts_length. reflexivity. }
  split; [exact T1|]. split; [exact T2|].
  split; [rewrite T1, <- L, E1; reflexivity|].
  split; [rewrite T2, <- L, E2; reflexivity|].
  split; [exact L|].
  repeat split; vm_compute; reflexivity.
Qed.

Lemma bq_tokenizer_drops_trailing_empty_field_witness :
  in_quotes (tok_run tok_init "a,,b") = false
  /\ tokenize ("a,,b" ++ comma_str) = ["a"; ""; "b"].
Proof.
  split; [reflexivity|].
  exact (proj1 (bq_tokenizer_drops_trailing_empty_field "a,,b" eq_refl)).
Defined.

End Tokenizer.

(** ** The approved-sources splitter against the tokenizer *)

Section Splitter.

Import Parsers.

Definition no_quote (s : string) : bool :=
  Py.all_chars (fun c => negb (Ascii.eqb c Py.dquote)) s.

(** [cur ++ parts[0]] in front of the other parts. *)
Definition onto (cur : string) (xs : list string) : list string :=
  match xs with
  | h :: t => (cur ++ h)%string :: t
  | [] => [cur]
  end.

Lemma split_not_nil (sep : ascii) (s : string) : Py.split sep s <> [].
Proof.
  destruct s as [|c s]; simpl; [discriminate|].
  destruct (Ascii.eqb c sep); [discriminate|].
  destruct (Py.split sep s); discriminate.
Qed.

(** On a line without quote characters the loop of the tokenizer reads the
    parts of [line.split(',')], the last one left in [current]. *)
Lemma tok_run_split (s : string) (ps : list string) (cur : string) :
  no_quote s = true ->
  let st := tok_run (mk_tok ps cur false) s in
  parts st ++ [current st] = ps ++ onto cur (Py.split Py.comma s)
  /\ in_quotes st = false.
Proof.
  revert ps cur; induction s as [|c s IH]; intros ps cur Hq; simpl.
  - rewrite str_app_nil_r. split; reflexivity.
  - simpl in Hq. apply andb_true_iff in Hq as [Hc Hs].
    apply negb_true_iff in Hc.
    rewrite tok_step_cases, Hc. simpl.
    destruct (Ascii.eqb c Py.comma) eqn:Ec; simpl.
    + destruct (IH (ps ++ [cur]) EmptyString Hs) as [E Q].
      rewrite E, Q. split; [|reflexivity].
      rewrite <- app_assoc. simpl. rewrite str_app_nil_r.
      destruct (Py.split Py.comma s) eqn:Es; [|reflexivity].
      now apply split_not_nil in Es.
    + destruct (IH ps (cur ++ String c EmptyString)%string Hs) as [E Q].
      rewrite E, Q. split; [|reflexivity].
      destruct (Py.split Py.comma s) eqn:Es.
      * now apply split_not_nil in Es.
      * simpl. now rewrite str_app_assoc.
Qed.

Lemma strip_by_none (p : ascii -> bool) (s : string) :
  Py.all_chars (fun c => negb (p c)) s = true -> Py.strip_by p s = s.
Proof.
  intro H. unfold Py.strip_by.
  assert (L : Py.lstrip_by p s = s).
  { destruct s as [|c s]; [reflexivity|]. simpl in *.
    apply andb_true_iff in H as [Hc _]. apply negb_true_iff in Hc.
    now rewrite Hc. }
  rewrite L. clear L.
  induction s as [|c s IH]; [reflexivity|]. simpl in *.
  apply andb_true_iff in H as [Hc Hs]. apply negb_true_iff in Hc.
  rewrite (IH Hs), Hc. destruct s; reflexivity.
Qed.

Lemma split_no_quote (s : string) :
  no_quote s = true ->
  Forall (fun x => no_quote x = true) (Py.split Py.comma s).
Proof.
  induction s as [|c s IH]; intro H; simpl.
  - constructor; [reflexivity | constructor].
  - simpl in H. apply andb_true_iff in H as [Hc Hs].
    specialize (IH Hs).
    destruct (Ascii.eqb c Py.comma).
    + constructor; [reflexivity | assumption].
    + destruct (Py.split Py.comma s) as [|h t] eqn:Es;
        [now apply split_not_nil in Es|].
      inversion IH; subst.
      constructor; [|assumption].
      unfold no_quote in *. simpl. apply andb_true_iff. now split.
Qed.

Lemma all_chars_ext (p q : ascii -> bool) (s : string) :
  (forall c, p c = q c) -> Py.all_chars p s = Py.all_chars q s.
Proof.
  intro H; induction s as [|c s IH]; simpl; [reflexivity|].
  now rewrite H, IH.
Qed.

Lemma as_parts_no_quote (s : string) :
  no_quote s = true -> as_parts s = Py.split Py.comma s.
Proof.
  intro H. unfold as_parts. apply split_no_quote in H.
  induction H as [|x xs Hx _ IH]; simpl; [reflexivity|].
  rewrite IH. f_equal. apply strip_by_none.
  rewrite <- Hx. apply all_chars_ext.
  intro c. now rewrite Ascii.eqb_sym.
Qed.

(** The last part of a split is what follows the last separator. *)
Lemma split_last_char (sep c : ascii) (body : string) :
  c <> sep ->
  exists front h,
    Py.split sep (body ++ String c EmptyString)%string = front ++ [String h EmptyString]
    \/ exists h',
         Py.split sep (body ++ String c EmptyString)%string
         = front ++ [String h h'].
Proof.
  intro Hc. apply Ascii.eqb_neq in Hc.
  induction body as [|b body IH]; simpl.
  - rewrite Hc. exists [], c. now left.
  - destruct IH as (front & h & [E | [h' E]]).
    + destruct (Ascii.eqb b sep).
      * exists (EmptyString :: front), h. left. now rewrite E.
      * rewrite E. destruct front as [|f front]; simpl.
        -- exists [], b. right. now exists (String h EmptyString).
        -- exists (String b f :: front), h. now left.
    + destruct (Ascii.eqb b sep).
      * exists (EmptyString :: front), h. right. exists h'. now rewrite E.
      * rewrite E. destruct front as [|f front]; simpl.
        -- exists [], b. right. now exists (String h h').
        -- exists (String b f :: front), h. right. now exists h'.
Qed.

Definition quoted_comma_line : string :=
  String Py.dquote ("A,B" ++ String Py.dquote ",C,D").

(** The batch-quote parser reads a line with the character-level
    tokenizer, the approved-sources parser splits at every comma and strips
    quote characters from the ends of each piece.  On a line without quote
    characters whose last character is not a comma the two give the same
    columns. *)
Theorem as_split_agrees_with_tokenizer_on_plain_lines
    (body : string) (c : ascii) :
  no_quote (body ++ String c EmptyString) = true ->
  c <> Py.comma ->
  as_parts (body ++ String c EmptyString)
  = tokenize (body ++ String c EmptyString)
  /\ as_parts (body ++ String c EmptyString)
     = Py.split Py.comma (body ++ String c EmptyString).
Proof.
  intros Hq Hc.
  rewrite (as_parts_no_quote _ Hq). split; [|reflexivity].
  unfold tokenize, tok_init.
  destruct (tok_run_split _ [] EmptyString Hq) as [E _].
  cbv zeta in E. simpl app in E.
  set (st := tok_run (mk_tok [] EmptyString false)
                     (body ++ String c EmptyString)) in *.
  assert (O : forall xs, xs <> [] -> onto EmptyString xs = xs).
  { intros [|x xs] Hx; [congruence | reflexivity]. }
  rewrite (O _ (split_not_nil _ _)) in E. clear O.
  destruct (split_last_char Py.comma c body Hc) as (front & h & [S | [h' S]]);
    rewrite S in E |- *; apply app_inj_tail in E as [P C]; rewrite P, C;
    reflexivity.
Qed.

Lemma as_split_agrees_with_tokenizer_on_plain_lines_witness :
  as_parts "1234-56-789-0123,CAGE1,PN-1"
  = tokenize "1234-56-789-0123,CAGE1,PN-1".
Proof.
  exact (proj1 (as_split_agrees_with_tokenizer_on_plain_lines
                  "1234-56-789-0123,CAGE1,PN-" "1" eq_refl
                  ltac:(discriminate))).
Defined.

(** An approved-sources line of four quoted fields, the supplier name with
    a comma. *)
Definition quoted_name_line : string :=
  let q := String Py.dquote EmptyString in
  (q ++ "5330-01-123-4567" ++ q ++ "," ++ q ++ "1ABC2" ++ q ++ ","
     ++ q ++ "PN-77" ++ q ++ "," ++ q ++ "ACME, INC." ++ q)%string.

(** C5 fails on the code: a comma inside a quoted field is kept by the
    tokenizer of the batch-quote parser and splits the field in the
    approved-sources parser, which so reads columns that are not in the
    line and loses the end of a supplier name. *)
Lemma as_split_differs_on_quoted_comma :
  tokenize quoted_comma_line = ["A,B"; "C"; "D"]
  /\ as_parts quoted_comma_line = ["A"; "B"; "C"; "D"]
  /\ map AS.nsn (as_lines [quoted_comma_line]) = ["A"]
  /\ map AS.supplier_cage_code (as_lines [quoted_comma_line]) = ["B"]
  /\ tokenize quoted_name_line
     = ["5330-01-123-4567"; "1ABC2"; "PN-77"; "ACME, INC."]
  /\ map AS.supplier_name (as_lines [quoted_name_line]) = ["ACME"].
Proof. repeat split. Qed.

End Splitter.

(** ** The fixed-width parser *)

Section FixedWidth.

Import Parsers.

Definition no_char (x : ascii) (s : string) : bool :=
  Py.all_chars (fun c => negb (Ascii.eqb c x)) s.

(** [len(line.strip()) == 0] negated: the lines the loop does not pass. *)
Definition nonblank (line : string) : bool :=
  negb (String.length (Py.strip line) =? 0)%nat.

Lemma split_no_sep (sep : ascii) (s : string) :
  no_char sep s = true -> Py.split sep s = [s].
Proof.
  induction s as [|c s IH]; intro H; simpl; [reflexivity|].
  unfold no_char in H. simpl in H. apply andb_true_iff in H as [Hc Hs].
  apply negb_true_iff in Hc. rewrite Hc, (IH Hs). reflexivity.
Qed.

Lemma split_app_sep (sep : ascii) (a b : string) :
  no_char sep a = true ->
  Py.split sep (a ++ String sep b)%string = a :: Py.split sep b.
Proof.
  induction a as [|c a IH]; intro H; simpl.
  - now rewrite Ascii.eqb_refl.
  - unfold no_char in H. simpl in H. apply andb_true_iff in H as [Hc Hs].
    apply negb_true_iff in Hc. rewrite Hc, (IH Hs). reflexivity.
Qed.

Lemma split_join (sep : ascii) (ls : list string) :
  ls <> [] ->
  Forall (fun l => no_char sep l = true) ls ->
  Py.split sep (Py.join sep ls) = ls.
Proof.
  induction ls as [|p ls IH]; intros Hne Hall; [congruence|].
  inversion Hall as [|? ? Hp Hls]; subst.
  destruct ls as [|q ls].
  - simpl. now apply split_no_sep.
  - change (Py.join sep (p :: q :: ls))
      with (p ++ String sep (Py.join sep (q :: ls)))%string.
    rewrite (split_app_sep _ _ _ Hp), IH; [reflexivity | discriminate | assumption].
Qed.

Lemma in_lines_filter (ls : list string) :
  in_lines ls = map in_record (filter nonblank ls).
Proof.
  induction ls as [|l ls IH]; simpl; [reflexivity|].
  unfold nonblank.
  destruct (String.length (Py.strip l) =? 0)%nat; simpl; now rewrite IH.
Qed.

Lemma drop_past_end (n : nat) (s : string) :
  String.length s <= n -> Py.drop n s = EmptyString.
Proof.
  revert s; induction n as [|n IH]; intros [|c s] H; simpl in *;
    try reflexivity; try lia.
  apply IH. lia.
Qed.

(** The guard on [buyer_code] of [combined.py] changes nothing: a slice
    past the end is empty. *)
Lemma file_processor_in_record (line : string) :
  FileProcessor.in_record line = in_record line.
Proof.
  unfold FileProcessor.in_record, in_record. f_equal.
  unfold in_guarded. destruct (129 <? String.length line)%nat eqn:E;
    [reflexivity|].
  apply Nat.ltb_ge in E. unfold Py.slice.
  now rewrite (drop_past_end _ _ E).
Qed.

Lemma file_processor_in_lines (ls : list string) :
  FileProcessor.in_lines ls = map in_record (filter nonblank ls).
Proof.
  induction ls as [|l ls IH]; simpl; [reflexivity|].
  unfold nonblank.
  destruct (String.length (Py.strip l) =? 0)%nat; simpl;
    now rewrite IH, ?file_processor_in_record.
Qed.

(** C8, as the code has it: [parse_in_file] has no minimum length.  Every
    line that is not blank gives exactly one record, in order, however
    short it is: the fields past the end of the line are empty.  Blank
    lines give none, and no line stops the lines after it from being
    read.  The parser of [file_processor.py] gives the same records for
    the lines of its file. *)
Theorem parse_in_file_reads_every_nonblank_line (ls : list string) :
  Forall (fun l => no_char Py.newline l = true) ls ->
  parse_in_file (Py.join Py.newline ls) = map in_record (filter nonblank ls)
  /\ List.length (parse_in_file (Py.join Py.newline ls))
     = List.length (filter nonblank ls)
  /\ FileProcessor.parse_in_file (Some ls)
     = map in_record (filter nonblank ls).
Proof.
  intro Hall.
  assert (E : parse_in_file (Py.join Py.newline ls)
              = map in_record (filter nonblank ls)).
  { unfold parse_in_file. destruct ls as [|l ls]; [reflexivity|].
    rewrite split_join; [apply in_lines_filter | discriminate | assumption]. }
  split; [exact E|]. split; [rewrite E; apply length_map|].
  apply file_processor_in_lines.
Qed.

Definition short_then_long : list string :=
  ["AB"; "SPE1C125T0001 1234-56-789-0123"].

Lemma parse_in_file_reads_every_nonblank_line_witness :
  parse_in_file (Py.join Py.newline short_then_long)
  = map in_record short_then_long.
Proof.
  exact (proj1 (parse_in_file_reads_every_nonblank_line short_then_long
                  ltac:(repeat constructor))).
Defined.

(** C8 fails as stated: a line of two characters is not skipped; it gives
    a record with that text as solicitation number and every other field
    empty, and the line after it is read as well. *)
Lemma parse_in_file_keeps_short_line :
  map IN.solicitation_number (parse_in_file (Py.join Py.newline short_then_long))
  = ["AB"; "SPE1C125T0001"]
  /\ map IN.nsn_part_number (parse_in_file (Py.join Py.newline short_then_long))
     = [""; "1234-56-789-0123"]
  /\ map IN.setaside_percentage (parse_in_file "AB") = [""].
Proof. repeat split. Qed.

End FixedWidth.

(** ** Characters and strings: facts for the readings of a quantity *)

Section QuantityStrings.

Import Solicitations Combined.

Lemma digit_char_facts (c : ascii) :
  Py.isdigit_char c = true ->
  Py.isspace c = false /\ Ascii.eqb c Py.comma = false
  /\ Ascii.eqb "Q" c = false /\ Ascii.eqb c "_" = false.
Proof.
  destruct c as [[] [] [] [] [] [] [] []]; intro H;
    try discriminate H; repeat split.
Qed.

Lemma all_chars_impl (p q : ascii -> bool) (s : string) :
  (forall c, p c = true -> q c = true) ->
  Py.all_chars p s = true -> Py.all_chars q s = true.
Proof.
  intro H; induction s as [|c s IH]; simpl; [reflexivity|].
  intro A. apply andb_true_iff in A as [Hc Hs].
  now rewrite (H _ Hc), (IH Hs).
Qed.

Lemma all_chars_app (f : ascii -> bool) (a b : string) :
  Py.all_chars f (a ++ b) = Py.all_chars f a && Py.all_chars f b.
Proof.
  induction a as [|c a IH]; simpl; [reflexivity|].
  now rewrite IH, andb_assoc.
Qed.

Lemma upper_app (a b : string) :
  Py.upper (a ++ b) = (Py.upper a ++ Py.upper b)%string.
Proof. induction a as [|c a IH]; simpl; [reflexivity | now rewrite IH]. Qed.

Lemma rstrip_app_keep (p : ascii -> bool) (a b : string) :
  Py.rstrip_by p b <> EmptyString ->
  Py.rstrip_by p (a ++ b) = (a ++ Py.rstrip_by p b)%string.
Proof.
  intro H. induction a as [|c a IH]; [reflexivity|].
  cbn [String.append Py.rstrip_by]. rewrite IH.
  destruct (a ++ Py.rstrip_by p b)%string eqn:E; [|reflexivity].
  destruct a; simpl in E; [congruence | discriminate].
Qed.

Lemma rstrip_none (p : ascii -> bool) (s : string) :
  Py.all_chars (fun c => negb (p c)) s = true -> Py.rstrip_by p s = s.
Proof.
  induction s as [|c s IH]; [reflexivity|]. simpl.
  intro A. apply andb_true_iff in A as [Hc Hs]. apply negb_true_iff in Hc.
  rewrite (IH Hs), Hc. destruct s; reflexivity.
Qed.

Lemma qty_sub_skips (s : string) (k : nat) :
  String.length s <= k -> qty_sub k s = EmptyString.
Proof.
  revert k; induction s as [|c s IH]; intros k H; [reflexivity|].
  simpl in H. destruct k as [|k]; [lia|]. simpl. apply IH. lia.
Qed.

Lemma int_digits_total (q : string) (acc : Z) (b : bool) :
  Py.all_chars Py.isdigit_char q = true -> q <> EmptyString \/ b = true ->
  exists n, Py.int_digits acc b q = Some n.
Proof.
  revert acc b; induction q as [|d q IH]; intros acc b A H.
  - destruct H as [H | ->]; [congruence|]. now exists acc.
  - simpl in A. apply andb_true_iff in A as [Hd Hq].
    cbn [Py.int_digits]. rewrite Hd. apply IH; [assumption | now right].
Qed.

Lemma digit_not_sign (d : ascii) :
  Py.isdigit_char d = true ->
  Ascii.eqb d "-" = false /\ Ascii.eqb d "+" = false.
Proof.
  destruct d as [[] [] [] [] [] [] [] []]; intro H;
    try discriminate H; split; reflexivity.
Qed.

End QuantityStrings.

(** ** The form parser and the session on any page *)

Section RawForm.

Import Solicitations.

Lemma raw_feed_app (p : Raw.form_parser) (a b : Raw.page) :
  Raw.feed p (a ++ b)
  = match Raw.feed p a with
    | inl e => inl e
    | inr p' => Raw.feed p' b
    end.
Proof.
  revert p; induction a as [|ev a IH]; intro p; [reflexivity|].
  cbn [app Raw.feed]. destruct ev as [tag attrs | tag | text |].
  - destruct (Raw.handle_starttag p tag attrs); [reflexivity | apply IH].
  - apply IH.
  - apply IH.
  - reflexivity.
Qed.

(** A stretch of a page that opens no form, and one without a [form] tag,
    opening or closing; [html.parser] reads both to their end. *)
Definition raw_plain (pg : Raw.page) : bool :=
  forallb (fun ev => match ev with
                     | Raw.StartTag tag _ => negb (String.eqb tag "form")
                     | Raw.ParserError => false
                     | _ => true
                     end) pg.

Definition raw_form_body (pg : Raw.page) : bool :=
  forallb (fun ev => match ev with
                     | Raw.StartTag tag _ | Raw.EndTag tag =>
                         negb (String.eqb tag "form")
                     | Raw.Data _ => true
                     | Raw.ParserError => false
                     end) pg.

(** The inputs of a stretch of a page that have the attributes [name] and
    [value], with or without a value of their own, a later entry of a name
    replacing an earlier one. *)
Definition raw_named_inputs (fd : Raw.form_dict) (pg : Raw.page)
  : Raw.form_dict :=
  fold_left
    (fun d ev =>
       match ev with
       | Raw.StartTag tag attrs =>
           if String.eqb tag "input" then
             match Dict.get "name" (Raw.attrs_dict attrs),
                   Dict.get "value" (Raw.attrs_dict attrs) with
             | Some name, Some value => Raw.dict_set name value d
             | _, _ => d
             end
           else d
       | _ => d
       end) pg fd.

Lemma raw_feed_without_form (pg : Raw.page) (p : Raw.form_parser) :
  raw_plain pg = true -> Raw.parsing_form p = false ->
  Raw.feed p pg = inr p.
Proof.
  revert p; induction pg as [|ev pg IH]; intros p Hf Hp; [reflexivity|].
  simpl in Hf. apply andb_true_iff in Hf as [Hev Hpg].
  destruct ev as [tag attrs | tag | text |]; simpl.
  - apply negb_true_iff in Hev.
    unfold Raw.handle_starttag. rewrite Hev, Hp. simpl. now apply IH.
  - unfold Raw.handle_endtag. destruct (String.eqb tag "form").
    + destruct p as [fd fa fm pf]. simpl in Hp. subst pf. now apply IH.
    + now apply IH.
  - now apply IH.
  - discriminate Hev.
Qed.

Lemma raw_feed_inside_form (body : Raw.page) (fd : Raw.form_dict)
    (a : option string) (m : string) :
  raw_form_body body = true ->
  Raw.feed (Raw.mk_form_parser fd a m true) body
  = inr (Raw.mk_form_parser (raw_named_inputs fd body) a m true).
Proof.
  revert fd; induction body as [|ev body IH]; intros fd H; [reflexivity|].
  cbn [raw_form_body forallb] in H. apply andb_true_iff in H as [Hev Hb].
  cbn [Raw.feed raw_named_inputs fold_left].
  destruct ev as [tag attrs | tag | text |].
  - apply negb_true_iff in Hev. unfold Raw.handle_starttag. rewrite Hev.
    cbn [Raw.parsing_form andb Raw.form_data Raw.form_action
         Raw.form_method].
    destruct (String.eqb tag "input"); [|now apply IH].
    destruct (Dict.get "name" (Raw.attrs_dict attrs));
      [|now apply IH].
    destruct (Dict.get "value" (Raw.attrs_dict attrs)); now apply IH.
  - apply negb_true_iff in Hev. unfold Raw.handle_endtag. rewrite Hev.
    now apply IH.
  - now apply IH.
  - discriminate Hev.
Qed.

Lemma raw_parse_without_form (pg : Raw.page) :
  raw_plain pg = true ->
  Raw.FormParser_parse pg = inr ([], EmptyString, "get").
Proof.
  intro H. unfold Raw.FormParser_parse.
  now rewrite (raw_feed_without_form pg Raw.form_parser_init H eq_refl).
Qed.

(** What the parse of a page makes of its last [form] tag, the callbacks
    before it being readable. *)
Definition last_form_reading (attrs : list (string * option string))
    (body : Raw.page)
  : Raw.parse_error + (Raw.form_dict * string * string) :=
  match Dict.get "action" (Raw.attrs_dict attrs) with
  | None => inl (Raw.KeyError "action")
  | Some action =>
      match Dict.get "method" (Raw.attrs_dict attrs) with
      | None => inl (Raw.KeyError "method")
      | Some None => inl Raw.AttributeError
      | Some (Some m) =>
          match action with
          | None => inl Raw.AttributeError
          | Some a =>
              inr (raw_named_inputs [] body, remove_str_from "./" 0 a,
                   Py.upper m)
          end
      end
  end.

Lemma raw_parse_last_form (pre body rest : Raw.page)
    (attrs : list (string * option string)) (p : Raw.form_parser) :
  Raw.feed Raw.form_parser_init pre = inr p ->
  raw_form_body body = true -> raw_plain rest = true ->
  Raw.FormParser_parse
    (pre ++ Raw.StartTag "form" attrs :: body ++ Raw.EndTag "form" :: rest)
  = last_form_reading attrs body
  /\ Raw.FormParser_parse (pre ++ Raw.StartTag "form" attrs :: body)
     = last_form_reading attrs body.
Proof.
  intros Hpre Hb Hr. unfold Raw.FormParser_parse, last_form_reading.
  rewrite !raw_feed_app, Hpre. cbn [Raw.feed]. unfold Raw.handle_starttag.
  change (String.eqb "form" "form") with true. cbv iota.
  destruct (Dict.get "action" (Raw.attrs_dict attrs)) as [action|];
    [|now split].
  destruct (Dict.get "method" (Raw.attrs_dict attrs)) as [[m|]|];
    [|now split|now split].
  rewrite raw_feed_app, (raw_feed_inside_form _ _ _ _ Hb).
  cbn [Raw.feed]. unfold Raw.handle_endtag.
  change (String.eqb "form" "form") with true. cbv iota.
  cbn [Raw.form_data Raw.form_action Raw.form_method].
  rewrite raw_feed_without_form by (try exact Hr; reflexivity).
  cbn [Raw.form_data Raw.form_action Raw.form_method].
  now destruct action.
Qed.

Lemma raw_parse_gives_up (pre tail : Raw.page) (p : Raw.form_parser) :
  Raw.feed Raw.form_parser_init pre = inr p ->
  Raw.FormParser_parse (pre ++ Raw.ParserError :: tail)
  = inl Raw.AssertionError.
Proof.
  intro Hpre. unfold Raw.FormParser_parse.
  now rewrite raw_feed_app, Hpre.
Qed.

Lemma raw_parse_bad_form (pre tail : Raw.page)
    (attrs : list (string * option string)) (p : Raw.form_parser)
    (e : Raw.parse_error) :
  Raw.feed Raw.form_parser_init pre = inr p ->
  Raw.handle_starttag p "form" attrs = inl e ->
  Raw.FormParser_parse (pre ++ Raw.StartTag "form" attrs :: tail) = inl e.
Proof.
  intros Hpre He. unfold Raw.FormParser_parse.
  rewrite raw_feed_app, Hpre. cbn [Raw.feed]. now rewrite He.
Qed.

(** The form parser keeps what it read of the last [form] element of a
    page, the callbacks before it being readable.  A form tag without
    [action], or with [action] and without [method], raises [KeyError] for
    that key, and one whose [method] has no value raises [AttributeError],
    whatever follows the tag.  Otherwise, the element ending with its end
    tag or with the page and no form following, the parse gives the action
    without the text [./], the method in upper case and the inputs of the
    element that have both [name] and [value], a missing value of either
    being kept as [None]; inputs after the end tag are not read.  An
    [action] without a value raises [AttributeError] at the end of the
    parse.  A page without a form gives no input, the empty action and
    [get].  Where [html.parser] gives up on the text, so does the
    parse. *)
Theorem form_parser_reads_the_last_form
    (pre body rest tail : Raw.page) (attrs : list (string * option string))
    (p : Raw.form_parser) :
  Raw.feed Raw.form_parser_init pre = inr p ->
  Raw.FormParser_parse (pre ++ Raw.ParserError :: tail)
  = inl Raw.AssertionError
  /\
  match Dict.get "action" (Raw.attrs_dict attrs),
        Dict.get "method" (Raw.attrs_dict attrs) with
  | None, _ =>
      Raw.FormParser_parse (pre ++ Raw.StartTag "form" attrs :: tail)
      = inl (Raw.KeyError "action")
  | Some _, None =>
      Raw.FormParser_parse (pre ++ Raw.StartTag "form" attrs :: tail)
      = inl (Raw.KeyError "method")
  | Some _, Some None =>
      Raw.FormParser_parse (pre ++ Raw.StartTag "form" attrs :: tail)
      = inl Raw.AttributeError
  | Some action, Some (Some m) =>
      raw_form_body body = true -> raw_plain rest = true ->
      let reading :=
        match action with
        | None => inl Raw.AttributeError
        | Some a =>
            inr (raw_named_inputs [] body, remove_str_from "./" 0 a,
                 Py.upper m)
        end in
      Raw.FormParser_parse
        (pre ++ Raw.StartTag "form" attrs
             :: body ++ Raw.EndTag "form" :: rest) = reading
      /\ Raw.FormParser_parse (pre ++ Raw.StartTag "form" attrs :: body)
         = reading
      /\ Raw.FormParser_parse rest = inr ([], EmptyString, "get")
  end.
Proof.
  intro Hpre. split; [exact (raw_parse_gives_up _ _ _ Hpre)|].
  destruct (Dict.get "action" (Raw.attrs_dict attrs)) as [action|] eqn:Ea.
  - destruct (Dict.get "method" (Raw.attrs_dict attrs)) as [[m|]|] eqn:Em.
    + intros Hb Hr.
      destruct (raw_parse_last_form pre body rest attrs p Hpre Hb Hr)
        as [L1 L2].
      unfold last_form_reading in L1, L2. rewrite Ea, Em in L1, L2.
      cbv zeta. split; [exact L1|]. split; [exact L2|].
      now apply raw_parse_without_form.
    + apply (raw_parse_bad_form _ _ _ _ _ Hpre). unfold Raw.handle_starttag.
      change (String.eqb "form" "form") with true. cbv iota.
      now rewrite Ea, Em.
    + apply (raw_parse_bad_form _ _ _ _ _ Hpre). unfold Raw.handle_starttag.
      change (String.eqb "form" "form") with true. cbv iota.
      now rewrite Ea, Em.
  - apply (raw_parse_bad_form _ _ _ _ _ Hpre). unfold Raw.handle_starttag.
    change (String.eqb "form" "form") with true. cbv iota.
    now rewrite Ea.
Qed.

(** *** Pages whose attributes all carry a value *)

Lemma of_dict_set (k v : string) (d : Dict.t string) :
  Raw.of_dict (Dict.set k v d)
  = Raw.dict_set (Some k) (Some v) (Raw.of_dict d).
Proof.
  induction d as [|[k' v'] d IH]; [reflexivity|].
  cbn [Dict.set Raw.of_dict map Raw.dict_set fst snd Raw.key_eqb].
  destruct (String.eqb k k'); [reflexivity|].
  cbn [map fst snd]. f_equal. exact IH.
Qed.

Definition valued (attrs : list (string * string))
  : list (string * option string) :=
  map (fun kv => (fst kv, Some (snd kv))) attrs.

Lemma dict_set_valued (k v : string) (d : Dict.t string) :
  Dict.set k (Some v) (map (fun kv => (fst kv, Some (snd kv))) d)
  = map (fun kv => (fst kv, Some (snd kv))) (Dict.set k v d).
Proof.
  induction d as [|[k' v'] d IH]; [reflexivity|].
  cbn [Dict.set map fst snd]. destruct (String.eqb k k'); [reflexivity|].
  cbn [map fst snd]. now rewrite IH.
Qed.

Lemma attrs_dict_valued (attrs : list (string * string)) :
  Raw.attrs_dict (valued attrs)
  = map (fun kv => (fst kv, Some (snd kv))) (attrs_dict attrs).
Proof.
  unfold Raw.attrs_dict, attrs_dict, valued.
  change (@nil (string * option string))
    with (map (fun kv : string * string => (fst kv, Some (snd kv))) []).
  generalize (@nil (string * string)) as d.
  induction attrs as [|[k v] attrs IH]; intro d; [reflexivity|].
  cbn [map fold_left fst snd]. rewrite dict_set_valued. apply IH.
Qed.

Lemma dict_get_valued (k : string) (d : Dict.t string) :
  Dict.get k (map (fun kv => (fst kv, Some (snd kv))) d)
  = option_map Some (Dict.get k d).
Proof.
  induction d as [|[k' v'] d IH]; [reflexivity|].
  cbn [map Dict.get fst snd]. now destruct (String.eqb k k').
Qed.

(** The form parser state of a page whose attributes all carry a value. *)
Definition of_parser (p : form_parser) : Raw.form_parser :=
  Raw.mk_form_parser (Raw.of_dict (form_data p)) (Some (form_action p))
                     (form_method p) (parsing_form p).

Definition of_reading (r : string + form_parser)
  : Raw.parse_error + Raw.form_parser :=
  match r with
  | inl k => inl (Raw.KeyError k)
  | inr p => inr (of_parser p)
  end.

Lemma starttag_of_valued (p : form_parser) (tag : string)
    (attrs : list (string * string)) :
  Raw.handle_starttag (of_parser p) tag (valued attrs)
  = of_reading (handle_starttag p tag attrs).
Proof.
  unfold Raw.handle_starttag, handle_starttag.
  rewrite attrs_dict_valued, !dict_get_valued.
  cbn [of_parser Raw.parsing_form Raw.form_data Raw.form_action
       Raw.form_method].
  destruct (String.eqb tag "form").
  - destruct (Dict.get "action" (attrs_dict attrs)); [|reflexivity].
    destruct (Dict.get "method" (attrs_dict attrs)); reflexivity.
  - destruct (parsing_form p && String.eqb tag "input"); [|reflexivity].
    destruct (Dict.get "name" (attrs_dict attrs)) as [name|]; [|reflexivity].
    destruct (Dict.get "value" (attrs_dict attrs)) as [value|];
      [|reflexivity].
    cbn [option_map of_reading of_parser form_data form_action form_method
         parsing_form].
    unfold of_parser. cbn [form_data form_action form_method parsing_form].
    now rewrite of_dict_set.
Qed.

Lemma feed_of_page (pg : page) :
  forall p, Raw.feed (of_parser p) (Raw.of_page pg) = of_reading (feed p pg).
Proof.
  induction pg as [|ev pg IH]; intro p; [reflexivity|].
  destruct ev as [tag attrs | tag | text];
    cbn [Raw.of_page map Raw.of_event Raw.feed feed].
  - fold (valued attrs). rewrite starttag_of_valued.
    destruct (handle_starttag p tag attrs) as [k|p']; [reflexivity|].
    apply IH.
  - rewrite <- IH. f_equal. unfold Raw.handle_endtag, handle_endtag.
    now destruct (String.eqb tag "form").
  - apply IH.
Qed.

(** On a page whose attributes all carry a value the form parser reads
    what [FormParser_parse] above gives: the same fields, action and
    method, or the same [KeyError]. *)
Lemma parse_of_page (pg : page) :
  Raw.FormParser_parse (Raw.of_page pg)
  = match FormParser_parse pg with
    | inl k => inl (Raw.KeyError k)
    | inr (fd, action, m) => inr (Raw.of_dict fd, action, m)
    end.
Proof.
  unfold Raw.FormParser_parse, FormParser_parse.
  change Raw.form_parser_init with (of_parser form_parser_init).
  rewrite feed_of_page. now destruct (feed form_parser_init pg).
Qed.

End RawForm.

Definition raw_stray_input : Solicitations.Raw.page :=
  [Solicitations.Raw.StartTag "input"
     [("name", Some "q"); ("value", Some "1")]].

Definition raw_consent_attrs : list (string * option string) :=
  [("method", Some "post"); ("action", Some "./dodwarning.aspx?goto=/");
   ("novalidate", None)].

Definition raw_consent_inputs : Solicitations.Raw.page :=
  [Solicitations.Raw.StartTag "input"
     [("name", Some "butAgree"); ("value", Some "OK")];
   Solicitations.Raw.StartTag "input" [("name", Some "flag"); ("value", None)];
   Solicitations.Raw.StartTag "input" [("disabled", None); ("name", Some "x")]].

Definition raw_late_input : Solicitations.Raw.page :=
  [Solicitations.Raw.StartTag "input"
     [("name", Some "late"); ("value", Some "2")]].

Lemma form_parser_reads_the_last_form_witness :
  Solicitations.Raw.FormParser_parse
    (raw_stray_input
     ++ Solicitations.Raw.StartTag "form" raw_consent_attrs
        :: raw_consent_inputs
           ++ Solicitations.Raw.EndTag "form" :: raw_late_input)
  = inr ([(Some "butAgree", Some "OK"); (Some "flag", None)],
         "dodwarning.aspx?goto=/", "POST").
Proof.
  exact (proj1 (proj2 (form_parser_reads_the_last_form
                         raw_stray_input raw_consent_inputs raw_late_input []
                         raw_consent_attrs Solicitations.Raw.form_parser_init
                         eq_refl) eq_refl eq_refl)).
Defined.

(** ** Session establishment *)

Section RawSession.

Import Solicitations.

Variables St NetErr : Type.
Variable send : St -> Raw.request -> NetErr + (St * Raw.page).

Definition raw_landing (host : string) : Raw.request :=
  Raw.mk_request GET (host ++ "dodwarning.aspx?goto=/") [].

(** The post that follows a landing page that was read, with what comes of
    it: the session the post leaves, or the error of the post. *)
Definition posted (host : string) (s1 : St) (pg : Raw.page)
    (fd : Raw.form_dict) (action : string)
  : list (Raw.exchange NetErr) * (Raw.exn NetErr + St) :=
  let r2 := Raw.mk_request POST (host ++ action) fd in
  match send s1 r2 with
  | inl e => ([(raw_landing host, inr pg); (r2, inl e)],
              inl (Raw.RequestFailed e))
  | inr (s2, pg2) => ([(raw_landing host, inr pg); (r2, inr pg2)], inr s2)
  end.

Lemma session_after_parse (host : string) (s0 s1 : St) (pg : Raw.page) :
  send s0 (raw_landing host) = inr (s1, pg) ->
  Raw.dibbs_session St NetErr send host s0
  = match Raw.FormParser_parse pg with
    | inl k => ([(raw_landing host, inr pg)], inl (Raw.ParseFailed k))
    | inr (fd, action, _) => posted host s1 pg fd action
    end.
Proof.
  intro E. unfold Raw.dibbs_session, posted. fold (raw_landing host).
  rewrite E. now destruct (Raw.FormParser_parse pg) as [k | [[fd action] m]].
Qed.

(** C9, as the code has it.  [dibbs_session] gets the landing page once and
    posts once: nothing is sent again, and the error of a request that fails
    ends the call.  A landing page without a form is no failure: no field
    and the empty action are read from it, and the post of no fields goes
    to the host URL.  A landing page whose last form is complete has the
    inputs of that form posted to the host URL followed by the action of
    the form.  In both cases the session returned is the one the post
    leaves, cookies included.  The call fails when a request fails, with
    the error of that request, and when the form parser raises on the
    landing page: [KeyError] for a form tag without [action] or without
    [method], [AttributeError] for one whose [method], or whose [action]
    when it is the last form, has no value, [AssertionError] where
    [html.parser] gives up on the text.  There is no error of its own for
    authentication. *)
Theorem dibbs_session_outcome (host : string) (s0 : St) :
  (forall e,
     send s0 (raw_landing host) = inl e ->
     Raw.dibbs_session St NetErr send host s0
     = ([(raw_landing host, inl e)], inl (Raw.RequestFailed e)))
  /\ (forall s1 pg,
        send s0 (raw_landing host) = inr (s1, pg) ->
        raw_plain pg = true ->
        Raw.dibbs_session St NetErr send host s0 = posted host s1 pg [] "")
  /\ (forall s1 pre attrs body rest p,
        send s0 (raw_landing host)
        = inr (s1, pre ++ Raw.StartTag "form" attrs
                       :: body ++ Raw.EndTag "form" :: rest) ->
        Raw.feed Raw.form_parser_init pre = inr p ->
        raw_form_body body = true -> raw_plain rest = true ->
        Raw.dibbs_session St NetErr send host s0
        = let pg := pre ++ Raw.StartTag "form" attrs
                        :: body ++ Raw.EndTag "form" :: rest in
          match last_form_reading attrs body with
          | inl k => ([(raw_landing host, inr pg)], inl (Raw.ParseFailed k))
          | inr (fd, action, _) => posted host s1 pg fd action
          end)
  /\ (forall s1 pre tail p,
        send s0 (raw_landing host) = inr (s1, pre ++ Raw.ParserError :: tail) ->
        Raw.feed Raw.form_parser_init pre = inr p ->
        Raw.dibbs_session St NetErr send host s0
        = ([(raw_landing host, inr (pre ++ Raw.ParserError :: tail))],
           inl (Raw.ParseFailed Raw.AssertionError)))
  /\ (forall x,
        snd (Raw.dibbs_session St NetErr send host s0) = inl x <->
        (exists e, send s0 (raw_landing host) = inl e
                   /\ x = Raw.RequestFailed e)
        \/ (exists s1 pg k,
              send s0 (raw_landing host) = inr (s1, pg)
              /\ Raw.FormParser_parse pg = inl k /\ x = Raw.ParseFailed k)
        \/ (exists s1 pg fd action m e,
              send s0 (raw_landing host) = inr (s1, pg)
              /\ Raw.FormParser_parse pg = inr (fd, action, m)
              /\ send s1 (Raw.mk_request POST (host ++ action) fd) = inl e
              /\ x = Raw.RequestFailed e))
  /\ (match fst (Raw.dibbs_session St NetErr send host s0) with
      | [(r1, _)] => r1 = raw_landing host
      | [(r1, inr _); (r2, _)] =>
          r1 = raw_landing host /\ Raw.method r2 = POST
      | _ => False
      end).
Proof.
  split; [|split; [|split; [|split; [|split]]]].
  - intros e E. unfold Raw.dibbs_session. fold (raw_landing host).
    now rewrite E.
  - intros s1 pg E Hf.
    now rewrite (session_after_parse _ _ _ _ E), (raw_parse_without_form _ Hf).
  - intros s1 pre attrs body rest p E Hpre Hb Hr.
    rewrite (session_after_parse _ _ _ _ E).
    now rewrite (proj1 (raw_parse_last_form _ _ _ _ _ Hpre Hb Hr)).
  - intros s1 pre tail p E Hpre.
    rewrite (session_after_parse _ _ _ _ E).
    now rewrite (raw_parse_gives_up _ tail _ Hpre).
  - intro x. unfold Raw.dibbs_session. fold (raw_landing host).
    destruct (send s0 (raw_landing host)) as [e | [s1 pg]] eqn:E1.
    + cbn [snd]. split.
      * intro H. injection H as <-. left. now exists e.
      * intros [(e' & H & ->) | [(s1 & pg & k & H & _) | H]];
          [now injection H as <- | discriminate H|].
        destruct H as (s1 & pg & fd & action & m & e' & H & _).
        discriminate H.
    + destruct (Raw.FormParser_parse pg) as [k | [[fd action] m]] eqn:Ep.
      * cbn [snd]. split.
        -- intro H. injection H as <-. right. left. now exists s1, pg, k.
        -- intros [(e' & H & _) | [(s1' & pg' & k' & H & K & ->) | H]];
             [discriminate H | |].
           ++ injection H as <- <-. rewrite Ep in K. now injection K as <-.
           ++ destruct H as (s1' & pg' & fd & action & m & e' & H & K & _).
              injection H as <- <-. rewrite Ep in K. discriminate K.
      * destruct (send s1 (Raw.mk_request POST (host ++ action) fd))
          as [e | [s2 pg2]] eqn:E2; cbn [snd]; split.
        -- intro H. injection H as <-. right. right.
           now exists s1, pg, fd, action, m, e.
        -- intros [(e' & H & _) | [(s1' & pg' & k' & H & K & _) | H]];
             [discriminate H | |].
           ++ injection H as <- <-. rewrite Ep in K. discriminate K.
           ++ destruct H as (s1' & pg' & fd' & action' & m' & e' & H & K
                             & E & ->).
              injection H as <- <-. rewrite Ep in K.
              injection K as <- <- <-. rewrite E2 in E. now injection E as <-.
        -- discriminate.
        -- intros [(e' & H & _) | [(s1' & pg' & k' & H & K & _) | H]];
             [discriminate H | |].
           ++ injection H as <- <-. rewrite Ep in K. discriminate K.
           ++ destruct H as (s1' & pg' & fd' & action' & m' & e' & H & K
                             & E & _).
              injection H as <- <-. rewrite Ep in K.
              injection K as <- <- <-. rewrite E2 in E. discriminate E.
  - unfold Raw.dibbs_session. fold (raw_landing host).
    destruct (send s0 (raw_landing host)) as [e | [s1 pg]]; [reflexivity|].
    destruct (Raw.FormParser_parse pg) as [k | [[fd action] m]];
      [reflexivity|].
    now destruct (send s1 (Raw.mk_request POST (host ++ action) fd))
      as [e | [s2 pg2]].
Qed.

End RawSession.

(** A server whose landing page is a notice without a form, and one that
    answers no request; the state counts the requests made. *)
Definition notice_page : Solicitations.Raw.page :=
  [Solicitations.Raw.StartTag "html" [];
   Solicitations.Raw.Data "Site maintenance";
   Solicitations.Raw.EndTag "html"].

Definition notice_server (s : nat) (r : Solicitations.Raw.request)
  : unit + (nat * Solicitations.Raw.page) :=
  inr (S s, notice_page).

Definition silent_server (s : nat) (r : Solicitations.Raw.request)
  : nat + (nat * Solicitations.Raw.page) :=
  inl (S s).

(** C9 fails as stated: with no consent form on the landing page the
    session is established all the same, after a post of no fields to the
    host URL; and a request that fails is not made again: the first error
    ends the call. *)
Lemma dibbs_session_without_form :
  raw_plain notice_page = true
  /\ Solicitations.Raw.dibbs_session nat unit notice_server
       Solicitations.DIBBS_HOST 0
     = ([(raw_landing Solicitations.DIBBS_HOST, inr notice_page);
         (Solicitations.Raw.mk_request Solicitations.POST
            Solicitations.DIBBS_HOST [], inr notice_page)],
        inr 2)
  /\ Solicitations.Raw.dibbs_session nat nat silent_server
       Solicitations.DIBBS_HOST 0
     = ([(raw_landing Solicitations.DIBBS_HOST, inl 1)],
        inl (Solicitations.Raw.RequestFailed 1)).
Proof. repeat split. Qed.

(** ** The page loop *)

Section PageLoop.

Import Solicitations.

Variables St NetErr : Type.
Variable send : St -> request -> NetErr + (St * page).
Variable RfqRecsParser_parse : page -> nat * list Web.row.

Abbreviation exchange := (exchange NetErr).
Abbreviation outcome := (exn NetErr + list Web.row)%type.

(** What the claim says of a run: after an exchange whose page parses to
    no rows nothing more is requested, and, the form of that page being
    readable, the run ends with rows and not with an exception. *)
Definition stops_at_empty_page (log : list exchange) (out : outcome) : Prop :=
  forall l1 req pg l2,
    log = l1 ++ (req, inr pg) :: l2 ->
    snd (RfqRecsParser_parse pg) = [] ->
    l2 = []
    /\ (forall f, FormParser_parse pg = inr f -> exists rows, out = inr rows).

Lemma stops_at_empty_page_nil (out : outcome) : stops_at_empty_page [] out.
Proof. intros [|x l1] req pg l2 H; discriminate H. Qed.

Lemma stops_at_empty_page_failed (req : request) (e : NetErr) (out : outcome) :
  stops_at_empty_page [(req, inl e)] out.
Proof.
  intros [|x [|y l1]] r pg l2 H; inversion H.
Qed.

Section Loop.

Variables (form_action : string) (count : nat).
Variables (test_mode : bool) (max_records : option nat).

Abbreviation loop :=
  (page_loop St NetErr send RfqRecsParser_parse form_action count
             test_mode max_records).

Lemma page_loop_done (fuel : nat) (s : St) (fd : Dict.t string)
    (number : nat) (rows : list Web.row) :
  loop fuel s fd number rows [] = Some ([], inr rows).
Proof. destruct fuel; simpl; now rewrite andb_false_r. Qed.

(** The loop ends within [count - len(rows)] turns, and stops at the first
    page without rows. *)
Lemma page_loop_fuel (fuel : nat) :
  forall (s : St) (fd : Dict.t string) (number : nat)
         (rows rows_more : list Web.row),
    count - List.length rows <= fuel ->
    exists log out,
      loop fuel s fd number rows rows_more = Some (log, out)
      /\ stops_at_empty_page log out.
Proof.
  induction fuel as [|fuel IH]; intros s fd number rows rows_more Hf.
  - exists [], (inr rows). split; [|apply stops_at_empty_page_nil].
    simpl. replace (List.length rows <? count)%nat with false; [reflexivity|].
    symmetry. apply Nat.ltb_ge. lia.
  - cbn [page_loop].
    destruct ((List.length rows <? count)%nat
              && (0 <? List.length rows_more)%nat) eqn:Hc;
      [|exists [], (inr rows); split;
        [reflexivity | apply stops_at_empty_page_nil]].
    apply andb_true_iff in Hc as [Hlt _]. apply Nat.ltb_lt in Hlt.
    destruct (limit_reached test_mode max_records rows);
      [eexists [], _; split; [reflexivity | apply stops_at_empty_page_nil]|].
    set (req := mk_request POST form_action (next_page_form fd (S number))).
    destruct (send s req) as [e | [s' pg]] eqn:Es.
    { eexists _, _. split; [reflexivity | apply stops_at_empty_page_failed]. }
    destruct (FormParser_parse pg) as [k | [[fd' a] m]] eqn:Ep.
    { eexists _, _. split; [reflexivity|].
      intros [|x [|y l1]] r pg' l2 H; inversion H; subst.
      intros _. split; [reflexivity|].
      intros f Hfp. rewrite Ep in Hfp. discriminate Hfp. }
    destruct (snd (RfqRecsParser_parse pg)) as [|row more] eqn:Er.
    + rewrite app_nil_r, page_loop_done.
      eexists _, _. split; [reflexivity|].
      intros [|x [|y l1]] r pg' l2 H; inversion H; subst.
      intros _. split; [reflexivity|].
      intros f _. now exists rows.
    + destruct (IH s' fd' (S number) (rows ++ row :: more) (row :: more))
        as (log & out & El & Hl).
      { rewrite length_app. simpl. lia. }
      rewrite El. eexists _, _. split; [reflexivity|].
      intros [|x l1] r pg' l2 H Hz.
      * inversion H; subst. rewrite Er in Hz. discriminate Hz.
      * inversion H; subst. exact (Hl l1 r pg' l2 eq_refl Hz).
Qed.

End Loop.

Lemma scrape_pages_stops (s : St) (day : string) (test_mode : bool)
    (max_records : option nat) :
  exists log out,
    scrape_pages St NetErr send RfqRecsParser_parse s day test_mode
                 max_records = Some (log, out)
    /\ stops_at_empty_page log out.
Proof.
  unfold scrape_pages.
  set (form_action :=
         (DIBBS_HOST ++ "RFQ/RfqRecs.aspx?category=post&TypeSrch=dt&Value="
          ++ day)%string).
  set (req := mk_request GET form_action []).
  destruct (send s req) as [e | [s' pg]] eqn:Es.
  { eexists _, _. split; [reflexivity | apply stops_at_empty_page_failed]. }
  destruct (FormParser_parse pg) as [k | [[fd a] m]] eqn:Ep.
  { eexists _, _. split; [reflexivity|].
    intros [|x [|y l1]] r pg' l2 H; inversion H; subst.
    intros _. split; [reflexivity|].
    intros f Hfp. rewrite Ep in Hfp. discriminate Hfp. }
  destruct (RfqRecsParser_parse pg) as [count rows] eqn:Er.
  destruct (limit_reached test_mode max_records rows) eqn:Hl.
  { eexists _, _. split; [reflexivity|].
    intros [|x [|y l1]] r pg' l2 H; inversion H; subst.
    intros _. split; [reflexivity|].
    intros f _. eexists; reflexivity. }
  destruct rows as [|row more].
  - rewrite page_loop_done. eexists _, _. split; [reflexivity|].
    intros [|x [|y l1]] r pg' l2 H; inversion H; subst.
    intros _. split; [reflexivity|].
    intros f _. now exists [].
  - destruct (page_loop_fuel form_action count test_mode max_records
                (S count) s' fd 1 (row :: more) (row :: more))
      as (log & out & El & Hs); [lia|].
    rewrite El. eexists _, _. split; [reflexivity|].
    intros [|x l1] r pg' l2 H Hz.
    + inversion H; subst. rewrite Er in Hz. discriminate Hz.
    + inversion H; subst. exact (Hs l1 r pg' l2 eq_refl Hz).
Qed.

(** C6: a crawl always ends, whatever count the server declares: the page
    loop stops within the turns its fuel allows.  Once a fetched page
    parses to no rows no further request is made, also when fewer rows than
    the declared count were read, and the rows read so far are returned, not
    an exception (the form of that page being readable: a form without
    action or method raises [KeyError] before the rows are looked at). *)
Theorem crawl_stops_at_empty_page (s : St) (day : string) (test_mode : bool)
    (max_records : option nat) :
  (exists log out,
     scrape_pages St NetErr send RfqRecsParser_parse s day test_mode
                  max_records = Some (log, out)
     /\ stops_at_empty_page log out)
  /\ (exists handshake log out,
        dibbs_solicitations St NetErr send RfqRecsParser_parse s day
                            test_mode max_records
        = Some (handshake, log, out)
        /\ stops_at_empty_page log out).
Proof.
  split; [apply scrape_pages_stops|].
  unfold dibbs_solicitations.
  destruct (dibbs_session St NetErr send DIBBS_HOST s) as [hs [e | s1]].
  - exists hs, [], (inl e). split; [reflexivity|].
    apply stops_at_empty_page_nil.
  - destruct (scrape_pages_stops s1 day test_mode max_records)
      as (log & out & E & H).
    rewrite E. now exists hs, log, out.
Qed.

End PageLoop.

(** ** Facts about dicts *)

Section DictFacts.

Context {V : Type}.
Implicit Types (d : Dict.t V) (k : string) (v : V).

Lemma dict_get_set k k' v d :
  Dict.get k (Dict.set k' v d)
  = if String.eqb k k' then Some v else Dict.get k d.
Proof.
  induction d as [|[k0 v0] d IH]; simpl.
  - reflexivity.
  - destruct (String.eqb k' k0) eqn:E; simpl.
    + apply String.eqb_eq in E. subst k0.
      destruct (String.eqb k k'); reflexivity.
    + rewrite IH. destruct (String.eqb k k0) eqn:E0; [|reflexivity].
      apply String.eqb_eq in E0. subst k0.
      rewrite String.eqb_sym, E. reflexivity.
Qed.

Lemma dict_get_in k v d : Dict.get k d = Some v -> In (k, v) d.
Proof.
  induction d as [|[k0 v0] d IH]; simpl; [discriminate|].
  destruct (String.eqb k k0) eqn:E.
  - apply String.eqb_eq in E. intro H. injection H as ->. subst. now left.
  - intro H. right. now apply IH.
Qed.

Lemma dict_get_none k d : Dict.get k d = None -> ~ In k (Dict.keys d).
Proof.
  induction d as [|[k0 v0] d IH]; simpl; [tauto|].
  destruct (String.eqb k k0) eqn:E; [discriminate|].
  apply String.eqb_neq in E. intros H [H0 | H0]; [congruence|].
  now apply IH.
Qed.

Lemma dict_in_get k v d :
  NoDup (Dict.keys d) -> In (k, v) d -> Dict.get k d = Some v.
Proof.
  induction d as [|[k0 v0] d IH]; simpl; [tauto|].
  intros N [H | H]; inversion N as [|? ? Hn Hd]; subst.
  - injection H as -> ->. now rewrite String.eqb_refl.
  - destruct (String.eqb k k0) eqn:E; [|now apply IH].
    apply String.eqb_eq in E. subst k0. exfalso. apply Hn.
    change k with (fst (k, v)). now apply in_map.
Qed.

(** [d[k] = v] keeps the keys of a dict that has [k] and adds [k] at the
    end of one that has not. *)
Lemma dict_keys_set k v d :
  Dict.keys (Dict.set k v d)
  = if Dict.mem k d then Dict.keys d else Dict.keys d ++ [k].
Proof.
  unfold Dict.mem.
  induction d as [|[k0 v0] d IH]; simpl; [reflexivity|].
  destruct (String.eqb k k0) eqn:E; simpl.
  - apply String.eqb_eq in E. now subst.
  - rewrite IH. now destruct (Dict.get k d).
Qed.

Lemma dict_set_in k v d kv :
  In kv (Dict.set k v d) -> kv = (k, v) \/ In kv d.
Proof.
  induction d as [|[k0 v0] d IH]; simpl.
  - intros [H | []]. now left.
  - destruct (String.eqb k k0); simpl; intros [H | H]; auto.
    destruct (IH H); auto.
Qed.

Lemma dict_keys_nodup_set k v d :
  NoDup (Dict.keys d) -> NoDup (Dict.keys (Dict.set k v d)).
Proof.
  intro N. rewrite dict_keys_set. unfold Dict.mem.
  destruct (Dict.get k d) eqn:E; [assumption|].
  apply NoDup_app; [assumption | repeat constructor; tauto|].
  intros x Hx [<- | []]. now apply (dict_get_none _ _ E).
Qed.

End DictFacts.

(** ** Idempotence of [strip] *)

Lemma lstrip_idem (p : ascii -> bool) (s : string) :
  Py.lstrip_by p (Py.lstrip_by p s) = Py.lstrip_by p s.
Proof.
  induction s as [|c s IH]; [reflexivity|]. simpl.
  destruct (p c) eqn:E; [exact IH|]. simpl. now rewrite E.
Qed.

Lemma rstrip_idem (p : ascii -> bool) (s : string) :
  Py.rstrip_by p (Py.rstrip_by p s) = Py.rstrip_by p s.
Proof.
  induction s as [|c s IH]; [reflexivity|]. simpl.
  destruct (Py.rstrip_by p s) as [|c' r] eqn:E.
  - destruct (p c) eqn:Ec; [reflexivity|]. simpl. now rewrite Ec.
  - cbn [Py.rstrip_by]. cbn [Py.rstrip_by] in IH. now rewrite IH.
Qed.

Lemma lstrip_rstrip_lstrip (p : ascii -> bool) (s : string) :
  Py.lstrip_by p (Py.rstrip_by p (Py.lstrip_by p s))
  = Py.rstrip_by p (Py.lstrip_by p s).
Proof.
  induction s as [|c s IH]; [reflexivity|].
  cbn [Py.lstrip_by]. destruct (p c) eqn:Ec; [exact IH|].
  cbn [Py.rstrip_by]. destruct (Py.rstrip_by p s); rewrite ?Ec;
    cbn [Py.lstrip_by]; now rewrite Ec.
Qed.

Lemma strip_idem (s : string) : Py.strip (Py.strip s) = Py.strip s.
Proof.
  unfold Py.strip, Py.strip_by.
  now rewrite lstrip_rstrip_lstrip, rstrip_idem.
Qed.

(** ** The merge: one solicitation per key *)

Section MergeKeys.

Import Combined.

Variable strptime : string -> string -> option string.
Context {PyFloat : Type}.
Variable float : string -> option PyFloat.
Variable utcnow : string.

Abbreviation Sol := (@Solicitation PyFloat).
Abbreviation merge := (merge_data_sources strptime float utcnow).

(** The identifier the passes of the merge compute: trimmed and in upper
    case. *)
Definition cleaned (number : string) : string := Py.upper (Py.strip number).

(** Every entry of the working map sits under its own solicitation number,
    and no key comes twice. *)
Definition keyed (d : Dict.t Sol) : Prop :=
  NoDup (Dict.keys d)
  /\ Forall (fun kv => solicitation_number (snd kv) = fst kv) d.

Lemma keyed_nil : keyed [].
Proof. split; constructor. Qed.

Lemma keyed_set (k : string) (v : Sol) (d : Dict.t Sol) :
  keyed d -> solicitation_number v = k -> keyed (Dict.set k v d).
Proof.
  intros [N F] Hv. split; [now apply dict_keys_nodup_set|].
  apply Forall_forall. intros kv H.
  destruct (dict_set_in _ _ _ _ H) as [-> | H']; [exact Hv|].
  now apply (proj1 (Forall_forall _ _) F).
Qed.

(** One turn of a pass: the solicitation under [k] is made if it is not
    there and then changed by [f]. *)
Lemma keyed_step (k : string) (v : Sol) (f : Sol -> Sol) (d : Dict.t Sol) :
  keyed d -> solicitation_number v = k ->
  (forall s, solicitation_number (f s) = solicitation_number s) ->
  keyed (modify k f (setdefault k v d))
  /\ In k (Dict.keys (modify k f (setdefault k v d)))
  /\ incl (Dict.keys d) (Dict.keys (modify k f (setdefault k v d))).
Proof.
  intros K Hv Hf.
  assert (K1 : keyed (setdefault k v d)).
  { unfold setdefault. destruct (Dict.mem k d); [assumption|].
    now apply keyed_set. }
  assert (G : exists s, Dict.get k (setdefault k v d) = Some s
                        /\ solicitation_number s = k).
  { unfold setdefault, Dict.mem.
    destruct (Dict.get k d) as [s|] eqn:E.
    - exists s. split; [assumption|].
      apply dict_get_in in E.
      exact (proj1 (Forall_forall _ _) (proj2 K) _ E).
    - exists v. split; [|assumption].
      now rewrite dict_get_set, String.eqb_refl. }
  destruct G as (s & G & Hs).
  assert (I1 : incl (Dict.keys d) (Dict.keys (setdefault k v d))).
  { unfold setdefault. destruct (Dict.mem k d) eqn:M; [apply incl_refl|].
    rewrite dict_keys_set, M. now apply incl_appl, incl_refl. }
  unfold modify. rewrite G.
  assert (M : Dict.mem k (setdefault k v d) = true)
    by (unfold Dict.mem; now rewrite G).
  split; [|split].
  - apply keyed_set; [assumption|]. now rewrite Hf.
  - rewrite dict_keys_set, M.
    change k with (fst (k, s)). apply in_map. now apply dict_get_in.
  - now rewrite dict_keys_set, M.
Qed.

Lemma bq_entry_number (records : list BQ.row) (sol : Sol) :
  solicitation_number (bq_entry strptime float sol records)
  = solicitation_number sol.
Proof.
  unfold bq_entry.
  assert (F : forall rs s,
             solicitation_number (fold_left (bq_line float) rs s)
             = solicitation_number s).
  { induction rs as [|r rs IH]; intro s; simpl; [reflexivity|].
    now rewrite IH. }
  rewrite F. now destruct records.
Qed.

Lemma in_header_number (record : IN.row) (sol : Sol) :
  solicitation_number (in_header strptime record sol)
  = solicitation_number sol.
Proof.
  unfold in_header.
  now destruct (decode_setaside (IN.small_business_setaside record))
    as [[code description] percentage].
Qed.

Lemma bq_step_keyed (d : Dict.t Sol) (entry : bq_key * list BQ.row) :
  keyed d ->
  keyed (bq_pass_step strptime float utcnow d entry)
  /\ In (cleaned (fst (fst entry)))
        (Dict.keys (bq_pass_step strptime float utcnow d entry))
  /\ incl (Dict.keys d) (Dict.keys (bq_pass_step strptime float utcnow d entry)).
Proof.
  intro K. unfold bq_pass_step. apply keyed_step; [assumption|reflexivity|].
  intro s. apply bq_entry_number.
Qed.

Lemma web_step_keyed (d : Dict.t Sol) (record : Web.row) :
  keyed d ->
  keyed (web_pass_step strptime utcnow d record)
  /\ (Py.strip (Web.solicitation record) <> EmptyString ->
      In (cleaned (Web.solicitation record))
         (Dict.keys (web_pass_step strptime utcnow d record)))
  /\ incl (Dict.keys d) (Dict.keys (web_pass_step strptime utcnow d record)).
Proof.
  intro K. unfold web_pass_step.
  destruct (Py.strip (Web.solicitation record)) as [|c s] eqn:E.
  - simpl. split; [assumption|]. split; [congruence | apply incl_refl].
  - cbn [Py.truthy negb]. rewrite <- E, strip_idem.
    fold (cleaned (Web.solicitation record)).
    destruct (keyed_step (cleaned (Web.solicitation record))
                (new_solicitation utcnow (cleaned (Web.solicitation record))
                                  "web_scrape")
                (fun sol =>
                   with_clins
                     (web_clins record (clins (web_header strptime record sol)))
                     (web_header strptime record sol)) d K eq_refl
                (fun s => eq_refl)) as (A & B & C).
    split; [exact A|]. split; [intros _; exact B | exact C].
Qed.

Lemma in_step_keyed (d : Dict.t Sol) (record : IN.row) :
  keyed d ->
  keyed (in_pass_step strptime utcnow d record)
  /\ incl (Dict.keys d) (Dict.keys (in_pass_step strptime utcnow d record)).
Proof.
  intro K. unfold in_pass_step.
  destruct (keyed_step (IN.solicitation_number record)
              (new_solicitation utcnow (IN.solicitation_number record)
                                "batch_files")
              (fun sol =>
                 with_clins
                   (in_clins record (clins (in_header strptime record sol)))
                   (in_header strptime record sol)) d K eq_refl)
    as (A & _ & C).
  - intro s. cbn [with_clins solicitation_number]. apply in_header_number.
  - now split.
Qed.

(** A pass, from what each of its turns does. *)
Lemma fold_keyed {A : Type} (step : Dict.t Sol -> A -> Dict.t Sol)
    (key : A -> option string) :
  (forall d a, keyed d ->
     keyed (step d a)
     /\ (forall k, key a = Some k -> In k (Dict.keys (step d a)))
     /\ incl (Dict.keys d) (Dict.keys (step d a))) ->
  forall l d, keyed d ->
    keyed (fold_left step l d)
    /\ (forall a k, In a l -> key a = Some k ->
                    In k (Dict.keys (fold_left step l d)))
    /\ incl (Dict.keys d) (Dict.keys (fold_left step l d)).
Proof.
  intros Hstep l. induction l as [|a l IH]; intros d K; simpl.
  - split; [assumption|]. split; [intros ? ? [] | apply incl_refl].
  - destruct (Hstep d a K) as (K1 & I1 & M1).
    destruct (IH _ K1) as (K2 & I2 & M2).
    split; [assumption|]. split.
    + intros x k [<- | Hx] Hk; [apply M2; now apply I1 | now apply (I2 x)].
    + eapply incl_tran; eassumption.
Qed.

Lemma bq_group_keys (key : bq_key) (record : BQ.row)
    (d : list (bq_key * list BQ.row)) :
  In key (map fst (bq_group key record d))
  /\ incl (map fst d) (map fst (bq_group key record d)).
Proof.
  induction d as [|[k rs] d [IH1 IH2]]; simpl.
  - split; [now left | intros ? []].
  - destruct (bq_key_eqb key k) eqn:E; simpl.
    + unfold bq_key_eqb in E. apply andb_true_iff in E as [E1 E2].
      apply String.eqb_eq in E1, E2. destruct key, k. simpl in *. subst.
      split; [now left | apply incl_refl].
    + split; [now right|]. intros x [<- | Hx]; [now left|].
      right. now apply IH2.
Qed.

Lemma bq_lookup_keys (bq_data : list BQ.row) (record : BQ.row) :
  In record bq_data ->
  In (BQ.solicitation_number record, BQ.line_number record)
     (map fst (bq_lookup bq_data)).
Proof.
  unfold bq_lookup.
  assert (G : forall l d,
             incl (map fst d)
                  (map fst (fold_left
                              (fun d r =>
                                 bq_group (BQ.solicitation_number r,
                                           BQ.line_number r) r d) l d))).
  { induction l as [|r l IH]; intro d; simpl; [apply incl_refl|].
    eapply incl_tran; [|apply IH]. exact (proj2 (bq_group_keys _ r d)). }
  generalize (@nil (bq_key * list BQ.row)) as d.
  induction bq_data as [|r l IH]; intros d H; [destruct H|].
  destruct H as [<- | H]; simpl.
  - apply (G l (bq_group (BQ.solicitation_number r, BQ.line_number r) r d)).
    exact (proj1 (bq_group_keys _ r d)).
  - now apply IH.
Qed.

(** The numbers returned are the keys of the working map, in its order. *)
Lemma merge_numbers (web_data : list Web.row) (in_data : list IN.row)
    (bq_data : list BQ.row) (as_data : list AS.row) :
  keyed (merged_map strptime float utcnow web_data in_data bq_data) ->
  map solicitation_number (merge web_data in_data bq_data as_data)
  = Dict.keys (merged_map strptime float utcnow web_data in_data bq_data).
Proof.
  intros [_ F]. unfold merge_data_sources.
  set (D := merged_map strptime float utcnow web_data in_data bq_data) in *.
  clearbody D. unfold Dict.values, Dict.keys.
  induction F as [|kv d Hkv _ IH]; [reflexivity|].
  cbn [map]. rewrite IH. f_equal. exact Hkv.
Qed.

(** C1, as the code has it: a merge run returns one solicitation per key of
    its working map, so no two returned solicitations have the same
    solicitation number; the batch-quote pass and the web pass key the map
    by the solicitation number trimmed and in upper case, hyphens kept, and
    every batch-quote row and every web row with a solicitation number has
    its solicitation in the result under that key. *)
Theorem merge_one_solicitation_per_key (web_data : list Web.row)
    (in_data : list IN.row) (bq_data : list BQ.row) (as_data : list AS.row) :
  let numbers :=
    map solicitation_number (merge web_data in_data bq_data as_data) in
  NoDup numbers
  /\ Forall (fun r => In (cleaned (BQ.solicitation_number r)) numbers) bq_data
  /\ Forall (fun r => Py.strip (Web.solicitation r) <> EmptyString ->
                      In (cleaned (Web.solicitation r)) numbers) web_data.
Proof.
  destruct (fold_keyed (bq_pass_step strptime float utcnow)
              (fun entry => Some (cleaned (fst (fst entry))))
              (fun d a K =>
                 match bq_step_keyed d a K with
                 | conj A (conj B C) =>
                     conj A (conj (fun k (E : Some _ = Some k) =>
                                     match E in _ = o
                                           return match o with
                                                  | Some k' => In k' _
                                                  | None => True
                                                  end
                                     with eq_refl => B end) C)
                 end)
              (bq_lookup bq_data) [] keyed_nil) as (K1 & I1 & _).
  assert (Wstep : forall d a, keyed d ->
            keyed (web_pass_step strptime utcnow d a)
            /\ (forall k,
                  (if Py.truthy (Py.strip (Web.solicitation a))
                   then Some (cleaned (Web.solicitation a)) else None) = Some k ->
                  In k (Dict.keys (web_pass_step strptime utcnow d a)))
            /\ incl (Dict.keys d) (Dict.keys (web_pass_step strptime utcnow d a))).
  { intros d a K. destruct (web_step_keyed d a K) as (A & B & C).
    split; [exact A|]. split; [|exact C].
    intros k. destruct (Py.strip (Web.solicitation a)) eqn:E; simpl;
      [discriminate|].
    intro H. injection H as <-. apply B. discriminate. }
  destruct (fold_keyed _ _ Wstep web_data _ K1) as (K2 & I2 & M2).
  assert (Istep : forall d a, keyed d ->
            keyed (in_pass_step strptime utcnow d a)
            /\ (forall k, @None string = Some k ->
                          In k (Dict.keys (in_pass_step strptime utcnow d a)))
            /\ incl (Dict.keys d) (Dict.keys (in_pass_step strptime utcnow d a))).
  { intros d a K. destruct (in_step_keyed d a K) as (A & C).
    split; [exact A|]. split; [discriminate | exact C]. }
  destruct (fold_keyed _ (fun _ => None) Istep in_data _ K2) as (K3 & _ & M3).
  fold (merged_map strptime float utcnow web_data in_data bq_data) in K3, M3.
  intro numbers. subst numbers. rewrite (merge_numbers _ _ _ _ K3).
  split; [exact (proj1 K3)|]. split; apply Forall_forall.
  - intros r Hr. apply M3, M2.
    apply bq_lookup_keys in Hr. apply in_map_iff in Hr as (entry & E & He).
    apply (I1 entry); [exact He|]. now rewrite E.
  - intros r Hr Hs. apply M3. apply (I2 r); [exact Hr|].
    destruct (Py.strip (Web.solicitation r)); [congruence | reflexivity].
Qed.

End MergeKeys.

(** The identifier as the specification words it: trimmed, in upper case
    and without hyphens. *)
Definition spec_cleaned (number : string) : string :=
  Py.remove_char Py.hyphen (Py.upper (Py.strip number)).

Definition bq_hyphened : BQ.row :=
  BQ.mk "SPE-1C1" "F" "Y" "N" "01/15/2025" "1" "PR1" "1234-56-789-0123"
        "EA" "10" "" "" (Some "1234567890123") None.

Definition web_plain : Web.row :=
  Web.mk "1" "1234567890123" "BOLT" [] "SPE1C1" "" "" "" "PR1" "" "" "" "".

(** C1 fails as stated: the keys keep their hyphens, so a batch-quote row
    and a web row whose numbers differ by a hyphen give two
    solicitations, though both numbers clean to one identifier in the
    words of the specification. *)
Lemma merge_keeps_hyphens_apart :
  map Combined.solicitation_number
      (Combined.merge_model [web_plain] [] [bq_hyphened] [])
  = ["SPE-1C1"; "SPE1C1"]
  /\ spec_cleaned "SPE-1C1" = spec_cleaned "SPE1C1".
Proof. split; vm_compute; reflexivity. Qed.

(** ** The merge: approved sources *)

(** The approved-source rows whose NSN, hyphens removed, is [n], in the
    order of the file. *)
Definition sources_for (n : string) (as_data : list AS.row) : list AS.row :=
  filter (fun r => String.eqb (Py.remove_char Py.hyphen (AS.nsn r)) n) as_data.

Definition some_if_any {A : Type} (l : list A) : option (list A) :=
  match l with [] => None | _ => Some l end.

Section MergeSources.

Import Combined.

Variable strptime : string -> string -> option string.
Context {PyFloat : Type}.
Variable float : string -> option PyFloat.
Variable utcnow : string.

Lemma sources_for_app (n : string) (a b : list AS.row) :
  sources_for n (a ++ b) = sources_for n a ++ sources_for n b.
Proof. apply filter_app. Qed.

Lemma as_group_get (d : Dict.t (list AS.row)) (pre : list AS.row)
    (record : AS.row) :
  (forall n, Dict.get n d = some_if_any (sources_for n pre)) ->
  forall n, Dict.get n (as_group d record)
            = some_if_any (sources_for n (pre ++ [record])).
Proof.
  intros H n. unfold as_group.
  set (k := Py.remove_char Py.hyphen (AS.nsn record)).
  rewrite sources_for_app. unfold sources_for at 2. cbn [filter]. fold k.
  assert (G : Dict.get n
                (Dict.set k (match Dict.get k d with
                             | Some records => records ++ [record]
                             | None => [record]
                             end) d)
              = some_if_any
                  (sources_for n pre ++ (if String.eqb k n then [record] else []))).
  { rewrite dict_get_set, (String.eqb_sym n k).
    destruct (String.eqb k n) eqn:E.
    - apply String.eqb_eq in E. subst n. rewrite H.
      destruct (sources_for k pre); reflexivity.
    - rewrite app_nil_r. apply H. }
  destruct (Dict.get k d); exact G.
Qed.

(** [as_lookup[n]] is the list of the rows for [n], and [n] is a key only
    when there is one. *)
Lemma as_lookup_get (as_data : list AS.row) (n : string) :
  Dict.get n (as_lookup as_data) = some_if_any (sources_for n as_data).
Proof.
  unfold as_lookup.
  assert (G : forall l pre d,
             (forall n, Dict.get n d = some_if_any (sources_for n pre)) ->
             forall n, Dict.get n (fold_left as_group l d)
                       = some_if_any (sources_for n (pre ++ l))).
  { induction l as [|r l IH]; intros pre d H m; simpl.
    - rewrite app_nil_r. apply H.
    - replace (pre ++ r :: l) with ((pre ++ [r]) ++ l)
        by (rewrite <- app_assoc; reflexivity).
      apply IH. now apply as_group_get. }
  exact (G as_data [] [] (fun _ => eq_refl) n).
Qed.

Lemma attach_clin_nsn (lookup : Dict.t (list AS.row)) (c : @Clin PyFloat) :
  nsn (attach_clin lookup c) = nsn c.
Proof.
  unfold attach_clin.
  now destruct (if Py.truthy (nsn c) then Dict.get (nsn c) lookup else None).
Qed.

Lemma attach_clin_sources (as_data : list AS.row) (c : @Clin PyFloat) :
  nsn c <> EmptyString -> sources_for (nsn c) as_data <> [] ->
  approved_sources (attach_clin (as_lookup as_data) c)
  = Some (map approved_of (sources_for (nsn c) as_data)).
Proof.
  intros Hn Hs. unfold attach_clin.
  destruct (nsn c) as [|x n] eqn:E; [congruence|].
  cbn [Py.truthy]. rewrite as_lookup_get.
  destruct (sources_for (String x n) as_data); [congruence | reflexivity].
Qed.

(** C4, as the code has it: in every returned solicitation, every CLIN
    whose NSN is not empty and has approved-source rows (rows whose NSN,
    hyphens removed, is that NSN) holds the full list of them, in the
    order of the file; so each such row is attached to every such CLIN,
    whichever pass made the CLIN. *)
Theorem approved_sources_fan_out (web_data : list Web.row)
    (in_data : list IN.row) (bq_data : list BQ.row) (as_data : list AS.row) :
  Forall
    (fun sol =>
       Forall
         (fun c =>
            nsn c <> EmptyString ->
            forall r, In r as_data ->
                      Py.remove_char Py.hyphen (AS.nsn r) = nsn c ->
                      approved_sources c
                      = Some (map approved_of (sources_for (nsn c) as_data))
                      /\ In (approved_of r)
                            (map approved_of (sources_for (nsn c) as_data)))
         (clins sol))
    (merge_data_sources strptime float utcnow web_data in_data bq_data as_data).
Proof.
  unfold merge_data_sources. apply Forall_forall. intros sol Hsol.
  apply in_map_iff in Hsol as (sol0 & <- & _).
  apply Forall_forall. intros c Hc.
  change (clins (attach_sources (as_lookup as_data) sol0))
    with (map (attach_clin (as_lookup as_data)) (clins sol0)) in Hc.
  apply in_map_iff in Hc as (c0 & <- & _).
  rewrite attach_clin_nsn. intros Hn r Hr Hk.
  assert (Hin : In r (sources_for (nsn c0) as_data)).
  { apply filter_In. split; [exact Hr|]. now apply String.eqb_eq. }
  split.
  - apply attach_clin_sources; [exact Hn|].
    intro E. rewrite E in Hin. destruct Hin.
  - now apply in_map.
Qed.

End MergeSources.

Definition web_only : Web.row :=
  Web.mk "1" "1234567890123" "BOLT" [] "SPE1C1" "" "" "" "PR1" "" "" "" "".

Definition web_other : Web.row :=
  Web.mk "1" "1234567890123" "BOLT" [] "SPE9Z9" "" "" "" "PR2" "" "" "" "".

Definition as_first : AS.row := AS.mk "1234-56-789-0123" "CAGE1" "PN-1" "Acme".
Definition as_second : AS.row := AS.mk "1234567890123" "CAGE2" "PN-2" "Apex".

(** Two solicitations that only the web pass made, one CLIN each with the
    same NSN: both CLINs hold both sources. *)
Example approved_sources_reach_web_clins :
  map (fun sol => map Combined.approved_sources (Combined.clins sol))
      (Combined.merge_model [web_only; web_other] [] [] [as_first; as_second])
  = [[Some [Combined.Approved.mk "CAGE1" "PN-1";
            Combined.Approved.mk "CAGE2" "PN-2"]];
     [Some [Combined.Approved.mk "CAGE1" "PN-1";
            Combined.Approved.mk "CAGE2" "PN-2"]]].
Proof. vm_compute. reflexivity. Qed.

Definition web_no_nsn : Web.row :=
  Web.mk "1" "" "BOLT" [] "SPE1C1" "" "" "" "PR1" "" "" "" "".

Definition as_no_nsn : AS.row := AS.mk "" "CAGE1" "PN-1" "Acme".

(** C4 fails as stated: an approved-source row with an empty NSN is not
    attached to a CLIN whose NSN is empty as well, for the guard
    [if nsn and nsn in as_lookup] passes over it. *)
Lemma approved_sources_skip_empty_nsn :
  map (fun sol => map Combined.nsn (Combined.clins sol))
      (Combined.merge_model [web_no_nsn] [] [] [as_no_nsn]) = [[""]]
  /\ sources_for "" [as_no_nsn] = [as_no_nsn]
  /\ map (fun sol => map Combined.approved_sources (Combined.clins sol))
         (Combined.merge_model [web_no_nsn] [] [] [as_no_nsn]) = [[None]].
Proof. repeat split; vm_compute; reflexivity. Qed.

(** ** The merge: one batch-quote row and one web row *)

Section MergeExample.

Import Combined.

Variable strptime : string -> string -> option string.
Context {PyFloat : Type}.
Variable float : string -> option PyFloat.
Variable utcnow : string.

Lemma attach_clin_no_sources (c : @Clin PyFloat) : attach_clin [] c = c.
Proof. unfold attach_clin. now destruct (Py.truthy (nsn c)). Qed.

Lemma attach_sources_none (sol : @Solicitation PyFloat) :
  attach_sources [] sol = sol.
Proof.
  unfold attach_sources.
  assert (M : map (attach_clin []) (clins sol) = clins sol).
  { induction (clins sol) as [|c cs IH]; simpl; [reflexivity|].
    now rewrite IH, attach_clin_no_sources. }
  rewrite M. now destruct sol.
Qed.

Lemma dict_get_head {V : Type} (k : string) (v : V) (d : Dict.t V) :
  Dict.get k ((k, v) :: d) = Some v.
Proof. simpl. now rewrite String.eqb_refl. Qed.

Lemma dict_set_head {V : Type} (k : string) (v v' : V) (d : Dict.t V) :
  Dict.set k v' ((k, v) :: d) = (k, v') :: d.
Proof. simpl. now rewrite String.eqb_refl. Qed.

(** A web row at which the merge ends with the exception: it has a number,
    so it is not passed over, and the quantity of its purchase request is
    one that [int] refuses. *)
Definition web_row_raises (record : Web.row) : bool :=
  Py.truthy (Py.strip (Web.solicitation record))
  && match extract_quantity_from_purchase_request
             (Web.purchase_request record) with
     | None => true
     | Some _ => false
     end.

Lemma web_pass_step_run_cases (d : Dict.t (@Solicitation PyFloat))
    (record : Web.row) :
  web_pass_step_run strptime utcnow d record
  = if web_row_raises record then None
    else Some (web_pass_step strptime utcnow d record).
Proof.
  unfold web_pass_step_run, web_row_raises, web_pass_step.
  destruct (Py.truthy (Py.strip (Web.solicitation record))); cbn [negb andb];
    [|reflexivity].
  now destruct (extract_quantity_from_purchase_request
                  (Web.purchase_request record)).
Qed.

Lemma web_pass_run_cases (web_data : list Web.row) :
  forall d : Dict.t (@Solicitation PyFloat),
    web_pass_run strptime utcnow web_data d
    = if existsb web_row_raises web_data then None
      else Some (fold_left (web_pass_step strptime utcnow) web_data d).
Proof.
  induction web_data as [|record rest IH]; intro d; [reflexivity|].
  cbn [web_pass_run existsb fold_left]. rewrite web_pass_step_run_cases.
  destruct (web_row_raises record); [reflexivity|]. cbn [orb]. apply IH.
Qed.

Lemma merge_run_cases (web_data : list Web.row) (in_data : list IN.row)
    (bq_data : list BQ.row) (as_data : list AS.row) :
  merge_data_sources_run strptime float utcnow web_data in_data bq_data
                         as_data
  = if existsb web_row_raises web_data then None
    else Some (merge_data_sources strptime float utcnow web_data in_data
                                  bq_data as_data).
Proof.
  unfold merge_data_sources_run. rewrite web_pass_run_cases.
  now destruct (existsb web_row_raises web_data).
Qed.


(** C3, for the cleaning the merge does: one batch-quote row for SPE1C1,
    line 1, NSN 1234-56-789-0123, and one web row whose solicitation number,
    trimmed and in upper case, is SPE1C1, whose NSN cell cleans to another
    NSN and whose purchase request the extraction helper reads without
    raising, with no index and no approved-source rows: the merge returns
    one solicitation with two CLINs, the batch-quote CLIN with line number
    0001, then the web CLIN with no line number. *)
Theorem one_bq_row_and_one_web_row_give_two_clins (b : BQ.row) (w : Web.row)
    (clean_pr : string) (extracted_qty : option Z) :
  BQ.solicitation_number b = "SPE1C1" ->
  BQ.line_number b = "1" ->
  BQ.nsn_part_number b = "1234-56-789-0123" ->
  cleaned (Web.solicitation w) = "SPE1C1" ->
  clean_nsn (Web.nsn_part_number w) <> "1234567890123" ->
  extract_quantity_from_purchase_request (Web.purchase_request w)
  = Some (clean_pr, extracted_qty) ->
  exists sol c1 c2,
    merge_data_sources_run strptime float utcnow [w] [] [b] [] = Some [sol]
    /\ solicitation_number sol = "SPE1C1"
    /\ clins sol = [c1; c2]
    /\ clin c1 = Some "0001" /\ nsn c1 = "1234567890123"
    /\ clin c2 = None /\ nsn c2 = clean_nsn (Web.nsn_part_number w)
    /\ pr_number c2 = clean_pr.
Proof.
  intros Hs Hl Hn Hw Hd Hq.
  rewrite merge_run_cases. cbn [existsb]. unfold web_row_raises at 1.
  rewrite Hq, andb_false_r. cbn [orb].
  unfold merge_data_sources, merged_map, bq_lookup.
  cbn [fold_left bq_group as_lookup]. unfold bq_pass_step at 1.
  cbn [fst snd]. rewrite Hs.
  change (Py.upper (Py.strip "SPE1C1")) with "SPE1C1".
  unfold setdefault at 1. cbn [Dict.mem Dict.get Dict.set].
  unfold modify at 1. rewrite dict_get_head, dict_set_head.
  unfold web_pass_step.
  assert (Ht : Py.truthy (Py.strip (Web.solicitation w)) = true).
  { unfold cleaned in Hw.
    destruct (Py.strip (Web.solicitation w)); [discriminate Hw | reflexivity]. }
  rewrite Ht. cbn [negb]. rewrite strip_idem.
  fold (cleaned (Web.solicitation w)). rewrite Hw.
  unfold setdefault, modify, Dict.mem. rewrite !dict_get_head, dict_set_head.
  unfold Dict.values. cbn [map snd]. rewrite attach_sources_none.
  cbn [with_clins clins web_header bq_entry fold_left bq_line bq_header
       new_solicitation app].
  unfold web_clins, extracted_quantity. rewrite Hq.
  assert (Hf : find_clin (clean_nsn (Web.nsn_part_number w)) [bq_clin float b]
               = None).
  { unfold find_clin. cbn [find bq_clin nsn]. rewrite Hn.
    cbn [Py.truthy].
    change (Py.remove_char Py.hyphen "1234-56-789-0123") with "1234567890123".
    destruct (String.eqb_spec "1234567890123"
                (clean_nsn (Web.nsn_part_number w)));
      [congruence | reflexivity]. }
  rewrite Hf. cbn [app].
  eexists _, _, _. split; [reflexivity|].
  split; [reflexivity|]. split; [reflexivity|].
  cbn [bq_clin clin nsn pr_number]. rewrite Hl, Hn.
  repeat split.
Qed.

End MergeExample.

Definition bq_spe1c1 : BQ.row :=
  BQ.mk "SPE1C1" "F" "Y" "N" "01/15/2025" "1" "PR1" "1234-56-789-0123"
        "EA" "10" "1.50" "30" (Some "1234567890123") None.

Definition web_spe1c1 : Web.row :=
  Web.mk "1" "9999000001111 MilSpec" "BOLT, HEX" [] " spe1c1 " ""
         "" "" "PR9 QTY: 1,200" "" "" "06-03-2025" "06-10-2025".

Lemma one_bq_row_and_one_web_row_give_two_clins_witness :
  exists sol c1 c2,
    Combined.merge_model_run [web_spe1c1] [] [bq_spe1c1] [] = Some [sol]
    /\ Combined.solicitation_number sol = "SPE1C1"
    /\ Combined.clins sol = [c1; c2]
    /\ Combined.clin c1 = Some "0001"
    /\ Combined.nsn c1 = "1234567890123"
    /\ Combined.clin c2 = None
    /\ Combined.nsn c2
       = Combined.clean_nsn (Web.nsn_part_number web_spe1c1)
    /\ Combined.pr_number c2 = "PR9".
Proof.
  apply (one_bq_row_and_one_web_row_give_two_clins
           Combined.strptime_model Combined.float_model
           "2025-01-01T00:00:00Z" bq_spe1c1 web_spe1c1 "PR9" (Some 1200%Z));
    try reflexivity.
  vm_compute. discriminate.
Defined.

Definition web_hyphened : Web.row :=
  Web.mk "1" "9999000001111" "BOLT" [] "SPE-1C1" "" "" "" "PR9" "" "" "" "".

(** A web row for SPE1C1 whose purchase request has a quantity of 4301
    digits. *)
Definition web_long_quantity : Web.row :=
  Web.mk "1" "9999000001111" "BOLT" [] "SPE1C1" "" "" ""
         ("PR9 QTY: " ++ Py.zeros 4301) "" "" "" "".

(** C3 fails as stated.  The merge keeps hyphens, so a web row for SPE-1C1,
    which cleans to SPE1C1 in the words of the specification (trimmed, upper
    case, without hyphens), is another solicitation than the batch-quote row
    for SPE1C1, and each has one CLIN.  And a web row for SPE1C1 whose
    quantity has more digits than [int] converts ends the merge with the
    exception, so nothing is returned. *)
Lemma hyphened_web_row_gives_two_solicitations :
  spec_cleaned (Web.solicitation web_hyphened)
  = spec_cleaned (BQ.solicitation_number bq_spe1c1)
  /\ option_map
       (map (fun sol => (Combined.solicitation_number sol,
                         List.length (Combined.clins sol))))
       (Combined.merge_model_run [web_hyphened] [] [bq_spe1c1] [])
     = Some [("SPE1C1", 1); ("SPE-1C1", 1)]
  /\ Combined.merge_model_run [web_long_quantity] [] [bq_spe1c1] [] = None.
Proof. repeat split; vm_compute; reflexivity. Qed.

(** ** The merge: what the web and index passes keep *)

Section MergeFrame.

Import Combined.

Context {PyFloat : Type}.

Abbreviation Clin' := (@Clin PyFloat).
Abbreviation Sol' := (@Solicitation PyFloat).

(** What a web or index row leaves of a CLIN it meets: the line number,
    the NSN, the part number, the price, the delivery days and the
    approved sources as they are, and the nomenclature, the PR number, the
    quantity and the unit of issue when they are set. *)
Definition clin_kept (c c' : Clin') : Prop :=
  clin c' = clin c /\ nsn c' = nsn c /\ part_number c' = part_number c
  /\ unit_price c' = unit_price c /\ delivery_days c' = delivery_days c
  /\ approved_sources c' = approved_sources c
  /\ (nomenclature c <> EmptyString -> nomenclature c' = nomenclature c)
  /\ (pr_number c <> EmptyString -> pr_number c' = pr_number c)
  /\ (falsy_int (quantity c) = false -> quantity c' = quantity c)
  /\ (Py.truthy_opt (unit_of_issue c) = true ->
      unit_of_issue c' = unit_of_issue c).

(** The CLINs of a solicitation stay in place, each kept, and new ones come
    after them. *)
Inductive clins_kept : list Clin' -> list Clin' -> Prop :=
| kept_nil (rest : list Clin') : clins_kept [] rest
| kept_cons (c c' : Clin') (cs cs' : list Clin') :
    clin_kept c c' -> clins_kept cs cs' -> clins_kept (c :: cs) (c' :: cs').

(** What both passes leave of a solicitation. *)
Definition sol_kept (s s' : Sol') : Prop :=
  solicitation_number s' = solicitation_number s
  /\ scrape_timestamp s' = scrape_timestamp s
  /\ last_updated s' = last_updated s
  /\ solicitation_type s' = solicitation_type s
  /\ additional_clause_fillins s' = additional_clause_fillins s
  /\ raw_batch_quote_data s' = raw_batch_quote_data s
  /\ clins_kept (clins s) (clins s').

(** What the web pass leaves besides: a return-by date that is set, and
    the fields only the other passes write. *)
Definition web_kept (s s' : Sol') : Prop :=
  sol_kept s s'
  /\ (Py.truthy_opt (return_by_date s) = true ->
      return_by_date s' = return_by_date s)
  /\ small_business_setaside s' = small_business_setaside s
  /\ setaside_percentage s' = setaside_percentage s
  /\ amsc s' = amsc s.

Lemma clin_kept_refl (c : Clin') : clin_kept c c.
Proof. unfold clin_kept. tauto. Qed.

Lemma truthy_neq (s : string) : Py.truthy s = true <-> s <> EmptyString.
Proof. destruct s; simpl; split; congruence. Qed.

Lemma clin_kept_trans (a b c : Clin') :
  clin_kept a b -> clin_kept b c -> clin_kept a c.
Proof.
  unfold clin_kept.
  intros (A1 & A2 & A3 & A4 & A5 & A6 & A7 & A8 & A9 & A10)
         (B1 & B2 & B3 & B4 & B5 & B6 & B7 & B8 & B9 & B10).
  repeat split; try congruence.
  - intro H. rewrite <- (A7 H). apply B7. now rewrite (A7 H).
  - intro H. rewrite <- (A8 H). apply B8. now rewrite (A8 H).
  - intro H. rewrite <- (A9 H). apply B9. now rewrite (A9 H).
  - intro H. rewrite <- (A10 H). apply B10. now rewrite (A10 H).
Qed.

Lemma clins_kept_refl (cs : list Clin') : clins_kept cs cs.
Proof.
  induction cs; constructor; [apply clin_kept_refl | assumption].
Qed.

Lemma clins_kept_trans (a b c : list Clin') :
  clins_kept a b -> clins_kept b c -> clins_kept a c.
Proof.
  intro H. revert c. induction H as [|x x' xs xs' Hx _ IH]; intros l Hl.
  - constructor.
  - inversion Hl; subst. constructor; [|now apply IH].
    eapply clin_kept_trans; eassumption.
Qed.

Lemma clins_kept_app (cs new : list Clin') : clins_kept cs (cs ++ new).
Proof.
  induction cs; simpl; constructor; [apply clin_kept_refl | assumption].
Qed.

Lemma clins_kept_update (n : string) (f : Clin' -> Clin')
    (cs : list Clin') :
  (forall c, clin_kept c (f c)) -> clins_kept cs (update_clin n f cs).
Proof.
  intro Hf. induction cs as [|c cs IH]; simpl; [constructor|].
  destruct (String.eqb (nsn c) n).
  - constructor; [apply Hf | apply clins_kept_refl].
  - constructor; [apply clin_kept_refl | assumption].
Qed.

Lemma web_enhance_kept (docs : list Doc.t) (nomen pr : string)
    (q : option Z) (c : Clin') :
  clin_kept c (web_enhance docs nomen pr q c).
Proof.
  unfold clin_kept, web_enhance. cbn.
  repeat split; try reflexivity.
  - intro H. apply truthy_neq in H. now rewrite H.
  - intro H. apply truthy_neq in H. now rewrite H.
  - intro H. now rewrite H.
Qed.

Lemma in_enhance_kept (record : IN.row) (c : Clin') :
  clin_kept c (in_enhance record c).
Proof.
  unfold clin_kept, in_enhance. cbn.
  repeat split; try reflexivity.
  - intro H. apply truthy_neq in H. now rewrite H.
  - intro H. apply truthy_neq in H. now rewrite H.
  - intro H. now rewrite H.
  - intro H. now rewrite H.
Qed.

Lemma web_clins_kept (record : Web.row) (cs : list Clin') :
  clins_kept cs (web_clins record cs).
Proof.
  unfold web_clins.
  destruct (extracted_quantity
              (Web.purchase_request record)) as [clean_pr extracted_qty].
  destruct (find_clin (clean_nsn (Web.nsn_part_number record)) cs).
  - apply clins_kept_update. intro x. apply web_enhance_kept.
  - apply clins_kept_app.
Qed.

Lemma in_clins_kept (record : IN.row) (cs : list Clin') :
  clins_kept cs (in_clins record cs).
Proof.
  unfold in_clins.
  destruct (find_clin
              (get_or (IN.nsn_clean record)
                      (clean_nsn (IN.nsn_part_number record))) cs).
  - apply clins_kept_update. intro x. apply in_enhance_kept.
  - apply clins_kept_app.
Qed.

Lemma sol_kept_refl (s : Sol') : sol_kept s s.
Proof. unfold sol_kept. repeat split. apply clins_kept_refl. Qed.

Lemma sol_kept_trans (a b c : Sol') :
  sol_kept a b -> sol_kept b c -> sol_kept a c.
Proof.
  unfold sol_kept.
  intros (A1 & A2 & A3 & A4 & A5 & A6 & A7) (B1 & B2 & B3 & B4 & B5 & B6 & B7).
  repeat split; try congruence. eapply clins_kept_trans; eassumption.
Qed.

Lemma web_kept_refl (s : Sol') : web_kept s s.
Proof. unfold web_kept. repeat split. apply sol_kept_refl. Qed.

Lemma web_kept_trans (a b c : Sol') :
  web_kept a b -> web_kept b c -> web_kept a c.
Proof.
  unfold web_kept.
  intros (A1 & A2 & A3 & A4 & A5) (B1 & B2 & B3 & B4 & B5).
  split; [eapply sol_kept_trans; eassumption|].
  repeat split; try congruence.
  intro H. rewrite <- (A2 H). apply B2. now rewrite (A2 H).
Qed.

(** What a turn of a pass leaves under a key. *)
Lemma get_step (k key : string) (v : Sol') (f : Sol' -> Sol')
    (d : Dict.t Sol') :
  Dict.get k (modify key f (setdefault key v d))
  = if String.eqb k key then Some (f (get_or (Dict.get key d) v))
    else Dict.get k d.
Proof.
  unfold modify, setdefault, Dict.mem.
  destruct (Dict.get key d) as [s|] eqn:E.
  - rewrite E, dict_get_set. reflexivity.
  - rewrite dict_get_set, String.eqb_refl, !dict_get_set.
    destruct (String.eqb k key); reflexivity.
Qed.

Variable strptime : string -> string -> option string.
Variable utcnow : string.

Lemma web_header_kept (record : Web.row) (s : Sol') :
  web_kept s (with_clins (web_clins record (clins (web_header strptime record s)))
                         (web_header strptime record s)).
Proof.
  unfold web_kept, sol_kept. cbn.
  repeat split; try reflexivity.
  - apply web_clins_kept.
  - intro H. now rewrite H.
Qed.

Lemma in_header_kept (record : IN.row) (s : Sol') :
  sol_kept s (with_clins (in_clins record (clins (in_header strptime record s)))
                         (in_header strptime record s)).
Proof.
  unfold sol_kept, in_header.
  destruct (decode_setaside (IN.small_business_setaside record))
    as [[code description] percentage].
  cbn. repeat split; try reflexivity. apply in_clins_kept.
Qed.

Lemma web_step_kept (d : Dict.t Sol') (record : Web.row) (k : string)
    (s : Sol') :
  Dict.get k d = Some s ->
  exists s', Dict.get k (web_pass_step strptime utcnow d record) = Some s'
             /\ web_kept s s'.
Proof.
  intro G. unfold web_pass_step.
  destruct (negb (Py.truthy (Py.strip (Web.solicitation record)))).
  - exists s. split; [exact G | apply web_kept_refl].
  - rewrite get_step.
    destruct (String.eqb_spec k
                (Py.upper (Py.strip (Py.strip (Web.solicitation record)))))
      as [<- | _].
    + rewrite G. eexists. split; [reflexivity|]. apply web_header_kept.
    + exists s. split; [exact G | apply web_kept_refl].
Qed.

Lemma in_step_kept (d : Dict.t Sol') (record : IN.row) (k : string)
    (s : Sol') :
  Dict.get k d = Some s ->
  exists s', Dict.get k (in_pass_step strptime utcnow d record) = Some s'
             /\ sol_kept s s'.
Proof.
  intro G. unfold in_pass_step. rewrite get_step.
  destruct (String.eqb_spec k (IN.solicitation_number record)) as [<- | _].
  - rewrite G. eexists. split; [reflexivity|]. apply in_header_kept.
  - exists s. split; [exact G | apply sol_kept_refl].
Qed.

Lemma web_pass_kept (web_data : list Web.row) :
  forall (d : Dict.t Sol') (k : string) (s : Sol'),
    Dict.get k d = Some s ->
    exists s', Dict.get k (fold_left (web_pass_step strptime utcnow) web_data d)
               = Some s'
               /\ web_kept s s'.
Proof.
  induction web_data as [|r rs IH]; intros d k s G; simpl.
  - exists s. split; [exact G | apply web_kept_refl].
  - destruct (web_step_kept d r k s G) as (s1 & G1 & K1).
    destruct (IH _ k s1 G1) as (s2 & G2 & K2).
    exists s2. split; [exact G2|]. eapply web_kept_trans; eassumption.
Qed.

Lemma in_pass_kept (in_data : list IN.row) :
  forall (d : Dict.t Sol') (k : string) (s : Sol'),
    Dict.get k d = Some s ->
    exists s', Dict.get k (fold_left (in_pass_step strptime utcnow) in_data d)
               = Some s'
               /\ sol_kept s s'.
Proof.
  induction in_data as [|r rs IH]; intros d k s G; simpl.
  - exists s. split; [exact G | apply sol_kept_refl].
  - destruct (in_step_kept d r k s G) as (s1 & G1 & K1).
    destruct (IH _ k s1 G1) as (s2 & G2 & K2).
    exists s2. split; [exact G2|]. eapply sol_kept_trans; eassumption.
Qed.

(** What the web and index passes keep: a solicitation that is in the
    working map before the web pass is still there, under its key, after the web pass
    and after the index pass.  Its CLINs stay in place, new ones coming
    after them, and each keeps its line number, NSN, part number, unit
    price, delivery days and approved sources, and its nomenclature, PR
    number, quantity and unit of issue when they are set: a row that
    matches a CLIN by NSN fills only what is empty.  The solicitation keeps
    its number, type, fill-in flag and raw batch-quote rows; the web pass
    keeps a return-by date that is set and does not touch the set-aside
    code, the percentage and the AMSC.  (The technical documents of a
    matched CLIN and the other solicitation fields take the value of the
    row.) *)
Theorem web_and_index_passes_keep_filled_fields
    (d : Dict.t Sol') (web_data : list Web.row) (in_data : list IN.row)
    (k : string) (s : Sol') :
  Dict.get k d = Some s ->
  exists s1 s2,
    Dict.get k (fold_left (web_pass_step strptime utcnow) web_data d) = Some s1
    /\ web_kept s s1
    /\ Dict.get k (fold_left (in_pass_step strptime utcnow) in_data
                     (fold_left (web_pass_step strptime utcnow) web_data d))
       = Some s2
    /\ sol_kept s s2.
Proof.
  intro G.
  destruct (web_pass_kept web_data d k s G) as (s1 & G1 & K1).
  destruct (in_pass_kept in_data _ k s1 G1) as (s2 & G2 & K2).
  exists s1, s2. split; [exact G1|]. split; [exact K1|].
  split; [exact G2|]. eapply sol_kept_trans; [apply K1 | exact K2].
Qed.

End MergeFrame.

(** The working map after the batch-quote pass over one row. *)
Definition seeded_map : Dict.t (@Combined.Solicitation (Z * nat)) :=
  fold_left
    (Combined.bq_pass_step Combined.strptime_model Combined.float_model
                           "2025-01-01T00:00:00Z")
    (Combined.bq_lookup [bq_spe1c1]) [].

Definition seeded_solicitation : @Combined.Solicitation (Z * nat) :=
  Combined.bq_entry Combined.strptime_model Combined.float_model
    (Combined.new_solicitation "2025-01-01T00:00:00Z" "SPE1C1" "batch_quote")
    [bq_spe1c1].

Definition in_undated : IN.row :=
  IN.mk "SPE1C1" "1234-56-789-0123" "PR7" "" "" "7" "EA" "NUT" "" "" "" "" ""
        (Some "1234567890123").

Lemma web_and_index_passes_keep_filled_fields_witness :
  exists s1 s2,
    Dict.get "SPE1C1"
      (fold_left (Combined.web_pass_step Combined.strptime_model
                    "2025-01-01T00:00:00Z") [web_spe1c1] seeded_map)
    = Some s1
    /\ web_kept seeded_solicitation s1
    /\ Dict.get "SPE1C1"
         (fold_left (Combined.in_pass_step Combined.strptime_model
                       "2025-01-01T00:00:00Z") [in_undated]
            (fold_left (Combined.web_pass_step Combined.strptime_model
                          "2025-01-01T00:00:00Z") [web_spe1c1] seeded_map))
       = Some s2
    /\ sol_kept seeded_solicitation s2.
Proof.
  exact (web_and_index_passes_keep_filled_fields
           Combined.strptime_model "2025-01-01T00:00:00Z" seeded_map
           [web_spe1c1] [in_undated] "SPE1C1" seeded_solicitation eq_refl).
Defined.

Definition web_with_docs : Web.row :=
  Web.mk "1" "1234567890123" "BOLT" [Doc.mk "Drawing" "http://docs/1"]
         "SPE1C1" "" "Small Business" "" "PR1" "" "" "" "".

Definition web_without_docs : Web.row :=
  Web.mk "2" "1234567890123" "BOLT" [] "SPE1C1" "" "" "" "PR1" "" "" "" "".

Definition as_no_part : AS.row := AS.mk "1234567890123" "CAGE1" "" "Acme".

(** C2 fails on the code.  The index pass sets the return-by date and the
    set-aside code from its row, so an index row without them empties what
    the batch-quote pass had set; a later web row sets the set-aside type
    and the technical documents of the CLIN it matches, so a row without
    them empties those; and the approved-sources pass puts the supplier
    part number, here empty, over a numeric part number. *)
Lemma later_passes_empty_fields :
  map Combined.return_by_date (Combined.merge_model [] [] [bq_spe1c1] [])
  = [Some "2025-01-15"]
  /\ map Combined.return_by_date
        (Combined.merge_model [] [in_undated] [bq_spe1c1] []) = [None]
  /\ map Combined.small_business_setaside
        (Combined.merge_model [] [] [bq_spe1c1] []) = [Some "Y"]
  /\ map Combined.small_business_setaside
        (Combined.merge_model [] [in_undated] [bq_spe1c1] []) = [Some ""]
  /\ map (fun sol => (Combined.setaside_type sol,
                      map Combined.technical_documents (Combined.clins sol)))
        (Combined.merge_model [web_with_docs] [] [] [])
     = [(Some "Small Business", [Some [Doc.mk "Drawing" "http://docs/1"]])]
  /\ map (fun sol => (Combined.setaside_type sol,
                      map Combined.technical_documents (Combined.clins sol)))
        (Combined.merge_model [web_with_docs; web_without_docs] [] [] [])
     = [(Some "", [Some []])]
  /\ map (fun sol => map Combined.part_number (Combined.clins sol))
        (Combined.merge_model [] [] [bq_spe1c1] []) = [["1234-56-789-0123"]]
  /\ map (fun sol => map Combined.part_number (Combined.clins sol))
        (Combined.merge_model [] [] [bq_spe1c1] [as_no_part]) = [[""]].
Proof. repeat split; vm_compute; reflexivity. Qed.

(** ** What the tokenizer returns *)

Section TokenizerFields.

Import Parsers.

Lemma no_quote_app (a b : string) :
  no_quote (a ++ b) = no_quote a && no_quote b.
Proof. apply all_chars_app. Qed.

Lemma tok_run_no_quote (s : string) (st : tok_state) :
  Forall (fun p => no_quote p = true) (parts st) ->
  no_quote (current st) = true ->
  Forall (fun p => no_quote p = true) (parts (tok_run st s))
  /\ no_quote (current (tok_run st s)) = true.
Proof.
  revert st; induction s as [|c s IH]; intros st Hp Hc; simpl; [now split|].
  apply IH; rewrite tok_step_cases.
  - destruct (Ascii.eqb c Py.dquote); simpl; [assumption|].
    destruct (Ascii.eqb c Py.comma && negb (in_quotes st)); simpl;
      [|assumption].
    apply Forall_app. split; [assumption | now constructor].
  - destruct (Ascii.eqb c Py.dquote) eqn:Eq; simpl; [assumption|].
    destruct (Ascii.eqb c Py.comma && negb (in_quotes st)); simpl;
      [reflexivity|].
    rewrite no_quote_app, Hc. unfold no_quote. simpl. now rewrite Eq.
Qed.

Lemma strip_quotes_no_quote (p : string) :
  no_quote p = true -> Py.strip_quotes p = p.
Proof.
  intro H. apply strip_by_none. rewrite <- H. apply all_chars_ext.
  intro c. now rewrite Ascii.eqb_sym.
Qed.

(** No column that the tokenizer returns holds a double-quote character,
    so the [strip] of quote characters that [parse_bq_file] applies to
    every column it reads changes none of them. *)
Theorem tokenizer_columns_hold_no_quote (line : string) :
  Forall (fun p => no_quote p = true) (tokenize line)
  /\ map Py.strip_quotes (tokenize line) = tokenize line
  /\ forall i, field_at i (tokenize line) = nth i (tokenize line) EmptyString.
Proof.
  assert (F : Forall (fun p => no_quote p = true) (tokenize line)).
  { unfold tokenize.
    destruct (tok_run_no_quote line tok_init) as [Hp Hc];
      [constructor | reflexivity |].
    destruct (Py.truthy (current (tok_run tok_init line))); [|assumption].
    apply Forall_app. split; [assumption | now constructor]. }
  split; [exact F|]. split.
  - induction F as [|p ps Hp _ IH]; simpl; [reflexivity|].
    now rewrite IH, (strip_quotes_no_quote _ Hp).
  - intro i. unfold field_at.
    destruct (i <? List.length (tokenize line))%nat eqn:E.
    + apply strip_quotes_no_quote.
      apply Nat.ltb_lt in E.
      rewrite Forall_forall in F. apply F. now apply nth_In.
    + apply Nat.ltb_ge in E. now rewrite nth_overflow.
Qed.

(** A field as a batch-quote line carries it: between quote characters,
    or bare when it holds no comma. *)
Definition quoted (f : string) : string :=
  String Py.dquote (f ++ String Py.dquote EmptyString).

Definition written_as (f e : string) : Prop :=
  e = quoted f \/ (e = f /\ no_char Py.comma f = true).

Lemma tok_run_bare (f : string) (ps : list string) (cur : string) :
  no_quote f = true -> no_char Py.comma f = true ->
  tok_run (mk_tok ps cur false) f = mk_tok ps (cur ++ f) false.
Proof.
  revert cur; induction f as [|c f IH]; intros cur Hq Hc; simpl.
  - now rewrite str_app_nil_r.
  - unfold no_quote, no_char in *. simpl in Hq, Hc.
    apply andb_true_iff in Hq as [Hq1 Hq2].
    apply andb_true_iff in Hc as [Hc1 Hc2].
    apply negb_true_iff in Hq1, Hc1.
    rewrite tok_step_cases, Hq1, Hc1. simpl.
    rewrite (IH _ Hq2 Hc2), str_app_assoc. reflexivity.
Qed.

Lemma tok_run_inside (f : string) (ps : list string) (cur : string) :
  no_quote f = true ->
  tok_run (mk_tok ps cur true) f = mk_tok ps (cur ++ f) true.
Proof.
  revert cur; induction f as [|c f IH]; intros cur Hq; simpl.
  - now rewrite str_app_nil_r.
  - unfold no_quote in *. simpl in Hq.
    apply andb_true_iff in Hq as [Hq1 Hq2]. apply negb_true_iff in Hq1.
    rewrite tok_step_cases, Hq1. simpl. rewrite andb_false_r.
    rewrite (IH _ Hq2), str_app_assoc. reflexivity.
Qed.

Lemma tok_run_written (f e : string) (ps : list string) :
  no_quote f = true -> written_as f e ->
  tok_run (mk_tok ps EmptyString false) e = mk_tok ps f false.
Proof.
  intros Hq [-> | [-> Hc]].
  - unfold quoted. simpl. rewrite tok_step_cases. simpl.
    rewrite tok_run_app, (tok_run_inside _ _ _ Hq). simpl.
    rewrite tok_step_cases. reflexivity.
  - now rewrite tok_run_bare.
Qed.

Lemma tok_run_join (fs es : list string) (f e : string) (ps : list string) :
  Forall2 written_as (fs ++ [f]) (es ++ [e]) ->
  Forall (fun x => no_quote x = true) (fs ++ [f]) ->
  tok_run (mk_tok ps EmptyString false) (Py.join Py.comma (es ++ [e]))
  = mk_tok (ps ++ fs) f false.
Proof.
  revert es ps; induction fs as [|g fs IH]; intros es ps HW HQ.
  - destruct es as [|e1 es].
    + simpl in *. inversion HW; subst. inversion HQ; subst.
      rewrite app_nil_r. now apply tok_run_written.
    + simpl in HW. inversion HW as [|? ? ? ? _ HW']; subst.
      inversion HW'; subst. now destruct es.
  - destruct es as [|e1 es].
    + simpl in HW. inversion HW as [|? ? ? ? _ HW']; subst.
      inversion HW'; subst. now destruct fs.
    + simpl in HW, HQ.
      inversion HW as [|? ? ? ? Hg HW']; subst.
      inversion HQ as [|? ? Hgq HQ']; subst.
      change (Py.join Py.comma ((e1 :: es) ++ [e]))
        with (Py.join Py.comma (e1 :: es ++ [e])).
      assert (J : Py.join Py.comma (e1 :: es ++ [e])
                  = (e1 ++ String Py.comma (Py.join Py.comma (es ++ [e])))%string).
      { destruct es; reflexivity. }
      rewrite J, tok_run_app, (tok_run_written _ _ _ Hgq Hg). simpl.
      rewrite tok_step_cases. simpl.
      rewrite (IH es (ps ++ [g]) HW' HQ'), <- app_assoc. reflexivity.
Qed.

(** A line of fields separated by commas, each field between quote
    characters or bare, is read back as those fields: a comma inside a
    quoted field stays in it, the quote characters go.  The last field has
    to hold something, an empty one is dropped. *)
Theorem tokenizer_reads_written_fields (fs es : list string) (f e : string) :
  Forall2 written_as (fs ++ [f]) (es ++ [e]) ->
  Forall (fun x => no_quote x = true) (fs ++ [f]) ->
  f <> EmptyString ->
  tokenize (Py.join Py.comma (es ++ [e])) = fs ++ [f].
Proof.
  intros HW HQ Hf. unfold tokenize, tok_init.
  rewrite (tok_run_join fs es f e [] HW HQ). simpl.
  destruct f; [congruence | reflexivity].
Qed.

End TokenizerFields.

Lemma tokenizer_reads_written_fields_witness :
  Parsers.tokenize (Py.join Py.comma (["SPE1C1"; quoted "BOLT, HEX"] ++ ["EA"]))
  = ["SPE1C1"; "BOLT, HEX"] ++ ["EA"].
Proof.
  apply (tokenizer_reads_written_fields ["SPE1C1"; "BOLT, HEX"]
           ["SPE1C1"; quoted "BOLT, HEX"] "EA" "EA").
  - repeat constructor; try (now left); right; split; reflexivity.
  - repeat constructor.
  - discriminate.
Defined.

(** ** The file parsers against the text parsers *)

Section FileParsers.

Import Parsers.

Lemma rstrip_app_all (p : ascii -> bool) (a b : string) :
  Py.all_chars p b = true -> Py.rstrip_by p (a ++ b) = Py.rstrip_by p a.
Proof.
  intro Hb. induction a as [|c a IH].
  - simpl. induction b as [|d b IHb]; [reflexivity|].
    simpl in Hb. apply andb_true_iff in Hb as [Hd Hb].
    cbn [Py.rstrip_by]. now rewrite (IHb Hb), Hd.
  - cbn [String.append Py.rstrip_by]. now rewrite IH.
Qed.

Lemma lstrip_all (p : ascii -> bool) (b : string) :
  Py.all_chars p b = true -> Py.lstrip_by p b = EmptyString.
Proof.
  induction b as [|d b IH]; [reflexivity|]. simpl. intro H.
  apply andb_true_iff in H as [Hd Hb]. rewrite Hd. now apply IH.
Qed.

Lemma lstrip_app_all (p : ascii -> bool) (a b : string) :
  Py.all_chars p b = true ->
  Py.lstrip_by p (a ++ b)
  = match Py.lstrip_by p a with
    | EmptyString => EmptyString
    | r => (r ++ b)%string
    end.
Proof.
  intro Hb. induction a as [|c a IH].
  - simpl. now apply lstrip_all.
  - cbn [String.append Py.lstrip_by]. destruct (p c); [exact IH | reflexivity].
Qed.

(** Blank text after a string does not reach its [strip]. *)
Lemma strip_app_space (a b : string) :
  Py.all_chars Py.isspace b = true -> Py.strip (a ++ b) = Py.strip a.
Proof.
  intro Hb. unfold Py.strip, Py.strip_by.
  rewrite (lstrip_app_all _ a b Hb).
  destruct (Py.lstrip_by Py.isspace a) as [|c r]; [reflexivity|].
  now apply rstrip_app_all.
Qed.

Lemma drop_app (n : nat) (a b : string) :
  Py.drop n (a ++ b) = (Py.drop n a ++ Py.drop (n - String.length a) b)%string.
Proof.
  revert a; induction n as [|n IH]; intro a.
  - simpl. now destruct a.
  - destruct a as [|c a]; [reflexivity|]. simpl. apply IH.
Qed.

Lemma take_app (n : nat) (a b : string) :
  Py.take n (a ++ b) = (Py.take n a ++ Py.take (n - String.length a) b)%string.
Proof.
  revert a; induction n as [|n IH]; intro a.
  - simpl. now destruct a, b.
  - destruct a as [|c a]; simpl; [now destruct b | now rewrite IH].
Qed.

Lemma all_chars_drop (p : ascii -> bool) (n : nat) (s : string) :
  Py.all_chars p s = true -> Py.all_chars p (Py.drop n s) = true.
Proof.
  revert s; induction n as [|n IH]; intros [|c s] H; simpl; try assumption;
    try reflexivity.
  simpl in H. apply andb_true_iff in H as [_ H]. now apply IH.
Qed.

Lemma all_chars_take (p : ascii -> bool) (n : nat) (s : string) :
  Py.all_chars p s = true -> Py.all_chars p (Py.take n s) = true.
Proof.
  revert s; induction n as [|n IH]; intros [|c s] H; simpl; try reflexivity.
  simpl in H. apply andb_true_iff in H as [Hc H]. now rewrite Hc, IH.
Qed.

(** A column of a line is not changed, up to [strip], by blank text after
    the line. *)
Lemma strip_slice_app_space (a b : nat) (l t : string) :
  Py.all_chars Py.isspace t = true ->
  Py.strip (Py.slice a b (l ++ t)) = Py.strip (Py.slice a b l).
Proof.
  intro Ht. unfold Py.slice. rewrite drop_app, take_app.
  apply strip_app_space. now apply all_chars_take, all_chars_drop.
Qed.

(** The length guards of [parse_in_file] change nothing: a slice that
    starts at or past the end of the line is empty. *)
Lemma in_guarded_slice (a b : nat) (l : string) :
  in_guarded a a b l = Py.strip (Py.slice a b l).
Proof.
  unfold in_guarded. destruct (a <? String.length l)%nat eqn:E;
    [reflexivity|].
  apply Nat.ltb_ge in E. unfold Py.slice.
  rewrite (drop_past_end _ _ E). now destruct (b - a).
Qed.

Lemma in_record_app_space (l t : string) :
  Py.all_chars Py.isspace t = true -> in_record (l ++ t) = in_record l.
Proof.
  intro Ht. unfold in_record. rewrite !in_guarded_slice.
  rewrite !(strip_slice_app_space _ _ l t Ht). reflexivity.
Qed.

(** The lines of a text as a file gives them and as [split] gives them. *)
Inductive line_ends : list string -> list string -> Prop :=
| ends_here : line_ends [] [EmptyString]
| ends_open (l : string) : line_ends [l] [l]
| ends_line (l : string) (xs ys : list string) :
    line_ends xs ys ->
    line_ends ((l ++ String Py.newline EmptyString)%string :: xs) (l :: ys).

Lemma keepends_split (s : string) :
  line_ends (TextFile.keepends s) (Py.split Py.newline s).
Proof.
  induction s as [|c s IH]; simpl; [constructor|].
  destruct (Ascii.eqb c Py.newline) eqn:E.
  - apply Ascii.eqb_eq in E. subst c.
    exact (ends_line EmptyString _ _ IH).
  - inversion IH as [Hx Hy | l Hx Hy | l xs ys H Hx Hy].
    + constructor.
    + constructor.
    + exact (ends_line (String c l) _ _ H).
Qed.

Lemma universal_no_cr (s : string) :
  no_char TextFile.cr s = true -> TextFile.universal s = s.
Proof.
  induction s as [|c s IH]; [reflexivity|]. unfold no_char. simpl.
  intro H. apply andb_true_iff in H as [Hc Hs].
  apply negb_true_iff in Hc. rewrite Hc. now rewrite (IH Hs).
Qed.

Lemma newline_space :
  Py.all_chars Py.isspace (String Py.newline EmptyString) = true.
Proof. reflexivity. Qed.

Lemma in_lines_ends (xs ys : list string) :
  line_ends xs ys -> FileProcessor.in_lines xs = in_lines ys.
Proof.
  intro H. rewrite file_processor_in_lines, in_lines_filter.
  induction H as [| l | l xs ys _ IH]; [reflexivity | reflexivity |].
  assert (N : nonblank (l ++ String Py.newline EmptyString) = nonblank l).
  { unfold nonblank. now rewrite (strip_app_space _ _ newline_space). }
  cbn [filter]. rewrite N.
  destruct (nonblank l); cbn [map]; [|exact IH].
  now rewrite IH, (in_record_app_space _ _ newline_space).
Qed.

Lemma as_lines_ends (xs ys : list string) :
  line_ends xs ys -> as_lines xs = as_lines ys.
Proof.
  induction 1 as [| l | l xs ys _ IH]; [reflexivity | reflexivity |].
  cbn [as_lines]. rewrite (strip_app_space _ _ newline_space), IH.
  reflexivity.
Qed.

Lemma bq_lines_ends (xs ys : list string) :
  line_ends xs ys -> bq_lines xs = bq_lines ys.
Proof.
  induction 1 as [| l | l xs ys _ IH]; [reflexivity | reflexivity |].
  cbn [bq_lines]. rewrite (strip_app_space _ _ newline_space), IH.
  reflexivity.
Qed.

(** The three parsers of [file_processor.py], reading a file, return the
    records that the parsers of [combined.py] return for the text of the
    file, when the text holds no carriage return (which a file turns into
    a line end and the text parsers do not). *)
Theorem file_parsers_agree_with_text_parsers (content : string) :
  no_char TextFile.cr content = true ->
  FileProcessor.parse_in_file (Some (TextFile.lines content))
  = parse_in_file content
  /\ FileProcessorCsv.parse_as_file (Some (TextFile.lines content))
     = parse_as_file content
  /\ FileProcessorCsv.parse_bq_file (Some (TextFile.lines content))
     = parse_bq_file content.
Proof.
  intro H. unfold TextFile.lines. rewrite (universal_no_cr _ H).
  pose proof (keepends_split content) as L.
  split; [exact (in_lines_ends _ _ L)|].
  split; [exact (as_lines_ends _ _ L) | exact (bq_lines_ends _ _ L)].
Qed.

End FileParsers.

Definition two_index_lines : string :=
  "SPE1C125T0001 1234-56-789-0123" ++ String Py.newline "SPE1C125T0002".

Lemma file_parsers_agree_with_text_parsers_witness :
  FileProcessor.parse_in_file (Some (TextFile.lines two_index_lines))
  = Parsers.parse_in_file two_index_lines.
Proof.
  exact (proj1 (file_parsers_agree_with_text_parsers two_index_lines eq_refl)).
Defined.

(** A carriage return alone ends a line of a file and none of a text. *)
Example file_parsers_differ_on_carriage_return :
  List.length (FileProcessor.parse_in_file
                 (Some (TextFile.lines ("A" ++ String TextFile.cr "B"))))
  = 2
  /\ List.length (Parsers.parse_in_file ("A" ++ String TextFile.cr "B")) = 1.
Proof. split; reflexivity. Qed.

(** ** The columns of an index line *)

Section IndexColumns.

Import Parsers.

Lemma slice_app_past (a b : nat) (p s : string) :
  String.length p <= a ->
  Py.slice a b (p ++ s)
  = Py.slice (a - String.length p) (b - String.length p) s.
Proof.
  intro H. unfold Py.slice. rewrite drop_app.
  rewrite (drop_past_end _ _ H). simpl.
  f_equal. lia.
Qed.

Lemma slice_head (w : nat) (c s : string) :
  String.length c = w -> Py.slice 0 w (c ++ s) = c.
Proof.
  intros <-. unfold Py.slice. rewrite Nat.sub_0_r. simpl.
  induction c as [|x c IH]; simpl; [now destruct s | now rewrite IH].
Qed.

Ltac column :=
  repeat (rewrite slice_app_past by lia;
          match goal with
          | H : String.length ?c = _ |- context [String.length ?c] =>
              rewrite H
          end;
          cbn [Nat.sub]);
  apply slice_head; assumption.

(** The record of a line that is made of thirteen columns of the widths
    13, 46, 13, 8, 19, 7, 2, 21, 5, 1, 1, 1 and 3: each field is its
    column, stripped, whatever follows the columns. *)
Lemma in_record_columns
    (c1 c2 c3 c4 c5 c6 c7 c8 c9 c10 c11 c12 c13 rest : string) :
  String.length c1 = 13 -> String.length c2 = 46 -> String.length c3 = 13 ->
  String.length c4 = 8 -> String.length c5 = 19 -> String.length c6 = 7 ->
  String.length c7 = 2 -> String.length c8 = 21 -> String.length c9 = 5 ->
  String.length c10 = 1 -> String.length c11 = 1 -> String.length c12 = 1 ->
  String.length c13 = 3 ->
  in_record (c1 ++ c2 ++ c3 ++ c4 ++ c5 ++ c6 ++ c7 ++ c8 ++ c9 ++ c10
             ++ c11 ++ c12 ++ c13 ++ rest)
  = IN.mk (Py.strip c1) (Py.strip c2) (Py.strip c3) (Py.strip c4)
          (Py.strip c5) (Py.strip c6) (Py.strip c7) (Py.strip c8)
          (Py.strip c9) (Py.strip c10) (Py.strip c11) (Py.strip c12)
          (Py.strip c13)
          (if Py.truthy (Py.strip c2)
           then Some (Py.remove_char Py.hyphen (Py.strip c2)) else None).
Proof.
  intros H1 H2 H3 H4 H5 H6 H7 H8 H9 H10 H11 H12 H13.
  set (line := (c1 ++ c2 ++ c3 ++ c4 ++ c5 ++ c6 ++ c7 ++ c8 ++ c9 ++ c10
                ++ c11 ++ c12 ++ c13 ++ rest)%string).
  assert (E1 : Py.slice 0 13 line = c1) by (subst line; column).
  assert (E2 : Py.slice 13 59 line = c2) by (subst line; column).
  assert (E3 : Py.slice 59 72 line = c3) by (subst line; column).
  assert (E4 : Py.slice 72 80 line = c4) by (subst line; column).
  assert (E5 : Py.slice 80 99 line = c5) by (subst line; column).
  assert (E6 : Py.slice 99 106 line = c6) by (subst line; column).
  assert (E7 : Py.slice 106 108 line = c7) by (subst line; column).
  assert (E8 : Py.slice 108 129 line = c8) by (subst line; column).
  assert (E9 : Py.slice 129 134 line = c9) by (subst line; column).
  assert (E10 : Py.slice 134 135 line = c10) by (subst line; column).
  assert (E11 : Py.slice 135 136 line = c11) by (subst line; column).
  assert (E12 : Py.slice 136 137 line = c12) by (subst line; column).
  assert (E13 : Py.slice 137 140 line = c13) by (subst line; column).
  unfold in_record. rewrite !in_guarded_slice.
  rewrite E1, E2, E3, E4, E5, E6, E7, E8, E9, E10, E11, E12, E13.
  reflexivity.
Qed.

End IndexColumns.

(** [s.ljust(width)]: blanks after [s] up to the width. *)
Fixpoint blanks (n : nat) : string :=
  match n with O => EmptyString | S k => String Py.blank (blanks k) end.

Definition ljust (width : nat) (s : string) : string :=
  (s ++ blanks (width - String.length s))%string.

(** An index line written from a record: every field in its column. *)
Definition in_line (r : IN.row) : string :=
  (ljust 13 (IN.solicitation_number r) ++ ljust 46 (IN.nsn_part_number r)
   ++ ljust 13 (IN.purchase_request r) ++ ljust 8 (IN.return_by_date r)
   ++ ljust 19 (IN.file_name r) ++ ljust 7 (IN.quantity r)
   ++ ljust 2 (IN.unit_issue r) ++ ljust 21 (IN.nomenclature r)
   ++ ljust 5 (IN.buyer_code r) ++ ljust 1 (IN.amsc r)
   ++ ljust 1 (IN.item_type r) ++ ljust 1 (IN.small_business_setaside r)
   ++ ljust 3 (IN.setaside_percentage r))%string.

(** A text that a column of the given width can hold and give back: short
    enough, with no blank at either end. *)
Definition column_text (width : nat) (s : string) : bool :=
  (String.length s <=? width)%nat && String.eqb (Py.strip s) s.

Definition in_columns (r : IN.row) : bool :=
  column_text 13 (IN.solicitation_number r)
  && column_text 46 (IN.nsn_part_number r)
  && column_text 13 (IN.purchase_request r)
  && column_text 8 (IN.return_by_date r)
  && column_text 19 (IN.file_name r)
  && column_text 7 (IN.quantity r)
  && column_text 2 (IN.unit_issue r)
  && column_text 21 (IN.nomenclature r)
  && column_text 5 (IN.buyer_code r)
  && column_text 1 (IN.amsc r)
  && column_text 1 (IN.item_type r)
  && column_text 1 (IN.small_business_setaside r)
  && column_text 3 (IN.setaside_percentage r).

Lemma blanks_space (n : nat) : Py.all_chars Py.isspace (blanks n) = true.
Proof. induction n as [|n IH]; [reflexivity | exact IH]. Qed.

Lemma blanks_length (n : nat) : String.length (blanks n) = n.
Proof. induction n as [|n IH]; simpl; [reflexivity | now rewrite IH]. Qed.

Lemma ljust_column (width : nat) (s : string) :
  column_text width s = true ->
  String.length (ljust width s) = width /\ Py.strip (ljust width s) = s.
Proof.
  unfold column_text, ljust. intro H. apply andb_true_iff in H as [L S].
  apply Nat.leb_le in L. apply String.eqb_eq in S. split.
  - rewrite str_length_app, blanks_length. lia.
  - rewrite (strip_app_space _ _ (blanks_space _)). exact S.
Qed.

(** The fixed-width parser reads back what was written in columns: a
    record whose fields fit their columns, written as a line, parses to
    the same fields, with [nsn_clean] the NSN without hyphens when there is
    one; text after the last column (a line end, say) is not read. *)
Theorem in_record_reads_columns_back (r : IN.row) (rest : string) :
  in_columns r = true ->
  Parsers.in_record (in_line r ++ rest)
  = IN.mk (IN.solicitation_number r) (IN.nsn_part_number r)
          (IN.purchase_request r) (IN.return_by_date r) (IN.file_name r)
          (IN.quantity r) (IN.unit_issue r) (IN.nomenclature r)
          (IN.buyer_code r) (IN.amsc r) (IN.item_type r)
          (IN.small_business_setaside r) (IN.setaside_percentage r)
          (if Py.truthy (IN.nsn_part_number r)
           then Some (Py.remove_char Py.hyphen (IN.nsn_part_number r))
           else None).
Proof.
  unfold in_columns. intro H.
  do 12 (apply andb_true_iff in H as [H ?]).
  repeat match goal with
         | C : column_text _ _ = true |- _ =>
             apply ljust_column in C; destruct C as [? ?]
         end.
  unfold in_line.
  repeat match goal with
         | |- context [ljust ?w ?f] =>
             let c := fresh "c" in set (c := ljust w f) in *; clearbody c
         end.
  rewrite !str_app_assoc.
  rewrite in_record_columns by assumption.
  repeat match goal with
         | E : Py.strip _ = _ |- _ => rewrite E; clear E
         end.
  reflexivity.
Qed.

Definition index_row : IN.row :=
  IN.mk "SPE1C125T0001" "1234-56-789-0123" "PR12345" "06032025"
        "SPE1C125T0001.PDF" "12" "EA" "BOLT, HEX" "ABC12" "G" "1" "Y" "100"
        None.

Lemma in_record_reads_columns_back_witness :
  Parsers.in_record (in_line index_row ++ String Py.newline EmptyString)
  = IN.mk "SPE1C125T0001" "1234-56-789-0123" "PR12345" "06032025"
          "SPE1C125T0001.PDF" "12" "EA" "BOLT, HEX" "ABC12" "G" "1" "Y" "100"
          (Some "1234567890123").
Proof.
  exact (in_record_reads_columns_back index_row
           (String Py.newline EmptyString) eq_refl).
Defined.

(** ** The cleaning helpers of the merge *)

Section Cleaning.

Import Combined.

Lemma split_head_no_sep (sep : ascii) (s : string) :
  no_char sep (nth 0 (Py.split sep s) EmptyString) = true.
Proof.
  induction s as [|c s IH]; simpl; [reflexivity|].
  destruct (Ascii.eqb c sep) eqn:E; [reflexivity|].
  destruct (Py.split sep s) as [|h t]; simpl in *.
  - unfold no_char. simpl. now rewrite E.
  - unfold no_char in *. simpl. now rewrite E, IH.
Qed.

Lemma all_chars_lstrip (p q : ascii -> bool) (s : string) :
  Py.all_chars q s = true -> Py.all_chars q (Py.lstrip_by p s) = true.
Proof.
  induction s as [|c s IH]; intro H; [reflexivity|].
  simpl. destruct (p c); [|exact H].
  simpl in H. apply andb_true_iff in H as [_ H]. now apply IH.
Qed.

Lemma all_chars_rstrip (p q : ascii -> bool) (s : string) :
  Py.all_chars q s = true -> Py.all_chars q (Py.rstrip_by p s) = true.
Proof.
  induction s as [|c s IH]; intro H; [reflexivity|].
  simpl in H. apply andb_true_iff in H as [Hc Hs]. specialize (IH Hs).
  simpl. destruct (Py.rstrip_by p s) as [|d r].
  - destruct (p c); simpl; [reflexivity | now rewrite Hc].
  - simpl in *. now rewrite Hc.
Qed.

Lemma all_chars_strip (q : ascii -> bool) (s : string) :
  Py.all_chars q s = true -> Py.all_chars q (Py.strip s) = true.
Proof.
  intro H. unfold Py.strip, Py.strip_by.
  now apply all_chars_rstrip, all_chars_lstrip.
Qed.

(** [clean_nsn] keeps the text before the first blank, without the blank
    characters around it: the result holds no blank, cleaning it again
    changes nothing, and hyphens stay (only a suffix such as a
    specification name goes). *)
Theorem clean_nsn_is_idempotent (nsn_value : string) :
  no_char Py.blank (clean_nsn nsn_value) = true
  /\ Py.strip (clean_nsn nsn_value) = clean_nsn nsn_value
  /\ clean_nsn (clean_nsn nsn_value) = clean_nsn nsn_value
  /\ clean_nsn "1234-56-789-0123 MilSpec" = "1234-56-789-0123".
Proof.
  assert (B : no_char Py.blank (clean_nsn nsn_value) = true).
  { unfold clean_nsn. destruct (negb (Py.truthy nsn_value)); [reflexivity|].
    apply all_chars_strip, split_head_no_sep. }
  assert (S : Py.strip (clean_nsn nsn_value) = clean_nsn nsn_value).
  { unfold clean_nsn. destruct (negb (Py.truthy nsn_value)); [reflexivity|].
    apply strip_idem. }
  split; [exact B|]. split; [exact S|]. split; [|reflexivity].
  unfold clean_nsn at 1.
  destruct (negb (Py.truthy (clean_nsn nsn_value))) eqn:T.
  - apply negb_true_iff in T. now destruct (clean_nsn nsn_value).
  - rewrite (split_no_sep _ _ B). exact S.
Qed.

(** *** Words *)

Definition no_space (s : string) : bool :=
  Py.all_chars (fun c => negb (Py.isspace c)) s.

Definition word (s : string) : Prop := s <> EmptyString /\ no_space s = true.

Lemma no_space_app (a b : string) :
  no_space (a ++ b) = no_space a && no_space b.
Proof. apply all_chars_app. Qed.

Lemma words_from_word (w rest cur : string) :
  no_space w = true ->
  Py.words_from cur (w ++ rest) = Py.words_from (cur ++ w) rest.
Proof.
  revert cur; induction w as [|c w IH]; intros cur H; simpl.
  - now rewrite str_app_nil_r.
  - unfold no_space in H. simpl in H. apply andb_true_iff in H as [Hc Hw].
    apply negb_true_iff in Hc. rewrite Hc.
    rewrite (IH _ Hw), str_app_assoc. reflexivity.
Qed.

Lemma words_from_are_words (s cur : string) :
  no_space cur = true -> Forall word (Py.words_from cur s).
Proof.
  revert cur; induction s as [|c s IH]; intros cur H; simpl.
  - destruct cur; constructor; [|constructor]. split; [discriminate | exact H].
  - destruct (Py.isspace c) eqn:E.
    + destruct cur.
      * now apply IH.
      * constructor; [split; [discriminate | exact H] | now apply IH].
    + apply IH. rewrite no_space_app, H. unfold no_space. simpl. now rewrite E.
Qed.

Lemma words_join (ws : list string) :
  Forall word ws -> Py.words (Py.join Py.blank ws) = ws.
Proof.
  unfold Py.words. induction 1 as [|w ws [Hne Hw] Hws IH]; [reflexivity|].
  destruct ws as [|v ws].
  - simpl. rewrite <- (str_app_nil_r w) at 1.
    rewrite (words_from_word _ _ _ Hw). simpl. now destruct w.
  - change (Py.join Py.blank (w :: v :: ws))
      with (w ++ String Py.blank (Py.join Py.blank (v :: ws)))%string.
    rewrite (words_from_word _ _ _ Hw).
    destruct w as [|c w]; [congruence|].
    cbn [String.append Py.words_from].
    change (Py.isspace Py.blank) with true. cbv iota.
    now rewrite IH.
Qed.

Lemma join_words_no_edge_space (ws : list string) :
  Forall word ws -> Py.strip (Py.join Py.blank ws) = Py.join Py.blank ws.
Proof.
  intro H. unfold Py.strip, Py.strip_by.
  assert (L : Py.lstrip_by Py.isspace (Py.join Py.blank ws)
              = Py.join Py.blank ws).
  { destruct H as [|w ws [Hne Hw] _]; [reflexivity|].
    destruct w as [|c w]; [congruence|].
    unfold no_space in Hw. simpl in Hw.
    apply andb_true_iff in Hw as [Hc _]. apply negb_true_iff in Hc.
    destruct ws; simpl; now rewrite Hc. }
  rewrite L. clear L.
  induction H as [|w ws [Hne Hw] Hws IH]; [reflexivity|].
  destruct ws as [|v ws].
  - simpl. now apply rstrip_none.
  - change (Py.join Py.blank (w :: v :: ws))
      with (w ++ String Py.blank (Py.join Py.blank (v :: ws)))%string.
    rewrite rstrip_app_keep.
    + f_equal. cbn [Py.rstrip_by]. rewrite IH.
      inversion Hws as [|? ? [Hv _] _]; subst.
      destruct v; [congruence|]. now destruct ws.
    + cbn [Py.rstrip_by]. rewrite IH.
      inversion Hws as [|? ? [Hv _] _]; subst.
      destruct v; [congruence|]. destruct ws; discriminate.
Qed.

(** [clean_nomenclature] keeps the words of the text, in order, with one
    blank between them and none around them; cleaning the result again
    changes nothing. *)
Theorem clean_nomenclature_keeps_the_words (nomenclature : string) :
  Py.words (clean_nomenclature nomenclature) = Py.words nomenclature
  /\ Py.strip (clean_nomenclature nomenclature)
     = clean_nomenclature nomenclature
  /\ clean_nomenclature (clean_nomenclature nomenclature)
     = clean_nomenclature nomenclature
  /\ clean_nomenclature "  BOLT,   HEX  HEAD " = "BOLT, HEX HEAD".
Proof.
  assert (W : Forall word (Py.words nomenclature))
    by (apply words_from_are_words; reflexivity).
  assert (E : Py.words (clean_nomenclature nomenclature)
              = Py.words nomenclature).
  { unfold clean_nomenclature. destruct nomenclature; [reflexivity|].
    cbn [Py.truthy negb]. now apply words_join. }
  split; [exact E|]. split; [|split; [|reflexivity]].
  - unfold clean_nomenclature. destruct nomenclature; [reflexivity|].
    cbn [Py.truthy negb]. now apply join_words_no_edge_space.
  - unfold clean_nomenclature at 1.
    destruct (negb (Py.truthy (clean_nomenclature nomenclature))) eqn:T.
    + apply negb_true_iff in T.
      now destruct (clean_nomenclature nomenclature).
    + rewrite E. unfold clean_nomenclature.
      destruct nomenclature; [discriminate T | reflexivity].
Qed.

End Cleaning.

(** ** The quantity of a purchase request *)

Section Quantity.

Import Combined.

Lemma starts_with_upper_take (s : string) :
  Py.starts_with "QTY:" (Py.upper (Py.take 4 s)) = true ->
  Py.starts_with "QTY:" (Py.upper s) = true.
Proof.
  destruct s as [|a [|b [|c [|d s]]]];
    cbn [Py.take Py.upper Py.starts_with]; intro H; try exact H.
Qed.

Lemma contains_upper_tail (c : ascii) (s : string) :
  Py.contains "QTY:" (Py.upper (String c s)) = false ->
  Py.starts_with "QTY:" (Py.upper (String c s)) = false
  /\ Py.contains "QTY:" (Py.upper s) = false.
Proof.
  cbn [Py.upper Py.contains]. intro H. now apply orb_false_iff in H.
Qed.

Lemma contains_upper_lstrip (s : string) :
  Py.contains "QTY:" (Py.upper s) = false ->
  Py.contains "QTY:" (Py.upper (Py.lstrip_by Py.isspace s)) = false.
Proof.
  induction s as [|c s IH]; intro H; [exact H|].
  cbn [Py.lstrip_by]. destruct (Py.isspace c); [|exact H].
  apply IH. now apply contains_upper_tail in H.
Qed.

Lemma contains_starts (s : string) :
  Py.contains "QTY:" s = false -> Py.starts_with "QTY:" s = false.
Proof.
  destruct s as [|c s]; intro H; [reflexivity|].
  cbn [Py.contains] in H. now apply orb_false_iff in H.
Qed.

Lemma qty_match_needs_marker (s : string) :
  Py.contains "QTY:" (Py.upper s) = false -> qty_match s = None.
Proof.
  intro H. unfold qty_match.
  apply contains_upper_lstrip, contains_starts in H.
  destruct (Py.starts_with "QTY:"
              (Py.upper (Py.take 4 (Py.lstrip_by Py.isspace s)))) eqn:E;
    [|reflexivity].
  apply starts_with_upper_take in E. congruence.
Qed.

Lemma qty_search_needs_marker (s : string) :
  Py.contains "QTY:" (Py.upper s) = false -> qty_search s = None.
Proof.
  induction s as [|c s IH]; intro H.
  - reflexivity.
  - cbn [qty_search]. rewrite (qty_match_needs_marker _ H).
    apply IH. now apply contains_upper_tail in H.
Qed.

(** A purchase request that nowhere holds the letters QTY and a colon, in
    either case, comes back stripped and with no quantity. *)
Theorem extract_quantity_without_marker (purchase_request : string) :
  Py.contains "QTY:" (Py.upper purchase_request) = false ->
  extract_quantity_from_purchase_request purchase_request
  = Some (Py.strip purchase_request, None).
Proof.
  intro H. unfold extract_quantity_from_purchase_request.
  rewrite (qty_search_needs_marker _ H).
  now destruct purchase_request.
Qed.

(** *** The quantity that the pattern reads *)

Definition digit_or_comma (c : ascii) : bool :=
  Py.isdigit_char c || Ascii.eqb c Py.comma.

Lemma qty_number_group (s : string) :
  Py.all_chars digit_or_comma (fst (qty_number s)) = true.
Proof.
  induction s as [|c s IH]; [reflexivity|].
  cbn [qty_number]. destruct (Py.isdigit_char c) eqn:D.
  - destruct (qty_number s) as [a b]. cbn [fst Py.all_chars] in *.
    unfold digit_or_comma at 1. now rewrite D, IH.
  - destruct (Ascii.eqb c Py.comma) eqn:C; [|reflexivity].
    destruct s as [|d s]; [reflexivity|].
    destruct (Py.isdigit_char d); [|reflexivity].
    destruct (qty_number (String d s)) as [a b]. cbn [fst Py.all_chars] in *.
    unfold digit_or_comma at 1. now rewrite C, orb_true_r, IH.
Qed.

Lemma remove_comma_digits (g : string) :
  Py.all_chars digit_or_comma g = true ->
  Py.all_chars Py.isdigit_char (Py.remove_char Py.comma g) = true.
Proof.
  induction g as [|c g IH]; [reflexivity|]. cbn [Py.all_chars Py.remove_char].
  intro H. apply andb_true_iff in H as [Hc Hg]. specialize (IH Hg).
  destruct (Ascii.eqb c Py.comma) eqn:C; [exact IH|].
  unfold digit_or_comma in Hc. rewrite C, orb_false_r in Hc.
  cbn [Py.all_chars]. now rewrite Hc, IH.
Qed.

Lemma int_digits_nonneg (s : string) (acc : Z) (b : bool) (n : Z) :
  (0 <= acc)%Z -> Py.int_digits acc b s = Some n -> (0 <= n)%Z.
Proof.
  revert acc b; induction s as [|c s IH]; intros acc b Hacc H.
  - cbn [Py.int_digits] in H. destruct b; [|discriminate].
    inversion H; subst; exact Hacc.
  - cbn [Py.int_digits] in H. destruct (Py.isdigit_char c).
    + apply IH in H; [exact H|]. unfold Py.digit_val. lia.
    + destruct (Ascii.eqb c "_" && b); [|discriminate].
      destruct s as [|d s]; [discriminate|].
      destruct (Py.isdigit_char d); [|discriminate].
      now apply IH in H.
Qed.

(** The number read from the group of a match: with the commas taken out
    it is a text of digits, which writes a number that is not negative. *)
Lemma digits_no_int_space (s : string) :
  Py.all_chars Py.isdigit_char s = true ->
  Py.all_chars (fun c => negb (Py.int_space c)) s = true.
Proof.
  apply all_chars_impl. intro c.
  destruct c as [[] [] [] [] [] [] [] []]; intro H;
    try discriminate H; reflexivity.
Qed.

Lemma int_literal_digits (d : ascii) (t : string) :
  Py.all_chars Py.isdigit_char (String d t) = true ->
  exists q, Py.int_literal (String d t) = Some q /\ (0 <= q)%Z.
Proof.
  intro G. pose proof G as G'. cbn [Py.all_chars] in G'.
  apply andb_true_iff in G' as [D _].
  unfold Py.int_literal.
  rewrite (strip_by_none _ _ (digits_no_int_space _ G)).
  destruct (digit_not_sign d D) as [M P]. rewrite M, P.
  destruct (int_digits_total (String d t) 0 false G) as [n Hn];
    [left; discriminate|].
  exists n. split; [exact Hn|].
  now apply (int_digits_nonneg _ _ _ _ (Z.le_refl 0) Hn).
Qed.

Lemma int_of_group (d : ascii) (r : string) :
  Py.isdigit_char d = true ->
  exists q,
    Py.int_literal (Py.remove_char Py.comma (fst (qty_number (String d r))))
    = Some q /\ (0 <= q)%Z.
Proof.
  intro D.
  pose proof (qty_number_group (String d r)) as G.
  cbn [qty_number] in *. rewrite D in *.
  destruct (qty_number r) as [a b]. cbn [fst] in *.
  apply remove_comma_digits in G.
  cbn [Py.remove_char] in *.
  destruct (digit_char_facts d D) as (_ & C & _). rewrite C in *.
  now apply int_literal_digits.
Qed.

Lemma qty_match_group (s g rest : string) :
  qty_match s = Some (g, rest) ->
  exists q,
    Py.int_literal (Py.remove_char Py.comma g) = Some q /\ (0 <= q)%Z.
Proof.
  unfold qty_match.
  destruct (Py.starts_with "QTY:"
              (Py.upper (Py.take 4 (Py.lstrip_by Py.isspace s))));
    [|discriminate].
  destruct (Py.lstrip_by Py.isspace
              (Py.drop 4 (Py.lstrip_by Py.isspace s))) as [|d r];
    [discriminate|].
  destruct (Py.isdigit_char d) eqn:D; [|discriminate].
  pose proof (int_of_group d r D) as I.
  destruct (qty_number (String d r)) as [a b]. cbn [fst] in I.
  intro H. inversion H; subst. exact I.
Qed.

Lemma qty_search_group (s g : string) :
  qty_search s = Some g ->
  exists q,
    Py.int_literal (Py.remove_char Py.comma g) = Some q /\ (0 <= q)%Z.
Proof.
  induction s as [|c s IH]; cbn [qty_search].
  - destruct (qty_match "") as [[g' rest]|] eqn:E; [|discriminate].
    intro H. inversion H; subst. exact (qty_match_group _ _ _ E).
  - destruct (qty_match (String c s)) as [[g' rest]|] eqn:E.
    + intro H. inversion H; subst. exact (qty_match_group _ _ _ E).
    + exact IH.
Qed.

Lemma count_digits_remove_comma (g : string) :
  Py.count_digits (Py.remove_char Py.comma g) = Py.count_digits g.
Proof.
  induction g as [|c g IH]; [reflexivity|].
  cbn [Py.remove_char Py.count_digits].
  destruct (Ascii.eqb c Py.comma) eqn:C.
  - apply Ascii.eqb_eq in C. subst c. exact IH.
  - cbn [Py.count_digits]. now rewrite IH.
Qed.

(** What [int] makes of the group of a match: the number it writes, unless
    it has more digits than [int] converts. *)
Lemma int_of_found_group (s g : string) :
  qty_search s = Some g ->
  if (Py.int_max_str_digits <? Py.count_digits g)%nat
  then Py.int (Py.remove_char Py.comma g) = None
  else exists q,
         Py.int (Py.remove_char Py.comma g) = Some q /\ (0 <= q)%Z.
Proof.
  intro E. unfold Py.int. rewrite count_digits_remove_comma.
  destruct (Py.int_max_str_digits <? Py.count_digits g)%nat; [reflexivity|].
  exact (qty_search_group _ _ E).
Qed.

(** The three ways a call of [extract_quantity_from_purchase_request] ends.
    The pattern is not found: the text comes back stripped, with no
    quantity.  It is found and its number has no more digits than [int]
    converts: a quantity that is not negative comes back, with the text from
    which every match was taken out.  It is found with a longer number: the
    call raises, and then only. *)
Theorem extract_quantity_cases (purchase_request : string) :
  match qty_search purchase_request with
  | None =>
      extract_quantity_from_purchase_request purchase_request
      = Some (Py.strip purchase_request, None)
  | Some g =>
      Py.contains "QTY:" (Py.upper purchase_request) = true
      /\ if (Py.int_max_str_digits <? Py.count_digits g)%nat
         then extract_quantity_from_purchase_request purchase_request = None
         else exists q,
                extract_quantity_from_purchase_request purchase_request
                = Some (Py.strip (qty_sub 0 purchase_request), Some q)
                /\ (0 <= q)%Z
  end.
Proof.
  unfold extract_quantity_from_purchase_request.
  destruct purchase_request as [|c s]; [reflexivity|].
  cbn [Py.truthy negb].
  destruct (qty_search (String c s)) as [g|] eqn:E; [|reflexivity].
  split.
  - destruct (Py.contains "QTY:" (Py.upper (String c s))) eqn:K;
      [reflexivity|].
    rewrite (qty_search_needs_marker _ K) in E. discriminate.
  - pose proof (int_of_found_group _ _ E) as I.
    destruct (Py.int_max_str_digits <? Py.count_digits g)%nat.
    + now rewrite I.
    + destruct I as (q & Hq & Hpos). exists q. now rewrite Hq.
Qed.

End Quantity.

Lemma extract_quantity_without_marker_witness :
  Combined.extract_quantity_from_purchase_request " 0012345678 "
  = Some ("0012345678", None).
Proof.
  exact (extract_quantity_without_marker " 0012345678 " eq_refl).
Defined.

(** ** The two readings of a purchase-request text: where they agree *)

Section PurchaseRequestReadings.

Import Solicitations Combined.

(** A blank other than the line feed. *)
Definition inline_blank (c : ascii) : bool :=
  Py.isspace c && negb (Ascii.eqb c Py.newline).

(** The number of a quantity as the pattern reads it whole: digits in
    groups that single commas separate. *)
Fixpoint grouped (after_digit : bool) (s : string) : bool :=
  match s with
  | EmptyString => after_digit
  | String c s' =>
      if Py.isdigit_char c then grouped true s'
      else Ascii.eqb c Py.comma && after_digit && grouped false s'
  end.

(** A request number on which the two readings can agree: it has no
    lower-case letter (the row parser would change it), no blank at either
    end, no line feed and no [QTY:] inside. *)
Definition request_number (p : string) : bool :=
  String.eqb (Py.upper p) p && String.eqb (Py.strip p) p
  && no_char Py.newline p && negb (Py.contains "QTY:" p).

(** *** Characters *)

Lemma blank_char_facts (c : ascii) :
  Py.isspace c = true ->
  Py.upper_char c = c /\ Py.isdigit_char c = false
  /\ Ascii.eqb c Py.comma = false /\ Ascii.eqb c ":" = false
  /\ Ascii.eqb "Q" c = false.
Proof.
  destruct c as [[] [] [] [] [] [] [] []]; intro H;
    try discriminate H; repeat split.
Qed.

Lemma number_char_facts (c : ascii) :
  digit_or_comma c = true ->
  Py.upper_char c = c /\ Py.isspace c = false
  /\ Ascii.eqb c Py.newline = false /\ Ascii.eqb "Q" c = false.
Proof.
  destruct c as [[] [] [] [] [] [] [] []]; intro H;
    try discriminate H; repeat split.
Qed.

Lemma marker_char_facts (c : ascii) :
  (Py.upper_char c = "Q"%char \/ Py.upper_char c = "T"%char
   \/ Py.upper_char c = "Y"%char \/ Py.upper_char c = ":"%char) ->
  Py.isspace c = false /\ Ascii.eqb c Py.newline = false.
Proof.
  destruct c as [[] [] [] [] [] [] [] []]; intro H; repeat split;
    exfalso; destruct H as [H | [H | [H | H]]]; discriminate H.
Qed.

(** *** Prefixes and occurrences *)

Lemma starts_with_app_long (p x z : string) :
  String.length p <= String.length x ->
  Py.starts_with p (x ++ z) = Py.starts_with p x.
Proof.
  revert x; induction p as [|a p IH]; intros x H; [reflexivity|].
  destruct x as [|b x]; [simpl in H; lia|].
  cbn [String.append Py.starts_with]. rewrite IH; [reflexivity|].
  simpl in H. lia.
Qed.

Lemma starts_with_no_colon (s : string) :
  no_char ":" s = true -> Py.starts_with "QTY:" s = false.
Proof.
  unfold no_char.
  destruct s as [|a [|b [|c [|d s]]]]; cbn [Py.starts_with Py.all_chars];
    intro H; rewrite ?andb_false_r; try reflexivity.
  apply andb_true_iff in H as [_ H]. apply andb_true_iff in H as [_ H].
  apply andb_true_iff in H as [_ H]. apply andb_true_iff in H as [H _].
  apply negb_true_iff in H. rewrite (Ascii.eqb_sym ":" d), H.
  now rewrite !andb_false_r.
Qed.

Lemma contains_no_colon (s : string) :
  no_char ":" s = true -> Py.contains "QTY:" s = false.
Proof.
  induction s as [|c s IH]; intro H; [reflexivity|].
  cbn [Py.contains]. rewrite (starts_with_no_colon _ H).
  unfold no_char in H. cbn [Py.all_chars] in H.
  apply andb_true_iff in H as [_ H]. exact (IH H).
Qed.

(** An occurrence of [QTY:] ends with its colon, so text without a colon
    that follows [x] adds none. *)
Lemma starts_with_app_no_colon (x y : string) :
  no_char ":" y = true ->
  Py.starts_with "QTY:" (x ++ y) = Py.starts_with "QTY:" x.
Proof.
  intro H.
  destruct x as [|a [|b [|c [|d x]]]].
  - now apply starts_with_no_colon.
  - cbn [String.append Py.starts_with].
    destruct y as [|y1 [|y2 [|y3 y]]]; cbn [Py.starts_with];
      rewrite ?andb_false_r; try reflexivity.
    unfold no_char in H. cbn [Py.all_chars] in H.
    apply andb_true_iff in H as [_ H]. apply andb_true_iff in H as [_ H].
    apply andb_true_iff in H as [H _]. apply negb_true_iff in H.
    rewrite (Ascii.eqb_sym ":" y3), H. now rewrite !andb_false_r.
  - cbn [String.append Py.starts_with].
    destruct y as [|y1 [|y2 y]]; cbn [Py.starts_with];
      rewrite ?andb_false_r; try reflexivity.
    unfold no_char in H. cbn [Py.all_chars] in H.
    apply andb_true_iff in H as [_ H].
    apply andb_true_iff in H as [H _]. apply negb_true_iff in H.
    rewrite (Ascii.eqb_sym ":" y2), H. now rewrite !andb_false_r.
  - cbn [String.append Py.starts_with].
    destruct y as [|y1 y]; cbn [Py.starts_with];
      rewrite ?andb_false_r; try reflexivity.
    unfold no_char in H. cbn [Py.all_chars] in H.
    apply andb_true_iff in H as [H _]. apply negb_true_iff in H.
    rewrite (Ascii.eqb_sym ":" y1), H. now rewrite !andb_false_r.
  - cbn [String.append Py.starts_with]. reflexivity.
Qed.

Lemma contains_app_no_colon (x y : string) :
  no_char ":" y = true ->
  Py.contains "QTY:" (x ++ y) = Py.contains "QTY:" x.
Proof.
  intro H. induction x as [|c x IH].
  - cbn [String.append]. now rewrite (contains_no_colon _ H).
  - change (String c x ++ y)%string with (String c (x ++ y)).
    cbn [Py.contains].
    change (String c (x ++ y)) with (String c x ++ y)%string.
    now rewrite (starts_with_app_no_colon _ _ H), IH.
Qed.

Lemma contains_app_marker (a r : string) :
  Py.contains "QTY:" (a ++ "QTY:" ++ r) = true.
Proof.
  induction a as [|c a IH]; [reflexivity|].
  change (String c a ++ "QTY:" ++ r)%string
    with (String c (a ++ "QTY:" ++ r)).
  cbn [Py.contains]. rewrite IH. apply orb_true_r.
Qed.

(** Text in which no occurrence of [QTY:] starts although [QTY:] follows
    it. *)
Definition clear_before_marker (a : string) : Prop :=
  Py.contains "QTY:" (a ++ "QTY") = false.

Lemma clear_tail (c : ascii) (a : string) :
  clear_before_marker (String c a) ->
  Py.starts_with "QTY:" (String c a ++ "QTY") = false
  /\ clear_before_marker a.
Proof.
  unfold clear_before_marker. cbn [String.append Py.contains]. intro H.
  now apply orb_false_iff in H.
Qed.

Lemma clear_starts (c : ascii) (a r : string) :
  clear_before_marker (String c a) ->
  Py.starts_with "QTY:" (String c a ++ "QTY:" ++ r) = false.
Proof.
  intro H. destruct (clear_tail c a H) as [H1 _].
  change ("QTY:" ++ r)%string with ("QTY" ++ (":" ++ r))%string.
  rewrite <- str_app_assoc. rewrite starts_with_app_long; [exact H1|].
  rewrite str_length_app. simpl. lia.
Qed.

Lemma blanks_no_colon (b : string) :
  Py.all_chars Py.isspace b = true -> no_char ":" b = true.
Proof.
  apply all_chars_impl. intros c H.
  destruct (blank_char_facts c H) as (_ & _ & _ & -> & _). reflexivity.
Qed.

Lemma clear_of_parts (p b : string) :
  Py.contains "QTY:" p = false -> Py.all_chars Py.isspace b = true ->
  clear_before_marker (p ++ b).
Proof.
  intros Hp Hb. unfold clear_before_marker.
  rewrite str_app_assoc, contains_app_no_colon; [exact Hp|].
  unfold no_char. rewrite all_chars_app.
  fold (no_char ":" b). now rewrite (blanks_no_colon _ Hb).
Qed.

(** *** Blanks, lines and stripping *)

Lemma lstrip_blank (b : string) :
  Py.all_chars Py.isspace b = true -> Py.lstrip_by Py.isspace b = "".
Proof.
  induction b as [|c b IH]; intro H; [reflexivity|].
  cbn [Py.all_chars] in H. apply andb_true_iff in H as [Hc Hb].
  cbn [Py.lstrip_by]. rewrite Hc. exact (IH Hb).
Qed.

Lemma strip_blank (b : string) :
  Py.all_chars Py.isspace b = true -> Py.strip b = "".
Proof.
  intro H. unfold Py.strip, Py.strip_by. now rewrite (lstrip_blank _ H).
Qed.

Lemma lstrip_blank_app (b s : string) :
  Py.all_chars Py.isspace b = true ->
  Py.lstrip_by Py.isspace (b ++ s) = Py.lstrip_by Py.isspace s.
Proof.
  induction b as [|c b IH]; intro H; [reflexivity|].
  cbn [Py.all_chars] in H. apply andb_true_iff in H as [Hc Hb].
  cbn [String.append Py.lstrip_by]. rewrite Hc. exact (IH Hb).
Qed.

Lemma strip_blank_app (b s : string) :
  Py.all_chars Py.isspace b = true -> Py.strip (b ++ s) = Py.strip s.
Proof.
  intro H. unfold Py.strip, Py.strip_by. now rewrite (lstrip_blank_app _ _ H).
Qed.

Lemma inline_blank_blank (b : string) :
  Py.all_chars inline_blank b = true -> Py.all_chars Py.isspace b = true.
Proof.
  apply all_chars_impl. intros c H. unfold inline_blank in H.
  now apply andb_true_iff in H as [H _].
Qed.

Lemma inline_blank_no_newline (b : string) :
  Py.all_chars inline_blank b = true -> no_char Py.newline b = true.
Proof.
  apply all_chars_impl. intros c H. unfold inline_blank in H.
  now apply andb_true_iff in H as [_ H].
Qed.

Lemma strip_fixed (s : string) :
  Py.strip s = s ->
  Py.lstrip_by Py.isspace s = s /\ Py.rstrip_by Py.isspace s = s.
Proof.
  intro H. split.
  - rewrite <- H at 1. unfold Py.strip, Py.strip_by.
    rewrite lstrip_rstrip_lstrip. exact H.
  - rewrite <- H at 1. unfold Py.strip, Py.strip_by.
    rewrite rstrip_idem. exact H.
Qed.

Lemma split_cons (sep : ascii) (s : string) :
  exists h t, Py.split sep s = h :: t.
Proof.
  induction s as [|c s (h & t & IH)]; cbn [Py.split]; [now eexists _, _|].
  destruct (Ascii.eqb c sep); [now eexists _, _|].
  rewrite IH. now eexists _, _.
Qed.

Lemma split_app_no_sep (sep : ascii) (x y h : string) (t : list string) :
  no_char sep x = true -> Py.split sep y = h :: t ->
  Py.split sep (x ++ y) = (x ++ h)%string :: t.
Proof.
  intros Hx Hy. induction x as [|c x IH]; [exact Hy|].
  unfold no_char in Hx. cbn [Py.all_chars] in Hx.
  apply andb_true_iff in Hx as [Hc Hx]. apply negb_true_iff in Hc.
  cbn [String.append Py.split]. rewrite Hc, (IH Hx). reflexivity.
Qed.

Lemma blank_lines (b : string) :
  Py.all_chars Py.isspace b = true ->
  Forall (fun l => Py.all_chars Py.isspace l = true) (Py.split Py.newline b).
Proof.
  induction b as [|c b IH]; intro H; [repeat constructor|].
  cbn [Py.all_chars] in H. apply andb_true_iff in H as [Hc Hb].
  specialize (IH Hb). cbn [Py.split].
  destruct (Ascii.eqb c Py.newline); [now constructor|].
  destruct (Py.split Py.newline b) as [|h t]; [repeat constructor|].
  - cbn [Py.all_chars]. now rewrite Hc.
  - inversion IH as [|? ? Hh Ht]; subst. constructor; [|exact Ht].
    cbn [Py.all_chars]. now rewrite Hc, Hh.
Qed.

Lemma nonblank_lines_blank (ls : list string) :
  Forall (fun l => Py.all_chars Py.isspace l = true) ls ->
  nonblank_lines ls = [].
Proof.
  induction 1 as [|l ls Hl _ IH]; [reflexivity|].
  cbn [nonblank_lines]. now rewrite (strip_blank _ Hl).
Qed.

(** A text of one line with blanks and line feeds around it has that line,
    stripped, as its only line. *)
Lemma lines_of_wrapped (lead x b3 : string) :
  Py.all_chars Py.isspace lead = true -> no_char Py.newline x = true ->
  Py.all_chars Py.isspace b3 = true -> Py.truthy (Py.strip x) = true ->
  nonblank_lines (Py.split Py.newline (lead ++ x ++ b3)) = [Py.strip x].
Proof.
  intros Hl Hx Hb Ht. induction lead as [|c lead IH].
  - cbn [String.append].
    destruct (split_cons Py.newline b3) as (h & t & E).
    rewrite (split_app_no_sep _ _ _ _ _ Hx E).
    pose proof (blank_lines _ Hb) as F. rewrite E in F.
    inversion F as [|? ? Hh Hts]; subst.
    cbn [nonblank_lines]. rewrite (strip_app_space _ _ Hh), Ht.
    now rewrite (nonblank_lines_blank _ Hts).
  - cbn [Py.all_chars] in Hl. apply andb_true_iff in Hl as [Hc Hl].
    specialize (IH Hl). cbn [String.append Py.split].
    destruct (Ascii.eqb c Py.newline); [exact IH|].
    destruct (Py.split Py.newline (lead ++ x ++ b3)) as [|h t];
      [discriminate IH|].
    cbn [nonblank_lines] in *.
    replace (Py.strip (String c h)) with (Py.strip h); [exact IH|].
    unfold Py.strip, Py.strip_by. cbn [Py.lstrip_by]. now rewrite Hc.
Qed.

Lemma lines_of_blank (b : string) :
  Py.all_chars Py.isspace b = true ->
  nonblank_lines (Py.split Py.newline b) = [].
Proof. intro H. now apply nonblank_lines_blank, blank_lines. Qed.

(** *** The row parser's split *)

Lemma split_str_first (a r : string) :
  clear_before_marker a ->
  Py.split_str_from "QTY:" 0 (a ++ "QTY:" ++ r)
  = a :: Py.split_str_from "QTY:" 0 r.
Proof.
  intro H. induction a as [|c a IH]; [reflexivity|].
  pose proof (clear_starts c a r H) as S0.
  destruct (clear_tail c a H) as [_ H'].
  change (String c a ++ "QTY:" ++ r)%string
    with (String c (a ++ "QTY:" ++ r)) in *.
  cbn [Py.split_str_from]. rewrite S0, (IH H'). reflexivity.
Qed.

Lemma split_str_no_q (s : string) :
  Py.all_chars (fun c => negb (Ascii.eqb "Q" c)) s = true ->
  Py.split_str_from "QTY:" 0 s = [s].
Proof.
  induction s as [|c s IH]; [reflexivity|].
  intro A. cbn [Py.all_chars] in A. apply andb_true_iff in A as [Hc Hs].
  apply negb_true_iff in Hc.
  cbn [Py.split_str_from Py.starts_with]. rewrite Hc. cbn [andb].
  now rewrite (IH Hs).
Qed.

Lemma upper_fixed (s : string) :
  Py.all_chars (fun c => Ascii.eqb (Py.upper_char c) c) s = true ->
  Py.upper s = s.
Proof.
  induction s as [|c s IH]; [reflexivity|].
  intro A. cbn [Py.all_chars] in A. apply andb_true_iff in A as [Hc Hs].
  apply Ascii.eqb_eq in Hc. cbn [Py.upper]. now rewrite Hc, (IH Hs).
Qed.

Lemma upper_blank (b : string) :
  Py.all_chars Py.isspace b = true -> Py.upper b = b.
Proof.
  intro H. apply upper_fixed. revert H. apply all_chars_impl.
  intros c H. destruct (blank_char_facts c H) as (-> & _).
  apply Ascii.eqb_refl.
Qed.

Lemma upper_number (n : string) :
  Py.all_chars digit_or_comma n = true -> Py.upper n = n.
Proof.
  intro H. apply upper_fixed. revert H. apply all_chars_impl.
  intros c H. destruct (number_char_facts c H) as (-> & _).
  apply Ascii.eqb_refl.
Qed.

(** *** The number of a quantity *)

Lemma grouped_head (n : string) :
  grouped false n = true ->
  exists d r, n = String d r /\ Py.isdigit_char d = true.
Proof.
  destruct n as [|d r]; cbn [grouped]; [discriminate|].
  destruct (Py.isdigit_char d) eqn:D; [now eexists _, _|].
  now rewrite andb_false_r.
Qed.

Lemma grouped_chars (n : string) :
  forall b, grouped b n = true -> Py.all_chars digit_or_comma n = true.
Proof.
  induction n as [|c n IH]; intros b H; [reflexivity|].
  cbn [grouped] in H. cbn [Py.all_chars]. unfold digit_or_comma at 1.
  destruct (Py.isdigit_char c); [exact (IH _ H)|].
  apply andb_true_iff in H as [H Hn]. apply andb_true_iff in H as [Hc _].
  rewrite Hc. exact (IH _ Hn).
Qed.

(** The pattern reads such a number whole when blanks or nothing follow. *)
Lemma qty_number_grouped (n t : string) :
  Py.all_chars Py.isspace t = true ->
  forall b, grouped b n = true -> qty_number (n ++ t) = (n, t).
Proof.
  intro Ht. induction n as [|c n IH]; intros b H.
  - cbn [String.append]. destruct t as [|x t]; [reflexivity|].
    cbn [Py.all_chars] in Ht. apply andb_true_iff in Ht as [Hx _].
    destruct (blank_char_facts x Hx) as (_ & D & C & _).
    cbn [qty_number]. now rewrite D, C.
  - cbn [grouped] in H. cbn [String.append qty_number].
    destruct (Py.isdigit_char c) eqn:D.
    + now rewrite (IH _ H).
    + apply andb_true_iff in H as [H Hn]. apply andb_true_iff in H as [Hc _].
      rewrite Hc. destruct (grouped_head _ Hn) as (d & r & -> & Hd).
      cbn [String.append]. rewrite Hd.
      change (String d (r ++ t)) with (String d r ++ t)%string.
      now rewrite (IH _ Hn).
Qed.

Lemma number_no_blank (n : string) :
  Py.all_chars digit_or_comma n = true ->
  Py.all_chars (fun c => negb (Py.isspace c)) n = true
  /\ no_char Py.newline n = true
  /\ Py.all_chars (fun c => negb (Ascii.eqb "Q" c)) n = true.
Proof.
  intro H. repeat split; revert H; apply all_chars_impl; intros c H;
    destruct (number_char_facts c H) as (_ & S0 & N0 & Q0);
    now rewrite ?S0, ?N0, ?Q0.
Qed.

Lemma digit_not_blank (d : ascii) :
  Py.isdigit_char d = true -> Py.isspace d = false.
Proof.
  destruct d as [[] [] [] [] [] [] [] []]; intro H;
    try discriminate H; reflexivity.
Qed.

(** *** The marker, in either case *)

Lemma marker_shape (m : string) :
  Py.upper m = "QTY:" ->
  exists c1 c2 c3 c4,
    m = String c1 (String c2 (String c3 (String c4 "")))
    /\ Py.upper_char c1 = "Q"%char /\ Py.upper_char c2 = "T"%char
    /\ Py.upper_char c3 = "Y"%char /\ Py.upper_char c4 = ":"%char.
Proof.
  destruct m as [|c1 [|c2 [|c3 [|c4 [|c5 m]]]]]; cbn [Py.upper]; intro H;
    try discriminate H.
  injection H as H1 H2 H3 H4. now exists c1, c2, c3, c4.
Qed.

Lemma marker_no_newline (m : string) :
  Py.upper m = "QTY:" -> no_char Py.newline m = true.
Proof.
  intro H. destruct (marker_shape m H) as (c1 & c2 & c3 & c4 & -> & H1 & H2
                                            & H3 & H4).
  unfold no_char. cbn [Py.all_chars].
  destruct (marker_char_facts c1 (or_introl H1)) as [_ ->].
  destruct (marker_char_facts c2 (or_intror (or_introl H2))) as [_ ->].
  destruct (marker_char_facts c3 (or_intror (or_intror (or_introl H3))))
    as [_ ->].
  destruct (marker_char_facts c4 (or_intror (or_intror (or_intror H4))))
    as [_ ->].
  reflexivity.
Qed.

Lemma marker_lstrip (m r : string) :
  Py.upper m = "QTY:" ->
  Py.lstrip_by Py.isspace (m ++ r) = (m ++ r)%string.
Proof.
  intro H. destruct (marker_shape m H) as (c1 & c2 & c3 & c4 & -> & H1 & _).
  destruct (marker_char_facts c1 (or_introl H1)) as [S0 _].
  cbn [String.append Py.lstrip_by]. now rewrite S0.
Qed.

Lemma qty_match_skip_blank (c : ascii) (s : string) :
  Py.isspace c = true -> qty_match (String c s) = qty_match s.
Proof. intro H. unfold qty_match. cbn [Py.lstrip_by]. now rewrite H. Qed.

Lemma qty_match_blank_app (l s : string) :
  Py.all_chars Py.isspace l = true -> qty_match (l ++ s) = qty_match s.
Proof.
  induction l as [|c l IH]; intro H; [reflexivity|].
  cbn [Py.all_chars] in H. apply andb_true_iff in H as [Hc Hl].
  cbn [String.append]. now rewrite (qty_match_skip_blank _ _ Hc), (IH Hl).
Qed.

(** The match that starts at the blanks before the marker: it reads the
    whole number and takes the blanks after it. *)
Lemma qty_match_at_marker (l m b2 n b3 : string) :
  Py.all_chars Py.isspace l = true -> Py.upper m = "QTY:" ->
  Py.all_chars Py.isspace b2 = true -> grouped false n = true ->
  Py.all_chars Py.isspace b3 = true ->
  qty_match (l ++ m ++ b2 ++ n ++ b3) = Some (n, "").
Proof.
  intros Hl Hm H2 Hn H3. rewrite (qty_match_blank_app _ _ Hl).
  unfold qty_match. rewrite (marker_lstrip _ _ Hm).
  destruct (marker_shape m Hm) as (c1 & c2 & c3 & c4 & -> & E1 & E2 & E3
                                   & E4).
  cbn [String.append Py.take Py.upper Py.drop]. rewrite E1, E2, E3, E4.
  change (Py.starts_with "QTY:" "QTY:") with true. cbv iota.
  rewrite (lstrip_blank_app _ _ H2).
  destruct (grouped_head _ Hn) as (d & r & E & Hd). subst n.
  pose proof (digit_not_blank d Hd) as S0.
  cbn [String.append Py.lstrip_by]. rewrite S0, Hd.
  change (String d (r ++ b3)) with (String d r ++ b3)%string.
  rewrite (qty_number_grouped _ _ H3 _ Hn).
  now rewrite (lstrip_blank _ H3).
Qed.

Lemma qty_search_unfold (s : string) :
  qty_search s
  = match qty_match s with
    | Some (g, _) => Some g
    | None => match s with
              | EmptyString => None
              | String _ r => qty_search r
              end
    end.
Proof. destruct s; reflexivity. Qed.

Lemma qty_search_blank_app (l s : string) :
  Py.all_chars Py.isspace l = true -> qty_search (l ++ s) = qty_search s.
Proof.
  induction l as [|c l IH]; intro H; [reflexivity|].
  pose proof (qty_match_blank_app _ s H) as M.
  cbn [Py.all_chars] in H. apply andb_true_iff in H as [Hc Hl].
  rewrite (qty_search_unfold s). rewrite <- M.
  cbn [String.append qty_search].
  destruct (qty_match (String c (l ++ s))) as [[g rest]|] eqn:E;
    [reflexivity|].
  rewrite (IH Hl), (qty_search_unfold s).
  cbn [String.append] in M. rewrite <- M, E. reflexivity.
Qed.

Lemma rstrip_tail (c : ascii) (s : string) :
  Py.rstrip_by Py.isspace (String c s) = String c s ->
  Py.rstrip_by Py.isspace s = s
  /\ (Py.isspace c = true -> s <> EmptyString).
Proof.
  cbn [Py.rstrip_by]. intro H.
  destruct (Py.rstrip_by Py.isspace s) as [|d r] eqn:E.
  - destruct (Py.isspace c) eqn:Hc; [discriminate H|].
    injection H as H. subst s. split; [exact E | discriminate].
  - injection H as H. subst s. split; [reflexivity|]. intros _. discriminate.
Qed.

(** No match starts inside a text that ends with a character other than a
    blank and in which, with the marker after it, no [QTY:] starts. *)
Lemma qty_match_none_before (b1 m r : string) :
  Py.all_chars Py.isspace b1 = true -> Py.upper m = "QTY:" ->
  forall s, s <> EmptyString -> Py.rstrip_by Py.isspace s = s ->
            clear_before_marker (Py.upper s ++ b1) ->
            qty_match (s ++ b1 ++ m ++ r) = None.
Proof.
  intros Hb Hm. induction s as [|c s IH]; intros Hne Hr Hc; [congruence|].
  destruct (rstrip_tail c s Hr) as [Hr' Hs].
  cbn [Py.upper String.append] in Hc.
  destruct (clear_tail _ _ Hc) as [_ Hc'].
  destruct (Py.isspace c) eqn:Sp.
  - cbn [String.append]. rewrite (qty_match_skip_blank _ _ Sp).
    apply IH; [now apply Hs | exact Hr' | exact Hc'].
  - unfold qty_match. cbn [String.append Py.lstrip_by]. rewrite Sp.
    destruct (Py.starts_with "QTY:"
                (Py.upper (Py.take 4 (String c (s ++ b1 ++ m ++ r))))) eqn:E;
      [|reflexivity].
    apply starts_with_upper_take in E.
    change (String c (s ++ b1 ++ m ++ r))
      with (String c s ++ b1 ++ m ++ r)%string in E.
    rewrite !upper_app, Hm, (upper_blank _ Hb) in E.
    rewrite <- str_app_assoc in E. cbn [Py.upper String.append] in E.
    pose proof (clear_starts _ _ (Py.upper r) Hc) as F.
    cbn [String.append] in F, E. rewrite F in E. discriminate E.
Qed.

(** The leftmost match, and the text with the match taken out. *)
Lemma qty_reading_before (b1 m r n : string) :
  Py.all_chars Py.isspace b1 = true -> Py.upper m = "QTY:" ->
  qty_match (b1 ++ m ++ r) = Some (n, "") ->
  forall s, Py.rstrip_by Py.isspace s = s ->
            clear_before_marker (Py.upper s ++ b1) ->
            qty_search (s ++ b1 ++ m ++ r) = Some n
            /\ qty_sub 0 (s ++ b1 ++ m ++ r) = s.
Proof.
  intros Hb Hm Hz. induction s as [|c s IH]; intros Hr Hc.
  - cbn [String.append]. rewrite qty_search_unfold, Hz. split; [reflexivity|].
    destruct (b1 ++ m ++ r)%string as [|z Z] eqn:EZ.
    + destruct b1; [|discriminate EZ].
      destruct (marker_shape m Hm) as (c1 & c2 & c3 & c4 & -> & _).
      discriminate EZ.
    + cbn [qty_sub]. rewrite Hz. apply qty_sub_skips. simpl. lia.
  - pose proof (qty_match_none_before b1 m r Hb Hm (String c s)
                  ltac:(discriminate) Hr Hc) as N0.
    destruct (rstrip_tail c s Hr) as [Hr' _].
    cbn [Py.upper String.append] in Hc.
    destruct (clear_tail _ _ Hc) as [_ Hc'].
    destruct (IH Hr' Hc') as [I1 I2].
    cbn [String.append] in *. split.
    + rewrite qty_search_unfold, N0. exact I1.
    + cbn [qty_sub]. rewrite N0, I2. reflexivity.
Qed.

(** *** The readings of a marked text *)

(** A purchase-request text of one line: a request number, the marker in
    either case and the number of a quantity, blanks between them, blanks
    and line feeds around. *)
Definition marked_text (lead p b1 m b2 n b3 : string) : string :=
  (lead ++ p ++ b1 ++ m ++ b2 ++ n ++ b3)%string.

Lemma lstrip_length (s : string) :
  String.length (Py.lstrip_by Py.isspace s) <= String.length s.
Proof.
  induction s as [|c s IH]; [reflexivity|]. cbn [Py.lstrip_by].
  destruct (Py.isspace c); simpl; lia.
Qed.

Lemma lstrip_fixed_head (c : ascii) (s : string) :
  Py.lstrip_by Py.isspace (String c s) = String c s -> Py.isspace c = false.
Proof.
  cbn [Py.lstrip_by]. destruct (Py.isspace c); [|reflexivity].
  intro H. pose proof (lstrip_length s) as L. rewrite H in L.
  simpl in L. lia.
Qed.

Lemma request_number_facts (p : string) :
  request_number p = true ->
  Py.upper p = p /\ Py.strip p = p /\ no_char Py.newline p = true
  /\ Py.contains "QTY:" p = false.
Proof.
  unfold request_number. intro H.
  apply andb_true_iff in H as [H H4]. apply andb_true_iff in H as [H H3].
  apply andb_true_iff in H as [H1 H2].
  apply String.eqb_eq in H1, H2. apply negb_true_iff in H4. now repeat split.
Qed.

Lemma qty_sub_whole (s g : string) :
  qty_match s = Some (g, "") -> qty_sub 0 s = "".
Proof.
  intro H. destruct s as [|c r]; [reflexivity|].
  cbn [qty_sub]. rewrite H. apply qty_sub_skips. simpl. lia.
Qed.

Lemma qty_sub_blank_app (l s : string) :
  Py.all_chars Py.isspace l = true -> qty_match s = None ->
  qty_sub 0 (l ++ s) = (l ++ qty_sub 0 s)%string.
Proof.
  intros Hl Hs. induction l as [|c l IH]; [reflexivity|].
  pose proof (qty_match_blank_app _ s Hl) as M. rewrite Hs in M.
  cbn [Py.all_chars] in Hl. apply andb_true_iff in Hl as [_ Hl].
  cbn [String.append] in *. cbn [qty_sub]. now rewrite M, (IH Hl).
Qed.

Lemma number_strip (n : string) :
  grouped false n = true -> Py.strip n = n /\ Py.truthy n = true.
Proof.
  intro H. split.
  - apply strip_by_none.
    now destruct (number_no_blank _ (grouped_chars _ _ H)) as (-> & _).
  - now destruct (grouped_head _ H) as (d & r & -> & _).
Qed.

Section Core.

Variables l p b1 m b2 n b3 : string.

Hypothesis Hl : Py.all_chars Py.isspace l = true.
Hypothesis Hp : request_number p = true.
Hypothesis H1 : Py.all_chars inline_blank b1 = true.
Hypothesis Hp1 : p = EmptyString -> b1 = EmptyString.
Hypothesis Hm : Py.upper m = "QTY:".
Hypothesis H2 : Py.all_chars inline_blank b2 = true.
Hypothesis Hn : grouped false n = true.
Hypothesis H3 : Py.all_chars Py.isspace b3 = true.

Let line : string := (p ++ b1 ++ m ++ b2 ++ n)%string.

Lemma line_text : marked_text l p b1 m b2 n b3 = (l ++ line ++ b3)%string.
Proof. unfold marked_text, line. now rewrite !str_app_assoc. Qed.

Lemma line_no_newline : no_char Py.newline line = true.
Proof.
  destruct (request_number_facts p Hp) as (_ & _ & N & _).
  destruct (number_no_blank _ (grouped_chars _ _ Hn)) as (_ & Nn & _).
  unfold line, no_char. rewrite !all_chars_app.
  fold (no_char Py.newline p) (no_char Py.newline b1)
       (no_char Py.newline m) (no_char Py.newline b2)
       (no_char Py.newline n).
  now rewrite N, (inline_blank_no_newline _ H1), (marker_no_newline _ Hm),
              (inline_blank_no_newline _ H2), Nn.
Qed.

Lemma line_strip : Py.strip line = line.
Proof.
  destruct (request_number_facts p Hp) as (_ & S0 & _).
  destruct (strip_fixed p S0) as [L _].
  unfold Py.strip, Py.strip_by.
  assert (E : Py.lstrip_by Py.isspace line = line).
  { unfold line. destruct p as [|c q].
    - rewrite (Hp1 eq_refl). cbn [String.append]. now apply marker_lstrip.
    - pose proof (lstrip_fixed_head _ _ L) as Hc.
      cbn [String.append Py.lstrip_by]. now rewrite Hc. }
  rewrite E. unfold line.
  destruct (number_no_blank _ (grouped_chars _ _ Hn)) as (Nb & _).
  replace (p ++ b1 ++ m ++ b2 ++ n)%string
    with ((p ++ b1 ++ m ++ b2) ++ n)%string
    by now rewrite !str_app_assoc.
  rewrite rstrip_app_keep; rewrite (rstrip_none _ _ Nb); [reflexivity|].
  now destruct (grouped_head _ Hn) as (d & r & -> & _).
Qed.

Lemma line_truthy : Py.truthy line = true.
Proof.
  unfold line. destruct (grouped_head _ Hn) as (d & r & -> & _).
  destruct p, b1, m, b2; reflexivity.
Qed.

Lemma line_upper :
  Py.upper line = ((p ++ b1) ++ "QTY:" ++ (b2 ++ n))%string.
Proof.
  destruct (request_number_facts p Hp) as (U & _).
  unfold line. rewrite !upper_app, U, Hm.
  rewrite (upper_blank _ (inline_blank_blank _ H1)).
  rewrite (upper_blank _ (inline_blank_blank _ H2)).
  rewrite (upper_number _ (grouped_chars _ _ Hn)).
  now rewrite !str_app_assoc.
Qed.

Lemma clear_number : clear_before_marker (p ++ b1).
Proof.
  destruct (request_number_facts p Hp) as (_ & _ & _ & C).
  exact (clear_of_parts _ _ C (inline_blank_blank _ H1)).
Qed.

Lemma core_pr_cell : pr_cell (marked_text l p b1 m b2 n b3) = (p, n).
Proof.
  unfold pr_cell. rewrite line_text.
  rewrite (lines_of_wrapped _ _ _ Hl line_no_newline H3);
    rewrite line_strip; [|exact line_truthy].
  rewrite line_upper, contains_app_marker.
  unfold Py.split_str. rewrite (split_str_first _ _ clear_number).
  destruct (number_no_blank _ (grouped_chars _ _ Hn)) as (_ & _ & Q).
  rewrite split_str_no_q.
  - cbn [nth].
    destruct (request_number_facts p Hp) as (_ & S0 & _).
    rewrite (strip_app_space _ _ (inline_blank_blank _ H1)), S0.
    rewrite (strip_blank_app _ _ (inline_blank_blank _ H2)).
    now rewrite (proj1 (number_strip _ Hn)).
  - rewrite all_chars_app, Q, andb_true_r.
    generalize (inline_blank_blank _ H2). apply all_chars_impl.
    intros c H. now destruct (blank_char_facts c H) as (_ & _ & _ & _ & ->).
Qed.

Lemma core_match :
  qty_match (b1 ++ m ++ b2 ++ n ++ b3) = Some (n, "").
Proof.
  apply qty_match_at_marker; try assumption;
    now apply inline_blank_blank.
Qed.

Lemma core_search :
  qty_search (marked_text l p b1 m b2 n b3) = Some n
  /\ Py.strip (qty_sub 0 (marked_text l p b1 m b2 n b3)) = p.
Proof.
  destruct (request_number_facts p Hp) as (U & S0 & _).
  destruct (strip_fixed p S0) as [_ R].
  pose proof clear_number as C. rewrite <- U in C.
  destruct (qty_reading_before b1 m (b2 ++ n ++ b3) n
              (inline_blank_blank _ H1) Hm core_match p R C) as [Q1 Q2].
  unfold marked_text. split.
  - now rewrite (qty_search_blank_app _ _ Hl).
  - destruct p as [|c q] eqn:E.
    + cbn [String.append] in *.
      rewrite (qty_sub_whole _ n); [reflexivity|].
      rewrite (qty_match_blank_app _ _ Hl). exact core_match.
    + rewrite qty_sub_blank_app; [rewrite Q2|exact Hl|].
      * now rewrite (strip_blank_app _ _ Hl).
      * apply (qty_match_none_before b1 m (b2 ++ n ++ b3)
                 (inline_blank_blank _ H1) Hm);
          [discriminate | exact R | exact C].
Qed.

End Core.

Lemma extract_without_match (s : string) :
  qty_search s = None ->
  extract_quantity_from_purchase_request s = Some (Py.strip s, None).
Proof.
  intro H. unfold extract_quantity_from_purchase_request. rewrite H.
  now destruct s.
Qed.

(** A text with the request number only. *)
Lemma unmarked_readings (lead p b3 : string) :
  Py.all_chars Py.isspace lead = true -> request_number p = true ->
  Py.all_chars Py.isspace b3 = true ->
  pr_cell (lead ++ p ++ b3) = (p, "")
  /\ extract_quantity_from_purchase_request (lead ++ p ++ b3)
     = Some (p, None).
Proof.
  intros Hl Hp H3.
  destruct (request_number_facts p Hp) as (U & S0 & N & C). split.
  - unfold pr_cell. destruct p as [|c q] eqn:E.
    + cbn [String.append]. rewrite lines_of_blank; [reflexivity|].
      now rewrite all_chars_app, Hl, H3.
    + rewrite <- E in *.
      rewrite (lines_of_wrapped _ _ _ Hl N H3); rewrite S0;
        [|now rewrite E].
      now rewrite U, C.
  - rewrite extract_without_match.
    + now rewrite (strip_blank_app _ _ Hl), (strip_app_space _ _ H3), S0.
    + rewrite (qty_search_blank_app _ _ Hl).
      apply qty_search_needs_marker.
      rewrite upper_app, U, (upper_blank _ H3).
      now rewrite (contains_app_no_colon _ _ (blanks_no_colon _ H3)).
Qed.

Lemma marked_text_no_number (lead b1 m b2 n b3 : string) :
  marked_text lead "" b1 m b2 n b3 = marked_text (lead ++ b1) "" "" m b2 n b3.
Proof. unfold marked_text. cbn [String.append]. now rewrite str_app_assoc. Qed.

Lemma marked_readings (lead p b1 m b2 n b3 : string) :
  Py.all_chars Py.isspace lead = true -> request_number p = true ->
  Py.all_chars inline_blank b1 = true -> Py.upper m = "QTY:" ->
  Py.all_chars inline_blank b2 = true -> grouped false n = true ->
  Py.all_chars Py.isspace b3 = true ->
  pr_cell (marked_text lead p b1 m b2 n b3) = (p, n)
  /\ qty_search (marked_text lead p b1 m b2 n b3) = Some n
  /\ Py.strip (qty_sub 0 (marked_text lead p b1 m b2 n b3)) = p.
Proof.
  intros Hl Hp H1 Hm H2 Hn H3. destruct p as [|c q] eqn:E.
  - rewrite marked_text_no_number.
    assert (Hl' : Py.all_chars Py.isspace (lead ++ b1) = true)
      by now rewrite all_chars_app, Hl, (inline_blank_blank _ H1).
    split; [|apply core_search]; try apply core_pr_cell;
      try assumption; try reflexivity.
  - rewrite <- E in *.
    assert (Hp1 : p = "" -> b1 = "") by (rewrite E; discriminate).
    split; [now apply core_pr_cell | now apply core_search].
Qed.

(** C7, as the code has it.  The row parser takes the first line that is
    not blank, and where that line holds [QTY:] in either case it puts the
    line in upper case, splits it there and keeps both parts, stripped, as
    texts; the merge helper looks for the pattern in the whole text without
    regard to case, takes every match out and converts the number of the
    first one.  So the two agree on a text of one line made of a request
    number without lower-case letters, the marker and a number of digit
    groups, with blanks between and around them: both give the request
    number, and the quantity text of the parser reads, with the merge's
    [_parse_int], as the number of the helper, unless the number has more
    digits than [int] converts, where [_parse_int] gives [None] and the
    helper raises.  They agree as well where the marker and the number are
    missing. *)
Theorem pr_readings_agree_on_one_line (lead p b1 m b2 n b3 : string) :
  Py.all_chars Py.isspace lead = true -> request_number p = true ->
  Py.all_chars inline_blank b1 = true -> Py.upper m = "QTY:" ->
  Py.all_chars inline_blank b2 = true -> grouped false n = true ->
  Py.all_chars Py.isspace b3 = true ->
  (pr_cell (marked_text lead p b1 m b2 n b3) = (p, n)
   /\ if (Py.int_max_str_digits <? Py.count_digits n)%nat
      then _parse_int n = None
           /\ extract_quantity_from_purchase_request
                (marked_text lead p b1 m b2 n b3) = None
      else exists q,
             (0 <= q)%Z /\ _parse_int n = Some q
             /\ extract_quantity_from_purchase_request
                  (marked_text lead p b1 m b2 n b3) = Some (p, Some q))
  /\ pr_cell (lead ++ p ++ b3) = (p, "")
  /\ _parse_int "" = None
  /\ extract_quantity_from_purchase_request (lead ++ p ++ b3)
     = Some (p, None).
Proof.
  intros Hl Hp H1 Hm H2 Hn H3.
  destruct (marked_readings _ _ _ _ _ _ _ Hl Hp H1 Hm H2 Hn H3)
    as (A & B & C).
  destruct (unmarked_readings _ _ _ Hl Hp H3) as [D E].
  split; [split; [exact A|] | now repeat split].
  pose proof (int_of_found_group _ _ B) as I.
  destruct (number_strip _ Hn) as [Sn Tn].
  assert (T : Py.truthy (marked_text lead p b1 m b2 n b3) = true).
  { unfold marked_text. destruct (grouped_head _ Hn) as (d & r & -> & _).
    destruct lead, p, b1, m, b2; reflexivity. }
  unfold extract_quantity_from_purchase_request, _parse_int.
  rewrite T, Tn, Sn, B. cbn [negb].
  destruct (Py.int_max_str_digits <? Py.count_digits n)%nat.
  - now rewrite I.
  - destruct I as (q & Hq & Hpos). exists q. now rewrite Hq, C.
Qed.

End PurchaseRequestReadings.

Lemma pr_readings_agree_on_one_line_witness :
  Solicitations.pr_cell "PR12345 QTY: 1,200" = ("PR12345", "1,200")
  /\ Combined._parse_int "1,200" = Some 1200%Z
  /\ Combined.extract_quantity_from_purchase_request "PR12345 QTY: 1,200"
     = Some ("PR12345", Some 1200%Z).
Proof.
  split; [|split; reflexivity].
  exact (proj1 (proj1 (pr_readings_agree_on_one_line
                         "" "PR12345" " " "QTY:" " " "1,200" ""
                         eq_refl eq_refl eq_refl eq_refl eq_refl eq_refl
                         eq_refl))).
Defined.

(** C7 fails as stated: on a lower-case text the row parser gives the
    request number in upper case and the helper gives it as written; where
    text follows the quantity the parser keeps it in the quantity while the
    helper joins it to the request number; and on a quantity of 4301 digits
    the parser keeps the text while the helper raises. *)
Lemma pr_readings_differ :
  Solicitations.pr_cell "pr12345 qty: 5" = ("PR12345", "5")
  /\ Combined.extract_quantity_from_purchase_request "pr12345 qty: 5"
     = Some ("pr12345", Some 5%Z)
  /\ Solicitations.pr_cell "PR1 QTY: 5 EA" = ("PR1", "5 EA")
  /\ Combined._parse_int "5 EA" = None
  /\ Combined.extract_quantity_from_purchase_request "PR1 QTY: 5 EA"
     = Some ("PR1EA", Some 5%Z)
  /\ Solicitations.pr_cell ("PR1 QTY: " ++ Py.zeros 4301)
     = ("PR1", Py.zeros 4301)
  /\ Combined.extract_quantity_from_purchase_request
       ("PR1 QTY: " ++ Py.zeros 4301) = None.
Proof. repeat split; vm_compute; reflexivity. Qed.

(** ** What a crawl requests and returns *)

Section CrawlLog.

Import Solicitations.

Variables St NetErr : Type.
Variable send : St -> request -> NetErr + (St * page).
Variable RfqRecsParser_parse : page -> nat * list Web.row.

Abbreviation exchange := (exchange NetErr).
Abbreviation outcome := (exn NetErr + list Web.row)%type.

(** The rows of the pages that came back, in the order of the requests. *)
Definition page_rows (x : exchange) : list Web.row :=
  match snd x with
  | inr pg => snd (RfqRecsParser_parse pg)
  | inl _ => []
  end.

Definition rows_of (log : list exchange) : list Web.row :=
  flat_map page_rows log.

(** The count that the first page of a crawl declares. *)
Definition declared (log : list exchange) : nat :=
  match log with
  | (_, inr pg) :: _ => fst (RfqRecsParser_parse pg)
  | _ => 0
  end.

(** What is returned for the rows [all] that were read. *)
Definition returned (test_mode : bool) (max_records : option nat)
    (all rows : list Web.row) : Prop :=
  rows = all
  \/ (limit_reached test_mode max_records all = true
      /\ rows = cut max_records all).

Section Loop.

Variables (form_action : string) (count : nat).
Variables (test_mode : bool) (max_records : option nat).

Abbreviation loop :=
  (page_loop St NetErr send RfqRecsParser_parse form_action count
             test_mode max_records).

Lemma page_loop_log (fuel : nat) :
  forall (s : St) (fd : Dict.t string) (number : nat)
         (rows rows_more : list Web.row) (log : list exchange)
         (out : outcome),
    loop fuel s fd number rows rows_more = Some (log, out) ->
    List.length log <= count - List.length rows
    /\ Forall (fun x => method (fst x) = POST /\ url (fst x) = form_action)
              log
    /\ forall r, out = inr r ->
                 returned test_mode max_records (rows ++ rows_of log) r.
Proof.
  induction fuel as [|fuel IH]; intros s fd number rows rows_more log out.
  - cbn [page_loop].
    destruct ((List.length rows <? count)%nat
              && (0 <? List.length rows_more)%nat); [discriminate|].
    intro H. inversion H; subst. split; [simpl; lia|].
    split; [constructor|].
    intros r Hr. inversion Hr; subst. left. now rewrite app_nil_r.
  - cbn [page_loop].
    destruct ((List.length rows <? count)%nat
              && (0 <? List.length rows_more)%nat) eqn:Hc.
    2:{ intro H. inversion H; subst. split; [simpl; lia|].
        split; [constructor|].
        intros r Hr. inversion Hr; subst. left. now rewrite app_nil_r. }
    apply andb_true_iff in Hc as [Hlt _]. apply Nat.ltb_lt in Hlt.
    destruct (limit_reached test_mode max_records rows) eqn:Hl.
    { intro H. inversion H; subst. split; [simpl; lia|].
      split; [constructor|].
      intros r Hr. inversion Hr; subst. right.
      cbn [rows_of flat_map]. rewrite app_nil_r. now split. }
    set (req := mk_request POST form_action (next_page_form fd (S number))).
    destruct (send s req) as [e | [s' pg]] eqn:Es.
    { intro H. inversion H; subst. split; [simpl; lia|].
      split; [repeat constructor|]. intros r Hr. discriminate Hr. }
    destruct (FormParser_parse pg) as [k | [[fd' a] m]] eqn:Ep.
    { intro H. inversion H; subst. split; [simpl; lia|].
      split; [repeat constructor|]. intros r Hr. discriminate Hr. }
    destruct (loop fuel s' fd' (S number)
                (rows ++ snd (RfqRecsParser_parse pg))
                (snd (RfqRecsParser_parse pg))) as [[log' out']|] eqn:El;
      [|discriminate].
    intro H. inversion H; subst. clear H.
    destruct (IH _ _ _ _ _ _ _ El) as (Hn & Hm & Hr).
    split; [|split].
    + destruct (snd (RfqRecsParser_parse pg)) as [|row more] eqn:Er.
      * rewrite page_loop_done in El. inversion El; subst. simpl. lia.
      * rewrite length_app in Hn. simpl in *. lia.
    + constructor; [now split | exact Hm].
    + intros r E. specialize (Hr r E).
      unfold rows_of in *. cbn [flat_map]. unfold page_rows at 1.
      cbn [snd]. now rewrite app_assoc.
Qed.

End Loop.

Lemma scrape_pages_log (s : St) (day : string) (test_mode : bool)
    (max_records : option nat) (log : list exchange) (out : outcome) :
  scrape_pages St NetErr send RfqRecsParser_parse s day test_mode
               max_records = Some (log, out) ->
  List.length log <= Nat.max 1 (declared log)
  /\ (exists first posts,
        log = first :: posts
        /\ method (fst first) = GET
        /\ Forall (fun x => method (fst x) = POST
                            /\ url (fst x) = url (fst first)) posts)
  /\ forall r, out = inr r ->
               returned test_mode max_records (rows_of log) r.
Proof.
  unfold scrape_pages.
  set (form_action :=
         (DIBBS_HOST ++ "RFQ/RfqRecs.aspx?category=post&TypeSrch=dt&Value="
          ++ day)%string).
  set (req := mk_request GET form_action []).
  destruct (send s req) as [e | [s' pg]] eqn:Es.
  { intro H. inversion H; subst. split; [unfold declared; cbn [List.length]; lia|].
    split; [now exists (req, inl e), []|]. intros r Hr. discriminate Hr. }
  destruct (FormParser_parse pg) as [k | [[fd a] m]] eqn:Ep.
  { intro H. inversion H; subst. split; [unfold declared; cbn [List.length]; lia|].
    split; [now exists (req, inr pg), []|]. intros r Hr. discriminate Hr. }
  destruct (RfqRecsParser_parse pg) as [count rows] eqn:Er.
  destruct (limit_reached test_mode max_records rows) eqn:Hl.
  { intro H. inversion H; subst. split; [unfold declared; cbn [List.length]; lia|].
    split; [now exists (req, inr pg), []|].
    intros r Hr. inversion Hr; subst. right.
    unfold rows_of. cbn [flat_map]. unfold page_rows. cbn [snd].
    rewrite Er. cbn [snd]. rewrite app_nil_r. now split. }
  destruct (page_loop St NetErr send RfqRecsParser_parse form_action count
              test_mode max_records (S count) s' fd 1 rows rows)
    as [[log' out']|] eqn:El; [|discriminate].
  intro H. inversion H; subst. clear H.
  destruct (page_loop_log _ _ _ _ _ _ _ _ _ _ _ _ El) as (Hn & Hm & Hr).
  split; [|split].
  - cbn [declared List.length]. rewrite Er. cbn [fst].
    destruct rows as [|row more].
    + rewrite page_loop_done in El. inversion El; subst. cbn [List.length]. lia.
    + cbn [List.length] in Hn |- *. lia.
  - exists (req, inr pg), log'. split; [reflexivity|]. split; [reflexivity|].
    exact Hm.
  - intros r E. specialize (Hr r E).
    unfold rows_of in *. cbn [flat_map]. unfold page_rows at 1. cbn [snd].
    now rewrite Er.
Qed.

(** A crawl returns the rows of the pages it fetched, all of them and in
    the order of the pages; with the test limit reached, the first
    [max_records] of them.  No row is lost, repeated or moved. *)
Theorem crawl_returns_the_rows_of_its_pages (s : St) (day : string)
    (test_mode : bool) (max_records : option nat) :
  exists log out,
    scrape_pages St NetErr send RfqRecsParser_parse s day test_mode
                 max_records = Some (log, out)
    /\ (forall rows, out = inr rows ->
                     returned test_mode max_records (rows_of log) rows)
    /\ (forall rows, test_mode = false -> out = inr rows ->
                     rows = rows_of log).
Proof.
  destruct (scrape_pages_stops St NetErr send RfqRecsParser_parse s day
              test_mode max_records) as (log & out & E & _).
  exists log, out. split; [exact E|].
  destruct (scrape_pages_log _ _ _ _ _ _ E) as (_ & _ & R).
  split; [exact R|].
  intros rows Ht Hr. destruct (R rows Hr) as [-> | [L _]]; [reflexivity|].
  subst test_mode. discriminate L.
Qed.

(** A crawl makes one GET, for the first page, and then only POSTs to the
    same address; it makes no more requests than the count that the first
    page declares (and one when that count is zero): a page is requested
    only while fewer rows than declared were read. *)
Theorem crawl_requests_are_bounded (s : St) (day : string)
    (test_mode : bool) (max_records : option nat) :
  exists log out,
    scrape_pages St NetErr send RfqRecsParser_parse s day test_mode
                 max_records = Some (log, out)
    /\ List.length log <= Nat.max 1 (declared log)
    /\ exists first posts,
         log = first :: posts
         /\ method (fst first) = GET
         /\ Forall (fun x => method (fst x) = POST
                             /\ url (fst x) = url (fst first)) posts.
Proof.
  destruct (scrape_pages_stops St NetErr send RfqRecsParser_parse s day
              test_mode max_records) as (log & out & E & _).
  exists log, out. split; [exact E|].
  destruct (scrape_pages_log _ _ _ _ _ _ E) as (N & M & _).
  split; [exact N | exact M].
Qed.

End CrawlLog.

(** ** The form that a page request posts *)

Section DictDel.

Context {V : Type}.
Implicit Types (d : Dict.t V) (k : string) (v : V).

Lemma dict_get_del k k' d :
  NoDup (Dict.keys d) ->
  Dict.get k (Dict.del k' d)
  = if String.eqb k k' then None else Dict.get k d.
Proof.
  induction d as [|[k0 v0] d IH]; intro N; simpl.
  - now destruct (String.eqb k k').
  - inversion N as [|? ? Hn Hd]; subst.
    destruct (String.eqb k' k0) eqn:E.
    + apply String.eqb_eq in E. subst k0.
      destruct (String.eqb k k') eqn:E'; [|reflexivity].
      apply String.eqb_eq in E'. subst k'.
      destruct (Dict.get k d) eqn:G; [|reflexivity].
      exfalso. apply Hn. apply dict_get_in in G.
      change k with (fst (k, v)). now apply in_map.
    + simpl. rewrite (IH Hd).
      destruct (String.eqb k k0) eqn:E0; [|reflexivity].
      apply String.eqb_eq in E0. subst k0.
      now rewrite String.eqb_sym, E.
Qed.

Lemma dict_keys_del_in k d x :
  In x (Dict.keys (Dict.del k d)) -> In x (Dict.keys d).
Proof.
  induction d as [|[k0 v0] d IH]; simpl; [tauto|].
  destruct (String.eqb k k0); simpl; [tauto|].
  intros [H | H]; [now left | right; now apply IH].
Qed.

Lemma dict_keys_nodup_del k d :
  NoDup (Dict.keys d) -> NoDup (Dict.keys (Dict.del k d)).
Proof.
  induction d as [|[k0 v0] d IH]; intro N; simpl; [constructor|].
  inversion N as [|? ? Hn Hd]; subst.
  destruct (String.eqb k k0); [assumption|]. simpl.
  constructor; [|now apply IH].
  intro H. apply Hn. now apply dict_keys_del_in in H.
Qed.

(** [if k in d: del d[k]] *)
Lemma dict_get_drop k k' d :
  NoDup (Dict.keys d) ->
  Dict.get k (if Dict.mem k' d then Dict.del k' d else d)
  = if String.eqb k k' then None else Dict.get k d.
Proof.
  intro N. unfold Dict.mem. destruct (Dict.get k' d) eqn:G.
  - now apply dict_get_del.
  - destruct (String.eqb k k') eqn:E; [|reflexivity].
    apply String.eqb_eq in E. now subst.
Qed.

Lemma dict_keys_nodup_drop k d :
  NoDup (Dict.keys d) ->
  NoDup (Dict.keys (if Dict.mem k d then Dict.del k d else d)).
Proof.
  intro N. destruct (Dict.mem k d); [now apply dict_keys_nodup_del | exact N].
Qed.

End DictDel.

Section PostBack.

Import Solicitations.

(** The form data of a parser holds a name once. *)
Lemma feed_form_nodup (pg : page) (p p' : form_parser) :
  NoDup (Dict.keys (form_data p)) -> feed p pg = inr p' ->
  NoDup (Dict.keys (form_data p')).
Proof.
  revert p; induction pg as [|ev pg IH]; intros p N; cbn [feed].
  - intro H. now inversion H; subst.
  - destruct ev as [tag attrs | tag | text].
    + destruct (handle_starttag p tag attrs) as [k | p1] eqn:E; [discriminate|].
      apply IH. unfold handle_starttag in E.
      destruct (String.eqb tag "form").
      * destruct (Dict.get "action" (attrs_dict attrs)); [|discriminate].
        destruct (Dict.get "method" (attrs_dict attrs)); [|discriminate].
        inversion E; subst. constructor.
      * destruct (parsing_form p && String.eqb tag "input").
        -- destruct (Dict.get "name" (attrs_dict attrs)) as [name|];
             [|now inversion E; subst].
           destruct (Dict.get "value" (attrs_dict attrs)) as [value|];
             [|now inversion E; subst].
           inversion E; subst. cbn [form_data].
           now apply dict_keys_nodup_set.
        -- now inversion E; subst.
    + apply IH. unfold handle_endtag. now destruct (String.eqb tag "form").
    + now apply IH.
Qed.

Lemma parse_form_nodup (pg : page) (fd : Dict.t string) (a m : string) :
  FormParser_parse pg = inr (fd, a, m) -> NoDup (Dict.keys fd).
Proof.
  unfold FormParser_parse.
  destruct (feed form_parser_init pg) as [k | p] eqn:E; [discriminate|].
  intro H. inversion H; subst.
  apply (feed_form_nodup pg form_parser_init p); [constructor | exact E].
Qed.

(** The names that the crawler sets or removes in a form before posting. *)
Definition paging_names : list string :=
  ["__EVENTTARGET"; "__EVENTARGUMENT"; "ctl00$ddlNavigation";
   "ctl00$ddlGotoDB"; "ctl00$txtValue"; "ctl00$butNavigation";
   "ctl00$butDbSearch"].

(** What a posted form holds, [fd] being the form of the page before and
    [number] the page asked for. *)
Definition posts_back (fd : Dict.t string) (number : nat)
    (posted : Dict.t string) : Prop :=
  Dict.get "__EVENTTARGET" posted = Some "ctl00$cph1$grdRfqSearch"
  /\ Dict.get "__EVENTARGUMENT" posted
     = Some ("Page$" ++ str_of_nat number)%string
  /\ Dict.get "ctl00$ddlNavigation" posted = Some EmptyString
  /\ Dict.get "ctl00$ddlGotoDB" posted = Some EmptyString
  /\ Dict.get "ctl00$txtValue" posted = Some EmptyString
  /\ Dict.get "ctl00$butNavigation" posted = None
  /\ Dict.get "ctl00$butDbSearch" posted = None
  /\ forall name, ~ In name paging_names ->
                  Dict.get name posted = Dict.get name fd.

Lemma next_page_form_posts_back (fd : Dict.t string) (number : nat) :
  NoDup (Dict.keys fd) -> posts_back fd number (next_page_form fd number).
Proof.
  intro N. unfold next_page_form.
  set (d1 := Dict.set "__EVENTTARGET" "ctl00$cph1$grdRfqSearch" fd).
  set (d2 := Dict.set "__EVENTARGUMENT" ("Page$" ++ str_of_nat number)%string
                      d1).
  set (d3 := Dict.set "ctl00$ddlNavigation" EmptyString d2).
  set (d4 := Dict.set "ctl00$ddlGotoDB" EmptyString d3).
  set (d5 := Dict.set "ctl00$txtValue" EmptyString d4).
  set (d6 := if Dict.mem "ctl00$butNavigation" d5
             then Dict.del "ctl00$butNavigation" d5 else d5).
  assert (N5 : NoDup (Dict.keys d5))
    by (repeat apply dict_keys_nodup_set; exact N).
  assert (N6 : NoDup (Dict.keys d6)) by now apply dict_keys_nodup_drop.
  assert (G : forall k,
             Dict.get k (if Dict.mem "ctl00$butDbSearch" d6
                         then Dict.del "ctl00$butDbSearch" d6 else d6)
             = if String.eqb k "ctl00$butDbSearch" then None
               else if String.eqb k "ctl00$butNavigation" then None
               else if String.eqb k "ctl00$txtValue" then Some EmptyString
               else if String.eqb k "ctl00$ddlGotoDB" then Some EmptyString
               else if String.eqb k "ctl00$ddlNavigation"
                    then Some EmptyString
               else if String.eqb k "__EVENTARGUMENT"
                    then Some ("Page$" ++ str_of_nat number)%string
               else if String.eqb k "__EVENTTARGET"
                    then Some "ctl00$cph1$grdRfqSearch"
               else Dict.get k fd).
  { intro k. rewrite (dict_get_drop _ _ _ N6). subst d6.
    rewrite (dict_get_drop _ _ _ N5). subst d5 d4 d3 d2 d1.
    now rewrite !dict_get_set. }
  unfold posts_back. rewrite !G.
  repeat (split; [reflexivity|]).
  intros name Hn. rewrite G. unfold paging_names in Hn. cbn [In] in Hn.
  repeat match goal with
         | |- context [String.eqb name ?k] =>
             destruct (String.eqb_spec name k);
             [exfalso; apply Hn; subst;
              repeat ((left; reflexivity) || right)|]
         end.
  reflexivity.
Qed.

Variables St NetErr : Type.
Variable send : St -> request -> NetErr + (St * page).
Variable RfqRecsParser_parse : page -> nat * list Web.row.

Abbreviation exchange' := (exchange NetErr).

(** The requests of the page loop, one after the other: each posts the
    form of the page before it, for the next page number, and nothing
    follows a request that failed or a page whose form cannot be read. *)
Fixpoint chained (prev : Dict.t string) (number : nat)
    (log : list exchange') : Prop :=
  match log with
  | [] => True
  | (req, answer) :: rest =>
      data req = next_page_form prev (S number)
      /\ match answer with
         | inr pg =>
             match FormParser_parse pg with
             | inr (fd, _, _) => chained fd (S number) rest
             | inl _ => rest = []
             end
         | inl _ => rest = []
         end
  end.

Lemma page_loop_chained (form_action : string) (count : nat)
    (test_mode : bool) (max_records : option nat) (fuel : nat) :
  forall (s : St) (fd : Dict.t string) (number : nat)
         (rows rows_more : list Web.row) (log : list exchange')
         (out : exn NetErr + list Web.row),
    page_loop St NetErr send RfqRecsParser_parse form_action count
              test_mode max_records fuel s fd number rows rows_more
    = Some (log, out) ->
    chained fd number log.
Proof.
  induction fuel as [|fuel IH]; intros s fd number rows rows_more log out;
    cbn [page_loop];
    destruct ((List.length rows <? count)%nat
              && (0 <? List.length rows_more)%nat);
    try discriminate; try (intro H; inversion H; subst; exact I).
  destruct (limit_reached test_mode max_records rows);
    [intro H; inversion H; subst; exact I|].
  destruct (send s _) as [e | [s' pg]] eqn:Es.
  { intro H. inversion H; subst. now split. }
  destruct (FormParser_parse pg) as [k | [[fd' a] m]] eqn:Ep.
  { intro H. inversion H; subst. cbn [chained data]. rewrite Ep. now split. }
  destruct (page_loop _ _ _ _ _ _ _ _ fuel s' fd' (S number) _ _)
    as [[log' out']|] eqn:El; [|discriminate].
  intro H. inversion H; subst. cbn [chained data]. rewrite Ep.
  split; [reflexivity|]. exact (IH _ _ _ _ _ _ _ El).
Qed.

Lemma chained_at (l1 : list exchange') :
  forall (fd : Dict.t string) (number : nat) (log l2 : list exchange')
         (r1 r2 : request) (pg : page) (answer : NetErr + page),
    chained fd number log ->
    log = l1 ++ (r1, inr pg) :: (r2, answer) :: l2 ->
    exists fd' a m,
      FormParser_parse pg = inr (fd', a, m)
      /\ data r2 = next_page_form fd' (number + List.length l1 + 2).
Proof.
  induction l1 as [|[r0 a0] l1 IH];
    intros fd number log l2 r1 r2 pg answer C E; subst log.
  - cbn [app chained] in C. destruct C as [_ C].
    destruct (FormParser_parse pg) as [k | [[fd' a] m]]; [discriminate C|].
    cbn [chained] in C. destruct C as [D _].
    exists fd', a, m. split; [reflexivity|].
    rewrite D. f_equal; simpl; lia.
  - cbn [app chained] in C. destruct C as [_ C].
    destruct a0 as [e | pg0]; [now destruct l1|].
    destruct (FormParser_parse pg0) as [k | [[fd0 a] m]];
      [now destruct l1|].
    destruct (IH fd0 (S number) _ l2 r1 r2 pg answer C eq_refl)
      as (fd' & a' & m' & P & D).
    exists fd', a', m'. split; [exact P|]. rewrite D. f_equal; simpl; lia.
Qed.

(** Every request that a crawl makes after a page posts the form of that
    page back: the inputs that the form parser read from it, unchanged,
    with the grid as event target, the number of the next page as event
    argument (the page after the first is page 2, and so on by one), the
    three navigation fields empty and the two buttons left out. *)
Theorem crawl_posts_back_the_form_of_the_page_before (s : St) (day : string)
    (test_mode : bool) (max_records : option nat) :
  exists log out,
    scrape_pages St NetErr send RfqRecsParser_parse s day test_mode
                 max_records = Some (log, out)
    /\ forall l1 r1 pg r2 answer l2,
         log = l1 ++ (r1, inr pg) :: (r2, answer) :: l2 ->
         exists fd a m,
           FormParser_parse pg = inr (fd, a, m)
           /\ posts_back fd (List.length l1 + 2) (data r2).
Proof.
  destruct (scrape_pages_stops St NetErr send RfqRecsParser_parse s day
              test_mode max_records) as (log & out & E & _).
  exists log, out. split; [exact E|].
  assert (K : forall l1 r1 pg r2 answer l2,
             log = l1 ++ (r1, inr pg) :: (r2, answer) :: l2 ->
             exists fd a m,
               FormParser_parse pg = inr (fd, a, m)
               /\ data r2 = next_page_form fd (List.length l1 + 2)).
  { revert E. unfold scrape_pages.
    destruct (send s _) as [e | [s' pg1]] eqn:Es.
    { intro H. inversion H; subst.
      intros [|x [|y l1]] r1 pg r2 answer l2 D; discriminate D. }
    destruct (FormParser_parse pg1) as [k | [[fd1 a1] m1]] eqn:Ep.
    { intro H. inversion H; subst.
      intros [|x [|y l1]] r1 pg r2 answer l2 D; discriminate D. }
    destruct (RfqRecsParser_parse pg1) as [count rows].
    destruct (limit_reached test_mode max_records rows).
    { intro H. inversion H; subst.
      intros [|x [|y l1]] r1 pg r2 answer l2 D; discriminate D. }
    destruct (page_loop _ _ _ _ _ _ _ _ _ _ _ _ _ _)
      as [[log' out']|] eqn:El; [|discriminate].
    intro H. inversion H; subst. clear H.
    apply page_loop_chained in El.
    intros [|x l1] r1 pg r2 answer l2 D.
    - cbn [app] in D. inversion D; subst.
      cbn [chained] in El. destruct El as [D' _].
      exists fd1, a1, m1. split; [exact Ep | exact D'].
    - cbn [app] in D. inversion D; subst.
      destruct (chained_at l1 fd1 1 _ l2 r1 r2 pg answer El eq_refl)
        as (fd & a & m & P & D').
      exists fd, a, m. split; [exact P|].
      rewrite D'. f_equal; simpl; lia. }
  intros l1 r1 pg r2 answer l2 D.
  destruct (K l1 r1 pg r2 answer l2 D) as (fd & a & m & P & D').
  exists fd, a, m. split; [exact P|]. rewrite D'.
  apply next_page_form_posts_back. exact (parse_form_nodup _ _ _ _ P).
Qed.

End PostBack.

(** ** A crawl against a server that declares more than it has

    The stand-in for the row parser declares ten records on every page and
    reads one row for each [tr] element; the server answers the first
    request with two rows and every later one with none.  The crawl makes
    the GET and one POST, for page 2 and with the hidden field of the first
    page, and returns the two rows. *)

Definition blank_row : Web.row :=
  Web.mk "" "" "" [] "" "" "" "" "" "" "" "" "".

Definition demo_rows (pg : Solicitations.page) : nat * list Web.row :=
  (10,
   flat_map (fun ev => match ev with
                       | Solicitations.StartTag "tr" _ => [blank_row]
                       | _ => []
                       end) pg).

Definition demo_form : list Solicitations.html_event :=
  [Solicitations.StartTag "form" [("action", "./RfqRecs.aspx");
                                  ("method", "post")];
   Solicitations.StartTag "input" [("name", "__VIEWSTATE"); ("value", "v")];
   Solicitations.StartTag "input" [("name", "ctl00$butDbSearch");
                                   ("value", "Search")];
   Solicitations.EndTag "form"].

Definition demo_server (s : nat) (r : Solicitations.request)
  : unit + (nat * Solicitations.page) :=
  match s with
  | O => inr (1, demo_form ++ [Solicitations.StartTag "tr" [];
                               Solicitations.StartTag "tr" []])
  | S _ => inr (S s, demo_form)
  end.

Example crawl_of_short_server :
  option_map
    (fun r =>
       (map (fun x => (Solicitations.method (fst x),
                       Dict.get "__EVENTARGUMENT" (Solicitations.data (fst x)),
                       Dict.get "__VIEWSTATE" (Solicitations.data (fst x)),
                       Dict.get "ctl00$butDbSearch"
                                (Solicitations.data (fst x))))
            (fst r),
        match snd r with
        | inr rows => Some (List.length rows)
        | inl _ => None
        end))
    (Solicitations.scrape_pages nat unit demo_server demo_rows 0
                                "06-03-2025" false None)
  = Some ([(Solicitations.GET, None, None, None);
           (Solicitations.POST, Some "Page$2", Some "v", None)],
          Some 2).
Proof. vm_compute. reflexivity. Qed.

(** ** The merge: what becomes of the batch-quote rows *)

Section MergeCounts.

Import Combined.

Context {PyFloat : Type}.

Abbreviation Clin_ := (@Clin PyFloat).
Abbreviation Sol_ := (@Solicitation PyFloat).

(** A CLIN with a line number, and the number of them in a solicitation. *)
Definition has_line (c : Clin_) : bool :=
  match clin c with Some _ => true | None => false end.

Definition lined (sol : Sol_) : nat :=
  List.length (filter has_line (clins sol)).

(** The number of batch-quote rows kept with a solicitation. *)
Definition raw_rows (sol : Sol_) : nat :=
  List.length (get_or (raw_batch_quote_data sol) []).

(** A measure of solicitations summed over a map. *)
Definition total (mu : Sol_ -> nat) (d : Dict.t Sol_) : nat :=
  list_sum (map mu (Dict.values d)).

Lemma total_set (mu : Sol_ -> nat) (k : string) (w : Sol_) (d : Dict.t Sol_) :
  total mu (Dict.set k w d)
  + match Dict.get k d with Some s => mu s | None => 0 end
  = total mu d + mu w.
Proof.
  unfold total, Dict.values.
  induction d as [|[k0 v0] d IH]; simpl; [lia|].
  destruct (String.eqb k k0); simpl; lia.
Qed.

(** A step of a pass: the solicitation is made if it is not there, then
    changed.  The sum grows by what the change adds. *)
Lemma total_step (mu : Sol_ -> nat) (k : string) (v : Sol_)
    (f : Sol_ -> Sol_) (d : Dict.t Sol_) (delta : nat) :
  mu v = 0 -> (forall s, mu (f s) = mu s + delta) ->
  total mu (modify k f (setdefault k v d)) = total mu d + delta.
Proof.
  intros Hv Hf. unfold setdefault, Dict.mem, modify.
  destruct (Dict.get k d) as [s|] eqn:G.
  - rewrite G. pose proof (total_set mu k (f s) d) as T.
    rewrite G, Hf in T. lia.
  - rewrite dict_get_set, String.eqb_refl.
    pose proof (total_set mu k (f v) (Dict.set k v d)) as T.
    rewrite dict_get_set, String.eqb_refl, Hf in T.
    pose proof (total_set mu k v d) as T'. rewrite G in T'. lia.
Qed.

(** A property of solicitations that a step keeps. *)
Lemma forall_step (P : Sol_ -> Prop) (k : string) (v : Sol_)
    (f : Sol_ -> Sol_) (d : Dict.t Sol_) :
  P v -> (forall s, P s -> P (f s)) ->
  Forall P (Dict.values d) ->
  Forall P (Dict.values (modify k f (setdefault k v d))).
Proof.
  intros Hv Hf Hd.
  assert (S : forall w d', P w -> Forall P (Dict.values d') ->
                           Forall P (Dict.values (Dict.set k w d'))).
  { intros w d' Hw. unfold Dict.values.
    induction d' as [|[k0 v0] d' IH]; simpl; intro H.
    - now repeat constructor.
    - inversion H; subst. destruct (String.eqb k k0); simpl;
        constructor; auto. }
  assert (G : forall d' s, Forall P (Dict.values d') ->
                           Dict.get k d' = Some s -> P s).
  { intros d' s H E. apply dict_get_in in E.
    rewrite Forall_forall in H. apply H. unfold Dict.values.
    change s with (snd (k, s)). now apply in_map. }
  unfold setdefault, Dict.mem, modify.
  destruct (Dict.get k d) as [s|] eqn:E.
  - rewrite E. apply S; [|exact Hd]. apply Hf. exact (G _ _ Hd E).
  - rewrite dict_get_set, String.eqb_refl.
    apply S; [now apply Hf | now apply S].
Qed.

(** *** The changes of the passes to the CLINs *)

Lemma lined_update (n : string) (f : Clin_ -> Clin_) (cs : list Clin_) :
  (forall c, has_line (f c) = has_line c) ->
  List.length (filter has_line (update_clin n f cs))
  = List.length (filter has_line cs).
Proof.
  intro Hf. induction cs as [|c cs IH]; [reflexivity|].
  cbn [update_clin]. destruct (String.eqb (nsn c) n).
  - cbn [filter]. rewrite Hf. now destruct (has_line c).
  - cbn [filter]. destruct (has_line c); simpl; now rewrite IH.
Qed.

Lemma lined_web_clins (record : Web.row) (cs : list Clin_) :
  List.length (filter has_line (web_clins record cs))
  = List.length (filter has_line cs).
Proof.
  unfold web_clins.
  destruct (extracted_quantity
              (Web.purchase_request record)) as [pr q].
  destruct (find_clin _ cs).
  - now apply lined_update.
  - rewrite filter_app, length_app. simpl. lia.
Qed.

Section Passes.

Variable strptime : string -> string -> option string.
Variable float : string -> option PyFloat.
Variable utcnow : string.

Lemma lined_in_clins (record : IN.row) (cs : list Clin_) :
  List.length (filter has_line (in_clins record cs))
  = List.length (filter has_line cs).
Proof.
  unfold in_clins. destruct (find_clin _ cs).
  - now apply lined_update.
  - rewrite filter_app, length_app. simpl. lia.
Qed.

Lemma lined_bq_entry (records : list BQ.row) (sol : Sol_) :
  lined (bq_entry strptime float sol records)
  = lined sol + List.length records
  /\ raw_rows (bq_entry strptime float sol records)
     = raw_rows sol + List.length records.
Proof.
  unfold bq_entry.
  set (start := match records with
                | first :: _ => bq_header strptime first sol
                | [] => sol
                end).
  assert (H0 : lined start = lined sol /\ raw_rows start = raw_rows sol)
    by (subst start; destruct records; now split).
  destruct H0 as [<- <-]. clearbody start. revert start.
  induction records as [|r rs IH]; intro start; simpl; [split; lia|].
  destruct (IH (bq_line float start r)) as [-> ->].
  unfold lined, raw_rows, bq_line. simpl.
  rewrite filter_app, !length_app. simpl. split; lia.
Qed.

Lemma total_bq_pass (entries : list (bq_key * list BQ.row))
    (d : Dict.t Sol_) :
  total lined (fold_left (bq_pass_step strptime float utcnow) entries d)
  = total lined d + list_sum (map (fun e => List.length (snd e)) entries)
  /\ total raw_rows
       (fold_left (bq_pass_step strptime float utcnow) entries d)
     = total raw_rows d
       + list_sum (map (fun e => List.length (snd e)) entries).
Proof.
  revert d; induction entries as [|e es IH]; intro d; simpl; [split; lia|].
  destruct (IH (bq_pass_step strptime float utcnow d e)) as [-> ->].
  unfold bq_pass_step.
  rewrite (total_step lined _ _ _ _ (List.length (snd e)));
    [|reflexivity | intro s; apply lined_bq_entry].
  rewrite (total_step raw_rows _ _ _ _ (List.length (snd e)));
    [|reflexivity | intro s; apply lined_bq_entry].
  split; lia.
Qed.

Lemma total_web_pass (web_data : list Web.row) (d : Dict.t Sol_) :
  total lined (fold_left (web_pass_step strptime utcnow) web_data d)
  = total lined d
  /\ total raw_rows (fold_left (web_pass_step strptime utcnow) web_data d)
     = total raw_rows d.
Proof.
  revert d; induction web_data as [|r rs IH]; intro d; simpl; [now split|].
  destruct (IH (web_pass_step strptime utcnow d r)) as [-> ->].
  unfold web_pass_step.
  destruct (negb (Py.truthy (Py.strip (Web.solicitation r)))); [now split|].
  rewrite (total_step lined _ _ _ _ 0);
    [|reflexivity
     |intro s; unfold lined; cbn [with_clins clins web_header];
      rewrite lined_web_clins; lia].
  rewrite (total_step raw_rows _ _ _ _ 0);
    [|reflexivity | intro s; unfold raw_rows; simpl; lia].
  split; lia.
Qed.

Lemma total_in_pass (in_data : list IN.row) (d : Dict.t Sol_) :
  total lined (fold_left (in_pass_step strptime utcnow) in_data d)
  = total lined d
  /\ total raw_rows (fold_left (in_pass_step strptime utcnow) in_data d)
     = total raw_rows d.
Proof.
  revert d; induction in_data as [|r rs IH]; intro d; simpl; [now split|].
  destruct (IH (in_pass_step strptime utcnow d r)) as [-> ->].
  unfold in_pass_step.
  assert (C : forall s : Sol_, clins (in_header strptime r s) = clins s
                        /\ raw_batch_quote_data (in_header strptime r s)
                           = raw_batch_quote_data s).
  { intro s. unfold in_header.
    destruct (decode_setaside (IN.small_business_setaside r)) as [[c ds] p].
    now split. }
  rewrite (total_step lined _ _ _ _ 0);
    [|reflexivity
     |intro s; unfold lined; cbn [with_clins clins];
      rewrite lined_in_clins, (proj1 (C s)); lia].
  rewrite (total_step raw_rows _ _ _ _ 0);
    [|reflexivity
     |intro s; unfold raw_rows, with_clins; simpl;
      rewrite (proj2 (C s)); lia].
  split; lia.
Qed.

(** The groups of the batch-quote lookup hold every row once. *)
Lemma bq_lookup_rows (bq_data : list BQ.row) :
  list_sum (map (fun e => List.length (snd e)) (bq_lookup bq_data))
  = List.length bq_data.
Proof.
  unfold bq_lookup.
  assert (G : forall key r d,
             list_sum (map (fun e : bq_key * list BQ.row =>
                              List.length (snd e)) (bq_group key r d))
             = S (list_sum (map (fun e : bq_key * list BQ.row =>
                                   List.length (snd e)) d))).
  { intros key r d. induction d as [|[k rs] d IH]; simpl; [reflexivity|].
    destruct (bq_key_eqb key k); simpl.
    - rewrite length_app. simpl. lia.
    - rewrite IH. lia. }
  assert (F : forall l d,
             list_sum (map (fun e : bq_key * list BQ.row =>
                              List.length (snd e))
                           (fold_left
                              (fun d record =>
                                 bq_group (BQ.solicitation_number record,
                                           BQ.line_number record) record d)
                              l d))
             = list_sum (map (fun e : bq_key * list BQ.row =>
                                List.length (snd e)) d) + List.length l).
  { induction l as [|r l IH]; intro d; simpl; [lia|].
    rewrite IH, G. lia. }
  now rewrite F.
Qed.

Lemma has_line_attach (lookup : Dict.t (list AS.row)) (c : Clin_) :
  has_line (attach_clin lookup c) = has_line c.
Proof.
  unfold attach_clin, has_line.
  now destruct (if Py.truthy (nsn c) then Dict.get (nsn c) lookup else None).
Qed.

(** Every batch-quote row becomes one CLIN with a line number, in some
    solicitation of the result, and no other CLIN has a line number: the
    CLINs with a line number are as many as the batch-quote rows, whatever
    the web, index and approved-source rows are.  The rows kept under
    [raw_batch_quote_data] are as many again. *)
Theorem merge_gives_one_lined_clin_per_batch_quote_row
    (web_data : list Web.row) (in_data : list IN.row)
    (bq_data : list BQ.row) (as_data : list AS.row) :
  list_sum (map lined
                (merge_data_sources strptime float utcnow web_data in_data
                                    bq_data as_data))
  = List.length bq_data
  /\ list_sum (map raw_rows
                   (merge_data_sources strptime float utcnow web_data
                                       in_data bq_data as_data))
     = List.length bq_data.
Proof.
  unfold merge_data_sources, merged_map. rewrite !map_map.
  set (d := fold_left (in_pass_step strptime utcnow) in_data _).
  assert (A : forall sol,
             lined (attach_sources (as_lookup as_data) sol) = lined sol
             /\ raw_rows (attach_sources (as_lookup as_data) sol)
                = raw_rows sol).
  { intro sol. split; [|reflexivity].
    unfold lined, attach_sources. cbn [with_clins clins].
    induction (clins sol) as [|c cs IH]; [reflexivity|].
    cbn [map filter]. rewrite has_line_attach.
    destruct (has_line c); simpl; now rewrite IH. }
  rewrite (map_ext _ lined (fun s => proj1 (A s))).
  rewrite (map_ext _ raw_rows (fun s => proj2 (A s))).
  change (list_sum (map lined (Dict.values d))) with (total lined d).
  change (list_sum (map raw_rows (Dict.values d))) with (total raw_rows d).
  subst d.
  destruct (total_in_pass in_data
              (fold_left (web_pass_step strptime utcnow) web_data
                 (fold_left (bq_pass_step strptime float utcnow)
                            (bq_lookup bq_data) []))) as [-> ->].
  destruct (total_web_pass web_data
              (fold_left (bq_pass_step strptime float utcnow)
                         (bq_lookup bq_data) [])) as [-> ->].
  destruct (total_bq_pass (bq_lookup bq_data) []) as [-> ->].
  rewrite bq_lookup_rows. now split.
Qed.

End Passes.

End MergeCounts.

(** ** The merge: the CLINs of a solicitation *)

Section MergeShape.

Import Combined.

Context {PyFloat : Type}.

Abbreviation Clin_ := (@Clin PyFloat).
Abbreviation Sol_ := (@Solicitation PyFloat).

(** No two CLINs of the solicitation have the same NSN. *)
Definition nsn_distinct (sol : Sol_) : Prop := NoDup (map nsn (clins sol)).

(** Every line number of the solicitation has four characters or more. *)
Definition lines_padded (sol : Sol_) : Prop :=
  Forall (fun c : Clin_ =>
            match clin c with
            | Some line => 4 <= String.length line
            | None => True
            end) (clins sol).

Lemma forall_fold {A : Type} (P : Sol_ -> Prop)
    (step : Dict.t Sol_ -> A -> Dict.t Sol_) :
  (forall d a, Forall P (Dict.values d) -> Forall P (Dict.values (step d a))) ->
  forall l d, Forall P (Dict.values d) ->
              Forall P (Dict.values (fold_left step l d)).
Proof.
  intros H l. induction l as [|a l IH]; intros d Hd; simpl; [exact Hd|].
  apply IH. now apply H.
Qed.

Lemma update_clin_map {B : Type} (g : Clin_ -> B) (n : string)
    (f : Clin_ -> Clin_) (cs : list Clin_) :
  (forall c, g (f c) = g c) ->
  map g (update_clin n f cs) = map g cs.
Proof.
  intro Hf. induction cs as [|c cs IH]; [reflexivity|].
  cbn [update_clin]. destruct (String.eqb (nsn c) n); cbn [map].
  - now rewrite Hf.
  - now rewrite IH.
Qed.

Lemma find_clin_none (n : string) (cs : list Clin_) :
  find_clin n cs = None -> ~ In n (map nsn cs).
Proof.
  unfold find_clin. intros H Hin. apply in_map_iff in Hin as (c & E & Hc).
  pose proof (find_none _ _ H c Hc) as F. cbv beta in F.
  rewrite E, String.eqb_refl in F. discriminate F.
Qed.

Lemma nodup_snoc (n : string) (l : list string) :
  NoDup l -> ~ In n l -> NoDup (l ++ [n]).
Proof.
  intros N H. apply NoDup_app; [exact N | repeat constructor; tauto|].
  intros x Hx [<- | []]. now apply H.
Qed.

Lemma web_clins_distinct (record : Web.row) (cs : list Clin_) :
  NoDup (map nsn cs) -> NoDup (map nsn (web_clins record cs)).
Proof.
  intro N. unfold web_clins.
  destruct (extracted_quantity
              (Web.purchase_request record)) as [pr q].
  destruct (find_clin _ cs) eqn:F.
  - now rewrite update_clin_map.
  - rewrite map_app. cbn [map nsn].
    apply nodup_snoc; [exact N | now apply find_clin_none].
Qed.

Lemma in_clins_distinct (record : IN.row) (cs : list Clin_) :
  NoDup (map nsn cs) -> NoDup (map nsn (in_clins record cs)).
Proof.
  intro N. unfold in_clins. destruct (find_clin _ cs) eqn:F.
  - now rewrite update_clin_map.
  - rewrite map_app. cbn [map nsn].
    apply nodup_snoc; [exact N | now apply find_clin_none].
Qed.

Lemma padded_update (n : string) (f : Clin_ -> Clin_) (cs : list Clin_) :
  (forall c, clin (f c) = clin c) ->
  Forall (fun c : Clin_ =>
            match clin c with
            | Some line => 4 <= String.length line
            | None => True
            end) cs ->
  Forall (fun c : Clin_ =>
            match clin c with
            | Some line => 4 <= String.length line
            | None => True
            end) (update_clin n f cs).
Proof.
  intros Hf H. induction H as [|c cs Hc Hcs IH]; [constructor|].
  cbn [update_clin]. destruct (String.eqb (nsn c) n).
  - constructor; [now rewrite Hf | exact Hcs].
  - now constructor.
Qed.

Lemma zeros_length (n : nat) : String.length (Py.zeros n) = n.
Proof. induction n as [|n IH]; simpl; [reflexivity | now rewrite IH]. Qed.

(** [s.zfill(width)] has [width] characters or more. *)
Lemma zfill_length (width : nat) (s : string) :
  width <= String.length (Py.zfill width s).
Proof.
  unfold Py.zfill. destruct s as [|c s].
  - rewrite zeros_length. simpl. lia.
  - destruct (Ascii.eqb c "+" || Ascii.eqb c "-");
      cbn [String.length]; rewrite str_length_app, zeros_length;
      cbn [String.length]; lia.
Qed.

Section Passes.

Variable strptime : string -> string -> option string.
Variable utcnow : string.

Lemma in_header_clins (record : IN.row) (s : Sol_) :
  clins (in_header strptime record s) = clins s.
Proof.
  unfold in_header.
  now destruct (decode_setaside (IN.small_business_setaside record))
    as [[c ds] p].
Qed.

Lemma web_step_distinct (d : Dict.t Sol_) (record : Web.row) :
  Forall nsn_distinct (Dict.values d) ->
  Forall nsn_distinct (Dict.values (web_pass_step strptime utcnow d record)).
Proof.
  intro H. unfold web_pass_step.
  destruct (negb (Py.truthy (Py.strip (Web.solicitation record))));
    [exact H|].
  apply forall_step; [constructor | | exact H].
  intros s Hs. unfold nsn_distinct. cbn [with_clins clins web_header].
  now apply web_clins_distinct.
Qed.

Lemma in_step_distinct (d : Dict.t Sol_) (record : IN.row) :
  Forall nsn_distinct (Dict.values d) ->
  Forall nsn_distinct (Dict.values (in_pass_step strptime utcnow d record)).
Proof.
  intro H. unfold in_pass_step.
  apply forall_step; [constructor | | exact H].
  intros s Hs. unfold nsn_distinct. cbn [with_clins clins].
  rewrite in_header_clins. now apply in_clins_distinct.
Qed.

Lemma web_step_padded (d : Dict.t Sol_) (record : Web.row) :
  Forall lines_padded (Dict.values d) ->
  Forall lines_padded (Dict.values (web_pass_step strptime utcnow d record)).
Proof.
  intro H. unfold web_pass_step.
  destruct (negb (Py.truthy (Py.strip (Web.solicitation record))));
    [exact H|].
  apply forall_step; [constructor | | exact H].
  intros s Hs. unfold lines_padded in *. cbn [with_clins clins web_header].
  unfold web_clins.
  destruct (extracted_quantity
              (Web.purchase_request record)) as [pr q].
  destruct (find_clin _ (clins s)).
  - now apply padded_update.
  - apply Forall_app. split; [exact Hs | now repeat constructor].
Qed.

Lemma in_step_padded (d : Dict.t Sol_) (record : IN.row) :
  Forall lines_padded (Dict.values d) ->
  Forall lines_padded (Dict.values (in_pass_step strptime utcnow d record)).
Proof.
  intro H. unfold in_pass_step.
  apply forall_step; [constructor | | exact H].
  intros s Hs. unfold lines_padded in *. cbn [with_clins clins].
  rewrite in_header_clins. unfold in_clins.
  destruct (find_clin _ (clins s)).
  - now apply padded_update.
  - apply Forall_app. split; [exact Hs | now repeat constructor].
Qed.

Variable float : string -> option PyFloat.

Lemma bq_step_padded (d : Dict.t Sol_) (entry : bq_key * list BQ.row) :
  Forall lines_padded (Dict.values d) ->
  Forall lines_padded
    (Dict.values (bq_pass_step strptime float utcnow d entry)).
Proof.
  intro H. unfold bq_pass_step.
  apply forall_step; [constructor | | exact H].
  intros s Hs. unfold bq_entry.
  set (start := match snd entry with
                | first :: _ => bq_header strptime first s
                | [] => s
                end).
  assert (H0 : lines_padded start) by (subst start; now destruct (snd entry)).
  clearbody start. revert start H0.
  induction (snd entry) as [|r rs IH]; intros start H0; simpl; [exact H0|].
  apply IH. unfold lines_padded in *. cbn [bq_line clins].
  apply Forall_app. split; [exact H0|].
  constructor; [|constructor]. cbn [bq_clin clin]. apply zfill_length.
Qed.

Abbreviation merge := (merge_data_sources strptime float utcnow).

(** Every line number in the result has four characters or more: the
    line numbers come from the batch-quote rows, filled with zeros on the
    left, and no later pass changes them. *)
Theorem merge_pads_line_numbers
    (web_data : list Web.row) (in_data : list IN.row)
    (bq_data : list BQ.row) (as_data : list AS.row) :
  Forall lines_padded (merge web_data in_data bq_data as_data).
Proof.
  unfold merge_data_sources, merged_map.
  apply Forall_map.
  assert (A : forall sol,
             lines_padded sol ->
             lines_padded (attach_sources (as_lookup as_data) sol)).
  { intros sol H. unfold lines_padded, attach_sources in *.
    cbn [with_clins clins]. apply Forall_map.
    revert H. apply Forall_impl. intros c Hc.
    unfold attach_clin.
    now destruct (if Py.truthy (nsn c)
                  then Dict.get (nsn c) (as_lookup as_data) else None). }
  eapply Forall_impl; [exact A|].
  apply forall_fold; [apply in_step_padded|].
  apply forall_fold; [apply web_step_padded|].
  apply forall_fold; [apply bq_step_padded | constructor].
Qed.

(** The web and index passes match a row to a CLIN by NSN before they add
    one, so they never give a solicitation two CLINs with the same NSN:
    when the solicitations made of the batch-quote rows alone have no NSN
    twice, those of the whole merge have none either. *)
Theorem merge_keeps_nsn_distinct
    (web_data : list Web.row) (in_data : list IN.row)
    (bq_data : list BQ.row) (as_data : list AS.row) :
  Forall nsn_distinct (merge [] [] bq_data []) ->
  Forall nsn_distinct (merge web_data in_data bq_data as_data).
Proof.
  unfold merge_data_sources, merged_map. cbn [fold_left as_lookup].
  intro H.
  assert (H0 : Forall nsn_distinct
                 (Dict.values
                    (fold_left (bq_pass_step strptime float utcnow)
                               (bq_lookup bq_data) []))).
  { rewrite Forall_map in H. revert H. apply Forall_impl.
    intros sol Hs. now rewrite attach_sources_none in Hs. }
  apply Forall_map.
  assert (A : forall sol,
             nsn_distinct sol ->
             nsn_distinct (attach_sources (as_lookup as_data) sol)).
  { intros sol Hs. unfold nsn_distinct, attach_sources in *.
    cbn [with_clins clins]. rewrite map_map.
    erewrite map_ext; [exact Hs|].
    intro c. unfold attach_clin.
    now destruct (if Py.truthy (nsn c)
                  then Dict.get (nsn c) (as_lookup as_data) else None). }
  eapply Forall_impl; [exact A|].
  apply forall_fold; [apply in_step_distinct|].
  apply forall_fold; [apply web_step_distinct | exact H0].
Qed.

End Passes.

End MergeShape.

Definition web_twice : list Web.row :=
  [Web.mk "1" "1234567890123" "BOLT" [] "SPE1C1" "" "" "" "PR1" "" "" "" "";
   Web.mk "2" "1234567890123 MilSpec" "BOLT, HEX" [] "spe1c1" "" "" ""
          "PR1" "" "" "" "";
   Web.mk "3" "9999000001111" "NUT" [] "SPE1C1" "" "" "" "PR2" "" "" "" ""].

Definition bq_bolt : BQ.row :=
  BQ.mk "SPE1C1" "F" "N" "N" "06/30/2025" "1" "PR1" "1234-56-789-0123" "EA"
        "12" "1.50" "30" (Some "1234567890123") None.

Lemma merge_keeps_nsn_distinct_witness :
  Forall nsn_distinct (Combined.merge_model web_twice [] [bq_bolt] []).
Proof.
  apply (merge_keeps_nsn_distinct Combined.strptime_model
           "2025-01-01T00:00:00Z" Combined.float_model web_twice []
           [bq_bolt] []).
  vm_compute. constructor; [|constructor].
  constructor; [intros [] | constructor].
Defined.

Example merge_of_repeated_nsn :
  map (fun sol => (Combined.solicitation_number sol,
                   map Combined.nsn (Combined.clins sol)))
      (Combined.merge_model web_twice [] [bq_bolt] [])
  = [("SPE1C1", ["1234567890123"; "9999000001111"])].
Proof. vm_compute. reflexivity. Qed.

(** ** The rows that the row parser returns *)

Section RowParser.

Import Solicitations RfqRecs.

Variable strptime : string -> string -> option string.

Abbreviation step := (RfqRecs.step strptime).
Abbreviation feed := (RfqRecs.feed strptime).
Abbreviation parse := (RfqRecs.parse strptime).

(** A property of rows that holds of the rows of every state the parser
    reaches, when it holds of a new row and every handler keeps it. *)
Definition rows_keep (P : Web.row -> Prop) (p : parser) : Prop :=
  Forall P (done p) /\ P (row p).

Lemma rows_keep_get_data (P : Web.row -> Prop) (p : parser) :
  rows_keep P p -> Forall P (get_data p).
Proof.
  intros [Hd Hr]. unfold get_data. apply Forall_app. split; [exact Hd|].
  destruct (appended p); now repeat constructor.
Qed.

Lemma feed_rows_keep (P : Web.row -> Prop) :
  (forall p ev, rows_keep P p -> rows_keep P (step p ev)) ->
  forall pg p, rows_keep P p -> rows_keep P (feed p pg).
Proof.
  intros H pg. induction pg as [|ev pg IH]; intros p Hp; [exact Hp|].
  apply IH. now apply H.
Qed.

(** The handlers change the rows only by the writes of [cell], of a link
    of column 5, of an image and of a document. *)
Lemma step_rows_keep (P : Web.row -> Prop) :
  P fresh_row ->
  (forall n text r, P r -> P (cell strptime n text r)) ->
  (forall v r, P r -> P (set_solicitation_url v r)) ->
  (forall v r, P r -> P (set_setaside_type v r)) ->
  (forall doc r, P r -> Py.truthy (Doc.url doc) = true ->
                 P (add_technical_document doc r)) ->
  forall p ev, rows_keep P p -> rows_keep P (step p ev).
Proof.
  intros Hfresh Hcell Hurl Hset Hdoc p ev [Hd Hr].
  assert (Hsnoc : Forall P (done p ++ [row p]))
    by (apply Forall_app; split; [exact Hd | now repeat constructor]).
  destruct ev as [tag attrs | tag | data]; cbn [RfqRecs.step].
  - unfold handle_starttag.
    repeat match goal with
           | |- rows_keep _ (if ?b then _ else _) => destruct b
           | |- rows_keep _ (match ?o with Some _ => _ | None => _ end) =>
               destruct o
           end;
      try (split; assumption);
      split; cbn [done row with_row]; auto;
      repeat match goal with
             | |- context [if ?b then _ else _] => destruct b
             end; auto.
  - unfold handle_endtag.
    repeat match goal with
           | |- rows_keep _ (if ?b then _ else _) => destruct b
           end;
      try (split; assumption);
      split; cbn [done row]; auto.
    destruct (current_tech_doc p) as [doc|]; [|exact Hr].
    destruct (collecting_tech_docs p && Py.truthy (Doc.url doc)) eqn:E;
      [|exact Hr].
    apply andb_true_iff in E as [_ E]. now apply Hdoc.
  - unfold handle_data.
    repeat match goal with
           | |- rows_keep _ (if ?b then _ else _) => destruct b
           | |- rows_keep _ (match ?o with Some _ => _ | None => _ end) =>
               destruct o
           end;
      split; assumption.
Qed.

(** *** No hyphen in the numbers *)

Definition hyphen_free (r : Web.row) : Prop :=
  no_char Py.hyphen (Web.nsn_part_number r) = true
  /\ no_char Py.hyphen (Web.solicitation r) = true.

Lemma remove_char_gone (x : ascii) (s : string) :
  no_char x (Py.remove_char x s) = true.
Proof.
  unfold no_char. induction s as [|c s IH]; [reflexivity|].
  cbn [Py.remove_char]. destruct (Ascii.eqb c x) eqn:E; [exact IH|].
  cbn [Py.all_chars]. now rewrite E, IH.
Qed.

Lemma cell_hyphen_free (n : nat) (text : string) (r : Web.row) :
  hyphen_free r -> hyphen_free (cell strptime n text r).
Proof.
  intros [Hn Hs]. unfold cell.
  destruct n as [|[|[|[|[|[|[|[|[|[|n]]]]]]]]]]; try (split; assumption).
  - split; [apply remove_char_gone | exact Hs].
  - unfold solicitation_cell. destruct (Py.truthy text); [|now split].
    split; [exact Hn | apply remove_char_gone].
  - unfold purchase_request_cell.
    destruct (nonblank_lines _) as [|pr_line below]; [now split|].
    destruct (Py.contains "QTY:" (Py.upper pr_line)); [now split|].
    destruct (quantity_found below); now split.
Qed.

Lemma upper_char_hyphen (c : ascii) :
  Ascii.eqb (Py.upper_char c) Py.hyphen = Ascii.eqb c Py.hyphen.
Proof. destruct c as [[] [] [] [] [] [] [] []]; reflexivity. Qed.

Lemma upper_hyphen_free (s : string) :
  no_char Py.hyphen s = true -> no_char Py.hyphen (Py.upper s) = true.
Proof.
  unfold no_char. induction s as [|c s IH]; [reflexivity|].
  cbn [Py.upper Py.all_chars]. rewrite upper_char_hyphen.
  intro H. apply andb_true_iff in H as [Hc Hs]. now rewrite Hc, IH.
Qed.

Lemma parse_hyphen_free (pg : page) :
  Forall hyphen_free (snd (parse pg)).
Proof.
  apply rows_keep_get_data, feed_rows_keep.
  - apply step_rows_keep; try (intros; assumption).
    + now split.
    + apply cell_hyphen_free.
  - split; [constructor | now split].
Qed.

Lemma key_hyphen_free (r : Web.row) :
  hyphen_free r ->
  no_char Py.hyphen (Py.upper (Py.strip (Py.strip (Web.solicitation r))))
  = true.
Proof.
  intros [_ Hs]. apply upper_hyphen_free. unfold no_char.
  now do 2 apply all_chars_strip.
Qed.

(** No row that the parser returns has a hyphen in its NSN or in its
    solicitation number, whatever the page: both are stored through a
    [replace] of the hyphen, and nothing else writes them.  So the key
    under which the merge files a row of the parser has no hyphen. *)
Theorem parsed_rows_have_no_hyphen (pg : page) :
  Forall (fun r =>
            no_char Py.hyphen (Web.nsn_part_number r) = true
            /\ no_char Py.hyphen (Web.solicitation r) = true
            /\ no_char Py.hyphen
                 (Py.upper (Py.strip (Py.strip (Web.solicitation r))))
               = true)
         (snd (parse pg)).
Proof.
  pose proof (parse_hyphen_free pg) as H.
  revert H. apply Forall_impl. intros r H.
  split; [exact (proj1 H)|]. split; [exact (proj2 H)|].
  now apply key_hyphen_free.
Qed.

(** *** Documents *)

Definition documents_have_url (r : Web.row) : Prop :=
  Forall (fun doc => Py.truthy (Doc.url doc) = true)
         (Web.technical_documents r).

(** Every technical document of a returned row has an address: a link of
    column 4 without one is not kept. *)
Theorem parsed_documents_have_a_url (pg : page) :
  Forall documents_have_url (snd (parse pg)).
Proof.
  apply rows_keep_get_data, feed_rows_keep.
  - apply step_rows_keep; try (intros; assumption).
    + constructor.
    + intros n text r H. unfold cell.
      destruct n as [|[|[|[|[|[|[|[|[|[|n]]]]]]]]]]; try exact H.
      * unfold solicitation_cell. now destruct (Py.truthy text).
      * unfold purchase_request_cell.
        destruct (nonblank_lines _) as [|pr_line below]; [exact H|].
        destruct (Py.contains "QTY:" (Py.upper pr_line)); [exact H|].
        now destruct (quantity_found below).
    + intros doc r H U. unfold documents_have_url in *.
      cbn [add_technical_document Web.technical_documents].
      apply Forall_app. split; [exact H | now repeat constructor].
  - split; constructor.
Qed.

(** *** Rows come from marked table rows *)

(** An opening [tr] tag of class [BgWhite] or [BgSilver]. *)
Definition marked (ev : html_event) : bool :=
  match ev with
  | StartTag tag attrs =>
      String.eqb tag "tr"
      && match Dict.get "class" (attrs_dict attrs) with
         | Some c => String.eqb c "BgWhite" || String.eqb c "BgSilver"
         | None => false
         end
  | _ => false
  end.

Definition marked_rows (pg : page) : nat := List.length (filter marked pg).

(** The rows appended so far, and the row that is open. *)
Definition appended_rows (p : parser) : nat :=
  List.length (done p) + (if appended p then 1 else 0).

Definition open_row (p : parser) : nat := if inside_tr p then 1 else 0.

(** An open row has not been appended. *)
Definition open_is_new (p : parser) : Prop :=
  inside_tr p = true -> appended p = false.

(** The handlers that neither open nor close a table row leave the rows
    appended and the open row as they are. *)
Definition same_rows (p p' : parser) : Prop :=
  done p' = done p /\ appended p' = appended p
  /\ inside_tr p' = inside_tr p.

Ltac branches :=
  repeat match goal with
         | |- same_rows _ (if ?b then _ else _) => destruct b
         | |- same_rows _ (match ?o with Some _ => _ | None => _ end) =>
             destruct o
         end;
  repeat split.

Lemma starttag_same_rows (p : parser) (tag : string)
    (attrs : list (string * string)) :
  String.eqb tag "tr" = false ->
  same_rows p (handle_starttag p tag attrs).
Proof. intro E. unfold handle_starttag. rewrite E. branches. Qed.

Lemma endtag_same_rows (p : parser) (tag : string) :
  String.eqb tag "tr" && inside_tr p = false ->
  same_rows p (handle_endtag strptime p tag).
Proof. intro E. unfold handle_endtag. rewrite E. branches. Qed.

Lemma data_same_rows (p : parser) (data : string) :
  same_rows p (handle_data p data).
Proof. unfold handle_data. branches. Qed.

Lemma step_marked (p : parser) (ev : html_event) (n : nat) :
  open_is_new p -> appended_rows p + open_row p <= n ->
  open_is_new (step p ev)
  /\ appended_rows (step p ev) + open_row (step p ev)
     <= n + (if marked ev then 1 else 0).
Proof.
  unfold open_is_new, appended_rows, open_row. intros J K.
  assert (Same : forall p', same_rows p p' ->
            (inside_tr p' = true -> appended p' = false)
            /\ List.length (done p') + (if appended p' then 1 else 0)
               + (if inside_tr p' then 1 else 0) <= n).
  { intros p' (-> & -> & ->). now split. }
  destruct ev as [tag attrs | tag | data]; cbn [RfqRecs.step marked].
  - destruct (String.eqb tag "tr") eqn:Et; cbn [andb].
    + unfold handle_starttag. rewrite Et.
      destruct (Dict.get "class" (attrs_dict attrs)) as [c|];
        [|split; [exact J | lia]].
      destruct (String.eqb c "BgWhite" || String.eqb c "BgSilver");
        [|split; [exact J | lia]].
      cbn [done appended inside_tr]. split; [reflexivity|].
      destruct (appended p), (inside_tr p);
        rewrite ?length_app; simpl in *; lia.
    + destruct (Same _ (starttag_same_rows p tag attrs Et)) as [J' K'].
      split; [exact J' | lia].
  - destruct (String.eqb tag "tr" && inside_tr p) eqn:E.
    + unfold handle_endtag. rewrite E.
      apply andb_true_iff in E as [_ E]. rewrite E in *.
      rewrite (J eq_refl) in *. cbn [done appended inside_tr].
      split; [discriminate|]. destruct (any_values (row p)); lia.
    + destruct (Same _ (endtag_same_rows p tag E)) as [J' K'].
      split; [exact J' | lia].
  - destruct (Same _ (data_same_rows p data)) as [J' K'].
    split; [exact J' | lia].
Qed.

Lemma feed_marked (pg : page) :
  forall (p : parser) (n : nat),
    open_is_new p -> appended_rows p + open_row p <= n ->
    open_is_new (feed p pg)
    /\ appended_rows (feed p pg) + open_row (feed p pg)
       <= n + marked_rows pg.
Proof.
  unfold marked_rows, RfqRecs.feed.
  induction pg as [|ev pg IH]; intros p n J K; cbn [fold_left].
  - cbn [filter List.length]. split; [exact J | lia].
  - destruct (step_marked p ev n J K) as [J' K'].
    destruct (IH _ _ J' K') as [J'' K'']. split; [exact J''|].
    cbn [filter]. destruct (marked ev); cbn [List.length] in *; lia.
Qed.

(** The parser returns no more rows than the page has opening [tr] tags
    of class [BgWhite] or [BgSilver]; a page without one gives no row,
    whatever cells and links it holds. *)
Theorem parsed_rows_come_from_marked_rows (pg : page) :
  List.length (snd (parse pg)) <= marked_rows pg
  /\ (marked_rows pg = 0 -> snd (parse pg) = []).
Proof.
  assert (H : List.length (snd (parse pg)) <= marked_rows pg).
  { destruct (feed_marked pg init 0) as [_ K];
      [discriminate | cbv; lia|].
    unfold RfqRecs.parse, get_data. cbn [snd].
    unfold appended_rows in K. rewrite length_app.
    destruct (appended (feed init pg)); simpl in *; lia. }
  split; [exact H|].
  intro Z. rewrite Z in H. destruct (snd (parse pg)); [reflexivity|].
  simpl in H. lia.
Qed.

(** *** The purchase-request column and the cell reading of it *)

Lemma quantity_found_below (lines : list string) :
  quantity_below lines = get_or (quantity_found lines) EmptyString.
Proof.
  induction lines as [|line rest IH]; [reflexivity|].
  cbn [quantity_below quantity_found].
  destruct (Py.contains "QTY:" (Py.upper line)); [reflexivity|].
  destruct (any_char Py.isdigit_char line); [reflexivity | exact IH].
Qed.

(** On a new row, column 7 stores the text of the cell and the pair that
    [pr_cell] reads from it. *)
Lemma purchase_request_cell_fresh (text : string) :
  purchase_request_cell text fresh_row
  = set_quantity (snd (pr_cell text))
      (set_pr_number (fst (pr_cell text))
         (set_purchase_request text fresh_row)).
Proof.
  unfold purchase_request_cell, pr_cell.
  destruct (nonblank_lines (Py.split Py.newline text)) as [|pr_line below];
    [reflexivity|].
  destruct (Py.contains "QTY:" (Py.upper pr_line)); [reflexivity|].
  cbn [fst snd]. rewrite quantity_found_below.
  now destruct (quantity_found below).
Qed.

End RowParser.

(** ** A page of the results table, read and crawled *)

Definition cell_of (evs : Solicitations.page) : Solicitations.page :=
  Solicitations.StartTag "td" [] :: evs ++ [Solicitations.EndTag "td"].

Definition count_span : Solicitations.page :=
  [Solicitations.StartTag "span" [("id", "ctl00_cph1_lblRecCount")];
   Solicitations.Data "Records: 2";
   Solicitations.EndTag "span"].

(** One table row: the NSN inside a link, a document link with an address
    and one without, the solicitation link followed by the set-aside
    image and the package link behind a guillemet, the quantity under the
    request number. *)
Definition table_row (item : string) : Solicitations.page :=
  Solicitations.StartTag "tr" [("class", "BgWhite")]
  :: cell_of [Solicitations.Data item]
  ++ cell_of [Solicitations.StartTag "a" [("href", "/nsn?x=1")];
              Solicitations.Data "1234-56-789-0123";
              Solicitations.EndTag "a"]
  ++ cell_of [Solicitations.Data "BOLT, HEX"]
  ++ cell_of [Solicitations.StartTag "a" [("title", "Tech Doc");
                                          ("href", "https://x/doc.pdf")];
              Solicitations.StartTag "img" [("src", "pdf.gif")];
              Solicitations.EndTag "a";
              Solicitations.StartTag "a" [("title", "No address")];
              Solicitations.EndTag "a"]
  ++ cell_of [Solicitations.StartTag "a" [("href", "/RFQ/SPE1C125T0001.PDF")];
              Solicitations.Data "SPE1C1-25-T-0001";
              Solicitations.EndTag "a";
              Solicitations.StartTag "img"
                [("alt", " Small Business Set-Aside ")];
              Solicitations.StartTag "a" [("href", "/pkg")];
              Solicitations.Data (String RfqRecs.guillemet " Package View");
              Solicitations.EndTag "a"]
  ++ cell_of [Solicitations.Data "Open"]
  ++ cell_of [Solicitations.Data
                ("0012345678" ++ String Py.newline "QTY: 12")]
  ++ cell_of [Solicitations.Data "06-03-2025"]
  ++ cell_of [Solicitations.Data "06-10-2025"]
  ++ [Solicitations.EndTag "tr"].

Definition parsed_row (item : string) : Web.row :=
  Web.mk item "1234567890123" "BOLT, HEX"
    [Doc.mk "Tech Doc" "https://x/doc.pdf"]
    "SPE1C125T0001" "/RFQ/SPE1C125T0001.PDF" "Small Business Set-Aside"
    "Open" ("0012345678" ++ String Py.newline "QTY: 12") "0012345678" "12"
    "2025-06-03" "2025-06-10".

Example parse_of_table_row :
  RfqRecs.parse Combined.strptime_model (count_span ++ table_row " 1 ")
  = (2, [parsed_row "1"]).
Proof. vm_compute. reflexivity. Qed.

(** A cell that closes after its table row has ended still writes to the
    row, which is by then in the list returned: the row and the entry of
    the list are one dict. *)
Example cell_closed_after_its_row :
  RfqRecs.parse Combined.strptime_model
    [Solicitations.StartTag "tr" [("class", "BgSilver")];
     Solicitations.StartTag "td" []; Solicitations.Data "1";
     Solicitations.EndTag "td";
     Solicitations.StartTag "td" []; Solicitations.Data "12-34";
     Solicitations.EndTag "tr";
     Solicitations.EndTag "td"]
  = (0, [RfqRecs.set_nsn_part_number "1234"
           (RfqRecs.set_item_number "1" RfqRecs.fresh_row)]).
Proof. vm_compute. reflexivity. Qed.

(** A server with two pages of one row each. *)
Definition paging_form : Solicitations.page :=
  [Solicitations.StartTag "form" [("action", "./RfqRecs.aspx");
                                  ("method", "post")];
   Solicitations.StartTag "input" [("name", "__VIEWSTATE"); ("value", "v")];
   Solicitations.EndTag "form"].

Definition two_page_server (s : nat) (r : Solicitations.request)
  : unit + (nat * Solicitations.page) :=
  match s with
  | O => inr (1, paging_form ++ count_span ++ table_row "1")
  | S _ => inr (S s, paging_form ++ count_span ++ table_row "2")
  end.

Example crawl_of_two_pages :
  option_map
    (fun r => (map (fun x => Solicitations.method (fst x)) (fst r), snd r))
    (Solicitations.scrape_pages nat unit two_page_server
       (RfqRecs.parse Combined.strptime_model) 0 "06-03-2025" false None)
  = Some ([Solicitations.GET; Solicitations.POST],
          inr [parsed_row "1"; parsed_row "2"]).
Proof. vm_compute. reflexivity. Qed.

(** ** The rows of a crawl *)

Section CrawlRows.

Import Solicitations.

Variables St NetErr : Type.
Variable send : St -> request -> NetErr + (St * page).
Variable strptime : string -> string -> option string.

Lemma forall_firstn {A : Type} (P : A -> Prop) (n : nat) (l : list A) :
  Forall P l -> Forall P (firstn n l).
Proof.
  revert n; induction l as [|x l IH]; intros n H; destruct n; simpl;
    try constructor; inversion H; subst; auto.
Qed.

(** With the row parser of this module as the parser of the pages, every
    row that a crawl returns has neither a hyphen in its NSN nor in its
    solicitation number, and the key under which the merge files it has
    none. *)
Theorem crawled_rows_have_no_hyphen (s : St) (day : string)
    (test_mode : bool) (max_records : option nat) :
  exists log out,
    scrape_pages St NetErr send (RfqRecs.parse strptime) s day test_mode
                 max_records = Some (log, out)
    /\ forall rows,
         out = inr rows ->
         Forall (fun r =>
                   no_char Py.hyphen (Web.nsn_part_number r) = true
                   /\ no_char Py.hyphen (Web.solicitation r) = true
                   /\ no_char Py.hyphen
                        (Py.upper (Py.strip (Py.strip (Web.solicitation r))))
                      = true) rows.
Proof.
  destruct (scrape_pages_stops St NetErr send (RfqRecs.parse strptime) s day
              test_mode max_records) as (log & out & E & _).
  exists log, out. split; [exact E|].
  destruct (scrape_pages_log _ _ _ _ _ _ _ _ _ _ E) as (_ & _ & R).
  assert (A : forall l, Forall hyphen_free
                          (rows_of NetErr (RfqRecs.parse strptime) l)).
  { unfold rows_of. induction l as [|[req [e | pg]] l IH]; simpl.
    - constructor.
    - exact IH.
    - apply Forall_app. split; [apply parse_hyphen_free | exact IH]. }
  intros rows Hr.
  assert (B : Forall hyphen_free rows).
  { destruct (R rows Hr) as [-> | [_ ->]]; [apply A|].
    unfold cut. destruct max_records; [apply forall_firstn|]; apply A. }
  revert B. apply Forall_impl. intros r H.
  split; [exact (proj1 H)|]. split; [exact (proj2 H)|].
  now apply key_hyphen_free.
Qed.

End CrawlRows.

(** ** The session with retries *)

Section RetrySession.

Import Solicitations RfqDownloader.

Variables St NetErr : Type.
Variable send : St -> request -> St * (NetErr + page).

Abbreviation event' := (event NetErr).

(** The attempts of a log, one for each request of the landing page, and
    its sleeps. *)
Definition is_try (ev : event') : bool :=
  match ev with
  | Sent req _ => match method req with GET => true | POST => false end
  | Slept _ => false
  end.

Definition tries (log : list event') : nat :=
  List.length (filter is_try log).

Definition sleeps (log : list event') : list nat :=
  flat_map (fun ev => match ev with Slept n => [n] | Sent _ _ => [] end) log.

Lemma attempt_log (host : string) (s : St) :
  tries (fst (fst (attempt St NetErr send host s))) = 1
  /\ sleeps (fst (fst (attempt St NetErr send host s))) = [].
Proof.
  unfold attempt.
  destruct (send s _) as [s1 [e | pg]]; [now split|].
  destruct (FormParser_parse pg) as [k | [[fd a] m]]; [now split|].
  destruct (send s1 _) as [s2 [e | pg2]]; now split.
Qed.

Lemma tries_app (a b : list event') : tries (a ++ b) = tries a + tries b.
Proof. unfold tries. now rewrite filter_app, length_app. Qed.

Lemma sleeps_app (a b : list event') : sleeps (a ++ b) = sleeps a ++ sleeps b.
Proof. unfold sleeps. apply flat_map_app. Qed.

Lemma attempts_log (host : string) (n k : nat) :
  forall (i : nat) (s : St),
    i + k = n ->
    let log := fst (attempts St NetErr send host n k i s) in
    let out := snd (attempts St NetErr send host n k i s) in
    tries log <= k
    /\ (0 < k -> 1 <= tries log)
    /\ sleeps log = map (Nat.pow 2) (seq i (tries log - 1))
    /\ (forall e, out = inl e -> tries log = k /\ 0 < k)
    /\ (out = inr None -> k = 0).
Proof.
  induction k as [|k IH]; intros i s Hn; cbn [attempts].
  - cbn. repeat split; intros; try discriminate; try reflexivity; lia.
  - pose proof (attempt_log host s) as [T Z].
    destruct (attempt St NetErr send host s) as [[alog s'] r].
    cbn [fst] in T, Z.
    destruct r as [e | []].
    + destruct (i =? n - 1)%nat eqn:E.
      * apply Nat.eqb_eq in E. cbn [fst snd]. rewrite T, Z.
        repeat split; intros; try discriminate; try reflexivity; lia.
      * apply Nat.eqb_neq in E.
        specialize (IH (S i) s' ltac:(lia)).
        destruct (attempts St NetErr send host n k (S i) s') as [log' out'].
        cbn [fst snd] in *.
        destruct IH as (I1 & I2 & I3 & I4 & I5).
        assert (Hk : 0 < k) by lia. specialize (I2 Hk).
        rewrite tries_app, sleeps_app, T, Z.
        change (tries (Slept (2 ^ i) :: log')) with (tries log').
        change (sleeps (Slept (2 ^ i) :: log'))
          with (2 ^ i :: sleeps log').
        rewrite I3.
        split; [lia|]. split; [lia|]. split; [|split].
        -- replace (1 + tries log' - 1) with (S (tries log' - 1)) by lia.
           reflexivity.
        -- intros e0 H. destruct (I4 e0 H). lia.
        -- intro H. apply I5 in H. lia.
    + cbn [fst snd]. rewrite T, Z.
      repeat split; intros; try discriminate; try reflexivity; lia.
Qed.

(** The session with retries makes no more attempts than [max_retries],
    each starting with a request of the landing page; before the attempt
    after the [i]th it sleeps [2 ^ i] seconds (1, 2, 4 and so on); it
    raises an exception only when the last attempt allowed has failed; and
    with no attempt allowed it makes no request and returns no session
    ([None]), which is the only way for it to return none. *)
Theorem session_retries_are_bounded (host : string) (max_retries : nat)
    (s0 : St) :
  let log := fst (dibbs_session St NetErr send host max_retries s0) in
  let out := snd (dibbs_session St NetErr send host max_retries s0) in
  tries log <= max_retries
  /\ (0 < max_retries -> 1 <= tries log)
  /\ sleeps log = map (Nat.pow 2) (seq 0 (tries log - 1))
  /\ (forall e, out = inl e -> tries log = max_retries /\ 0 < max_retries)
  /\ (out = inr None <-> max_retries = 0)
  /\ (max_retries = 0 -> log = []).
Proof.
  cbv zeta. unfold dibbs_session.
  destruct (attempts_log host max_retries max_retries 0 s0 eq_refl)
    as (H1 & H2 & H3 & H4 & H5).
  split; [exact H1|]. split; [exact H2|]. split; [exact H3|].
  split; [exact H4|]. split.
  - split; [exact H5|]. now intros ->.
  - now intros ->.
Qed.

End RetrySession.

(** A server that fails twice and then answers. *)
Definition flaky_server (s : nat) (r : Solicitations.request)
  : nat * (unit + Solicitations.page) :=
  (S s, if (s <? 2)%nat then inl tt else inr paging_form).

Example session_after_two_failures :
  let run := RfqDownloader.dibbs_session nat unit flaky_server
               Solicitations.DIBBS_HOST 3 0 in
  (map (fun ev => match ev with
                  | RfqDownloader.Sent req _ => inl (Solicitations.method req)
                  | RfqDownloader.Slept n => inr n
                  end) (fst run),
   snd run)
  = ([inl Solicitations.GET; inr 1; inl Solicitations.GET; inr 2;
      inl Solicitations.GET; inl Solicitations.POST],
     inr (Some 4)).
Proof. vm_compute. reflexivity. Qed.

Example session_gives_up :
  let run := RfqDownloader.dibbs_session nat unit flaky_server
               Solicitations.DIBBS_HOST 2 0 in
  (tries unit (fst run), sleeps unit (fst run), snd run)
  = (2, [1], inl (Solicitations.RequestFailed tt)).
Proof. vm_compute. reflexivity. Qed.

(** ** No empty row is returned *)

Section RowsNotEmpty.

Import Solicitations RfqRecs.

Variable strptime : string -> string -> option string.

(** The fields that the cell of column [n] writes are empty. *)
Definition col_empty (n : nat) (r : Web.row) : Prop :=
  match n with
  | 1 => Web.item_number r = EmptyString
  | 2 => Web.nsn_part_number r = EmptyString
  | 3 => Web.nomenclature r = EmptyString
  | 5 => Web.solicitation r = EmptyString
  | 6 => Web.rfq_quote_status r = EmptyString
  | 7 => Web.purchase_request r = EmptyString
         /\ Web.pr_number r = EmptyString /\ Web.quantity r = EmptyString
  | 8 => Web.issued r = EmptyString
  | 9 => Web.return_by r = EmptyString
  | _ => True
  end.

(** [r'] has the fields of [r] that cells write, but at most those of
    column [n]. *)
Definition same_cols (n : nat) (r r' : Web.row) : Prop :=
  (n <> 1 -> Web.item_number r' = Web.item_number r)
  /\ (n <> 2 -> Web.nsn_part_number r' = Web.nsn_part_number r)
  /\ (n <> 3 -> Web.nomenclature r' = Web.nomenclature r)
  /\ (n <> 5 -> Web.solicitation r' = Web.solicitation r)
  /\ (n <> 6 -> Web.rfq_quote_status r' = Web.rfq_quote_status r)
  /\ (n <> 7 -> Web.purchase_request r' = Web.purchase_request r)
  /\ (n <> 7 -> Web.pr_number r' = Web.pr_number r)
  /\ (n <> 7 -> Web.quantity r' = Web.quantity r)
  /\ (n <> 8 -> Web.issued r' = Web.issued r)
  /\ (n <> 9 -> Web.return_by r' = Web.return_by r).

(** The fields that links and images write keep a value they have. *)
Definition has_documents (r : Web.row) : bool :=
  match Web.technical_documents r with [] => false | _ => true end.

Definition others_kept (r r' : Web.row) : Prop :=
  (has_documents r = true -> has_documents r' = true)
  /\ (Py.truthy (Web.solicitation_url r) = true ->
      Py.truthy (Web.solicitation_url r') = true)
  /\ (Py.truthy (Web.setaside_type r) = true ->
      Py.truthy (Web.setaside_type r') = true).

Ltac frame := repeat split; intros; try reflexivity; try assumption.

Lemma cell_same_cols (n : nat) (text : string) (r : Web.row) :
  same_cols n r (cell strptime n text r)
  /\ others_kept r (cell strptime n text r).
Proof.
  unfold same_cols, others_kept, has_documents, cell.
  destruct n as [|[|[|[|[|[|[|[|[|[|n]]]]]]]]]];
    try (frame; congruence).
  - unfold solicitation_cell. destruct (Py.truthy text); frame; congruence.
  - unfold purchase_request_cell.
    destruct (nonblank_lines _) as [|pr_line below]; [frame; congruence|].
    destruct (Py.contains "QTY:" (Py.upper pr_line)); [frame; congruence|].
    destruct (quantity_found below); frame; congruence.
Qed.

Lemma same_cols_col (n k : nat) (r r' : Web.row) :
  same_cols n r r' -> k <> n -> col_empty k r -> col_empty k r'.
Proof.
  unfold same_cols, col_empty.
  intros (H1 & H2 & H3 & H5 & H6 & H7 & H7' & H7'' & H8 & H9) Hk.
  destruct k as [|[|[|[|[|[|[|[|[|[|k]]]]]]]]]]; try (intros; exact I).
  - now rewrite H1 by congruence.
  - now rewrite H2 by congruence.
  - now rewrite H3 by congruence.
  - now rewrite H5 by congruence.
  - now rewrite H6 by congruence.
  - now rewrite H7, H7', H7'' by congruence.
  - now rewrite H8 by congruence.
  - now rewrite H9 by congruence.
Qed.

Lemma orb_mono (a a' b b' : bool) :
  (a = true -> a' = true) -> (b = true -> b' = true) ->
  a || b = true -> a' || b' = true.
Proof.
  intros Ha Hb H. apply orb_true_iff in H as [H | H].
  - now rewrite (Ha H).
  - rewrite (Hb H). apply orb_true_r.
Qed.

Lemma truthy_empty (x : string) :
  x = EmptyString -> Py.truthy x = true -> False.
Proof. intros ->. discriminate. Qed.

(** A row with a value keeps one when a column that was empty is
    written. *)
Lemma same_cols_any (n : nat) (r r' : Web.row) :
  same_cols n r r' -> others_kept r r' -> col_empty n r ->
  any_values r = true -> any_values r' = true.
Proof.
  unfold same_cols, others_kept, has_documents, col_empty, any_values.
  intros (H1 & H2 & H3 & H5 & H6 & H7 & H7' & H7'' & H8 & H9)
         (D & U & T) E.
  assert (K1 : Py.truthy (Web.item_number r) = true ->
               Py.truthy (Web.item_number r') = true).
  { destruct (Nat.eq_dec n 1) as [-> | N];
      [intro X; destruct (truthy_empty _ E X) | now rewrite H1]. }
  assert (K2 : Py.truthy (Web.nsn_part_number r) = true ->
               Py.truthy (Web.nsn_part_number r') = true).
  { destruct (Nat.eq_dec n 2) as [-> | N];
      [intro X; destruct (truthy_empty _ E X) | now rewrite H2]. }
  assert (K3 : Py.truthy (Web.nomenclature r) = true ->
               Py.truthy (Web.nomenclature r') = true).
  { destruct (Nat.eq_dec n 3) as [-> | N];
      [intro X; destruct (truthy_empty _ E X) | now rewrite H3]. }
  assert (K5 : Py.truthy (Web.solicitation r) = true ->
               Py.truthy (Web.solicitation r') = true).
  { destruct (Nat.eq_dec n 5) as [-> | N];
      [intro X; destruct (truthy_empty _ E X) | now rewrite H5]. }
  assert (K6 : Py.truthy (Web.rfq_quote_status r) = true ->
               Py.truthy (Web.rfq_quote_status r') = true).
  { destruct (Nat.eq_dec n 6) as [-> | N];
      [intro X; destruct (truthy_empty _ E X) | now rewrite H6]. }
  assert (K7 : (Py.truthy (Web.purchase_request r) = true ->
                Py.truthy (Web.purchase_request r') = true)
               /\ (Py.truthy (Web.pr_number r) = true ->
                   Py.truthy (Web.pr_number r') = true)
               /\ (Py.truthy (Web.quantity r) = true ->
                   Py.truthy (Web.quantity r') = true)).
  { destruct (Nat.eq_dec n 7) as [-> | N].
    - destruct E as (E1 & E2 & E3).
      repeat split; intro X;
        [destruct (truthy_empty _ E1 X) | destruct (truthy_empty _ E2 X)
         | destruct (truthy_empty _ E3 X)].
    - now rewrite H7, H7', H7''. }
  destruct K7 as (K7 & K7' & K7'').
  assert (K8 : Py.truthy (Web.issued r) = true ->
               Py.truthy (Web.issued r') = true).
  { destruct (Nat.eq_dec n 8) as [-> | N];
      [intro X; destruct (truthy_empty _ E X) | now rewrite H8]. }
  assert (K9 : Py.truthy (Web.return_by r) = true ->
               Py.truthy (Web.return_by r') = true).
  { destruct (Nat.eq_dec n 9) as [-> | N];
      [intro X; destruct (truthy_empty _ E X) | now rewrite H9]. }
  clear H1 H2 H3 H5 H6 H7 H7' H7'' H8 H9 E.
  repeat (apply orb_mono; [|assumption]). exact K1.
Qed.

(** What holds of every state that the parser reaches: the columns not
    yet closed are empty, and the rows appended have a value. *)
Definition unwritten (p : parser) : Prop :=
  forall k, td_count p < k \/ (td_count p = k /\ inside_td p = true) ->
            col_empty k (row p).

Definition reached (p : parser) : Prop :=
  unwritten p
  /\ Forall (fun r => any_values r = true) (done p)
  /\ (appended p = true -> any_values (row p) = true).

(** A handler that writes no column and leaves the cells as they are. *)
Lemma reached_row (p p' : parser) :
  reached p ->
  done p' = done p -> appended p' = appended p ->
  td_count p' = td_count p -> inside_td p' = inside_td p ->
  same_cols 0 (row p) (row p') -> others_kept (row p) (row p') ->
  reached p'.
Proof.
  intros (U & D & A) Hd Ha Ht Hi Sc O. unfold reached, unwritten.
  rewrite Hd, Ha, Ht, Hi. split; [|split]; [|exact D|].
  - intros k Hk. destruct k as [|k]; [exact I|].
    apply (same_cols_col 0 (S k) _ _ Sc); [discriminate | now apply U].
  - intro H. apply (same_cols_any 0 _ _ Sc O I). now apply A.
Qed.

Lemma same_cols_refl (r : Web.row) : same_cols 0 r r /\ others_kept r r.
Proof. unfold same_cols, others_kept. frame. Qed.

Lemma reached_same (p p' : parser) :
  reached p ->
  done p' = done p -> row p' = row p -> appended p' = appended p ->
  td_count p' = td_count p -> inside_td p' = inside_td p ->
  reached p'.
Proof.
  intros R Hd Hr Ha Ht Hi.
  apply (reached_row p p' R Hd Ha Ht Hi); rewrite Hr; apply same_cols_refl.
Qed.

Lemma col_empty_fresh (k : nat) : col_empty k fresh_row.
Proof.
  destruct k as [|[|[|[|[|[|[|[|[|[|k]]]]]]]]]]; cbn; auto.
Qed.

Lemma starttag_reached (p : parser) (tag : string)
    (attrs : list (string * string)) :
  reached p -> reached (handle_starttag p tag attrs).
Proof.
  intro R. unfold handle_starttag.
  destruct (String.eqb tag "tr").
  { destruct (Dict.get "class" (attrs_dict attrs)) as [c|]; [|exact R].
    destruct (String.eqb c "BgWhite" || String.eqb c "BgSilver"); [|exact R].
    destruct R as (U & D & A). split; [|split]; cbn [done row appended].
    - intros k _. apply col_empty_fresh.
    - destruct (appended p); [|exact D].
      apply Forall_app. split; [exact D|].
      constructor; [now apply A | constructor].
    - discriminate. }
  destruct (String.eqb tag "td" && inside_tr p).
  { destruct R as (U & D & A).
    split; [|split]; cbn [done row appended]; [|exact D | exact A].
    intros k Hk. cbn [td_count inside_td row] in *. apply U. lia. }
  destruct (String.eqb tag "span" && _); [now apply (reached_same p)|].
  destruct (String.eqb tag "a" && inside_td p).
  { destruct ((td_count p =? 4)%nat && Dict.mem "title" (attrs_dict attrs));
      [now apply (reached_same p)|].
    destruct ((td_count p =? 5)%nat
              && negb (Py.truthy (Web.solicitation_url (row p)))) eqn:E;
      [|now apply (reached_same p)].
    apply andb_true_iff in E as [_ E]. apply negb_true_iff in E.
    apply (reached_row p); try reflexivity; try exact R; cbn [row].
    - unfold same_cols. frame.
    - unfold others_kept, has_documents. frame.
      cbn. congruence. }
  destruct (String.eqb tag "img" && inside_td p); [|exact R].
  destruct ((td_count p =? 5)%nat && Dict.mem "alt" (attrs_dict attrs)
            && Py.truthy (Py.strip (attr "alt" (attrs_dict attrs)))) eqn:E;
    [|exact R].
  apply andb_true_iff in E as [_ E].
  apply (reached_row p); try reflexivity; try exact R; cbn [row with_row].
  - unfold same_cols. frame.
  - unfold others_kept, has_documents. frame.
Qed.

Lemma endtag_reached (p : parser) (tag : string) :
  reached p -> reached (handle_endtag strptime p tag).
Proof.
  intro R. unfold handle_endtag.
  destruct (String.eqb tag "tr" && inside_tr p).
  { destruct R as (U & D & A).
    split; [|split]; cbn [done row appended]; [exact U | exact D|].
    destruct (any_values (row p)); auto. }
  destruct (String.eqb tag "td" && inside_td p) eqn:E.
  { apply andb_true_iff in E as [_ E].
    destruct R as (U & D & A).
    destruct (cell_same_cols (td_count p)
                (Py.strip (Py.join Py.blank (td_content p))) (row p))
      as [Sc O].
    split; [|split]; cbn [done row appended]; [|exact D|].
    - intros k Hk. cbn [td_count inside_td row] in *.
      destruct Hk as [Hk | [_ Hk]]; [|discriminate Hk].
      apply (same_cols_col _ _ _ _ Sc); [lia | apply U; lia].
    - intro Ha. apply (same_cols_any _ _ _ Sc O); [apply U; now right | auto]. }
  destruct (String.eqb tag "a" && inside_a p).
  { apply (reached_row p); try reflexivity; try exact R; cbn [row].
    - destruct (current_tech_doc p) as [doc|]; [|apply same_cols_refl].
      destruct (collecting_tech_docs p && Py.truthy (Doc.url doc));
        [|apply same_cols_refl].
      unfold same_cols. frame.
    - destruct (current_tech_doc p) as [doc|]; [|apply same_cols_refl].
      destruct (collecting_tech_docs p && Py.truthy (Doc.url doc));
        [|apply same_cols_refl].
      unfold others_kept, has_documents. frame.
      cbn. now destruct (Web.technical_documents (row p)). }
  destruct (String.eqb tag "span" && inside_count p);
    [now apply (reached_same p) | exact R].
Qed.

Lemma data_reached (p : parser) (data : string) :
  reached p -> reached (handle_data p data).
Proof.
  intro R. unfold handle_data.
  destruct (negb (Py.truthy (Py.strip data))); [exact R|].
  destruct (inside_count p).
  { destruct (first_digits (Py.strip data)) as [digits|]; [|exact R].
    destruct (Py.int digits); [now apply (reached_same p) | exact R]. }
  destruct (inside_a p); [now apply (reached_same p)|].
  destruct (inside_td p) eqn:Etd; [|exact R].
  apply (reached_same p); try reflexivity; [exact R | now rewrite Etd].
Qed.

Lemma feed_reached (pg : page) :
  forall p, reached p -> reached (RfqRecs.feed strptime p pg).
Proof.
  unfold RfqRecs.feed.
  induction pg as [|ev pg IH]; intros p R; [exact R|].
  cbn [fold_left]. apply IH.
  destruct ev as [tag attrs | tag | data]; cbn [RfqRecs.step].
  - now apply starttag_reached.
  - now apply endtag_reached.
  - now apply data_reached.
Qed.

(** Every row that the parser returns has a value in some field.  A row
    is appended only when it has one, and although the parser may write
    to a row after appending it, it writes a cell only to fields that are
    still empty and never empties a link, an image text or the
    documents. *)
Theorem parsed_rows_are_not_empty (pg : page) :
  Forall (fun r => any_values r = true) (snd (RfqRecs.parse strptime pg)).
Proof.
  destruct (feed_reached pg init) as (_ & D & A).
  { split; [|split].
    - intros k _. apply col_empty_fresh.
    - constructor.
    - discriminate. }
  unfold RfqRecs.parse, get_data. cbn [snd].
  apply Forall_app. split; [exact D|].
  destruct (appended (RfqRecs.feed strptime init pg)); [|constructor].
  constructor; [now apply A | constructor].
Qed.

End RowsNotEmpty.

(** ** The merge and the exception of the quantity *)

Section MergeRun.

Import Combined.

Variable strptime : string -> string -> option string.
Context {PyFloat : Type}.
Variable float : string -> option PyFloat.
Variable utcnow : string.



End MergeRun.
